(** * ClawWatch Setup: the pairing-code registry

    A shallow embedding of the pairing-code logic of the repository:

    - [api/webhook.js]  (module [Webhook])  : the Telegram webhook that issues codes;
    - [api/verify.js]   (module [Verify])   : the endpoint that redeems them;
    - [api/index.js]    (module [Index])    : the production file (first version held
      by the file) with both handlers over one shared map;
    - [api/index.js]    (module [Combined]) : the second version held by the same file
      ("Combined Webhook + Verify API").

    JavaScript values are the values [JSON.parse] can produce, strings are sequences of
    UTF-16 code units, the [Map] [pendingCodes] is an insertion-ordered association
    list, and everything a handler reads from its environment ([Date.now()],
    [Math.random()], the outcome of an awaited [fetch]) is an explicit argument.
    The arithmetic of [generateCode] is that of binary64 numbers (module
    [Double]): every operation rounds to nearest, ties to even. *)

From Stdlib Require Import ZArith NArith QArith Qround Qpower List Bool Lia Lqa String Ascii.
From Stdlib Require SpecFloat.
Import ListNotations.
Local Open Scope Z_scope.

(* ================================================================== *)
(** ** JavaScript strings *)

(** A string is its sequence of UTF-16 code units. *)
Definition jsstring := list N.

(** A literal of the source, written in ASCII. *)
Definition str (s : string) : jsstring :=
  map N_of_ascii (list_ascii_of_string s).

Module JsString.

(** [a === b] on strings. *)
Fixpoint eqb (a b : jsstring) : bool :=
  match a, b with
  | [], [] => true
  | x :: a', y :: b' => N.eqb x y && eqb a' b'
  | _, _ => false
  end.

(** ECMAScript [WhiteSpace] and [LineTerminator] code points, the ones
    [String.prototype.trim] strips: TAB, LF, VT, FF, CR, SP, NBSP, U+1680,
    U+2000..U+200A, U+2028, U+2029, U+202F, U+205F, U+3000, U+FEFF. *)
Definition is_space (c : N) : bool :=
  (existsb (N.eqb c)
     [9; 10; 11; 12; 13; 32; 160; 5760; 8232; 8233; 8239; 8287; 12288; 65279]
   || ((8192 <=? c) && (c <=? 8202)))%N.

Fixpoint trimStart (s : jsstring) : jsstring :=
  match s with
  | [] => []
  | c :: rest => if is_space c then trimStart rest else s
  end.

Definition trimEnd (s : jsstring) : jsstring := rev (trimStart (rev s)).

(** [s.trim()] *)
Definition trim (s : jsstring) : jsstring := trimEnd (trimStart s).

Fixpoint startsWith (s p : jsstring) : bool :=
  match p, s with
  | [], _ => true
  | _ :: _, [] => false
  | x :: p', y :: s' => N.eqb x y && startsWith s' p'
  end.

(** [s.includes(p)] *)
Fixpoint includes (s p : jsstring) : bool :=
  startsWith s p || match s with [] => false | _ :: s' => includes s' p end.

(** [\d] without the [u] flag: the ASCII digits 0..9 only. *)
Definition is_digit (c : N) : bool := ((48 <=? c) && (c <=? 57))%N.

(** [/^\d{6}$/.test(s)] *)
Definition test_six_digits (s : jsstring) : bool :=
  (List.length s =? 6)%nat && forallb is_digit s.

(** The decimal digit [d] (0..9) as a code unit. *)
Definition digit (d : Z) : N := Z.to_N (48 + d).

Fixpoint digits_of (fuel : nat) (n : Z) (acc : jsstring) : jsstring :=
  match fuel with
  | O => acc
  | S fuel' =>
      let acc' := digit (n mod 10) :: acc in
      if n / 10 =? 0 then acc' else digits_of fuel' (n / 10) acc'
  end.

(** The decimal numeral of [n >= 0]; a number has at most [log2 n + 1] digits. *)
Definition decimal (n : Z) : jsstring :=
  digits_of (S (Z.to_nat (Z.log2 n))) n [].

(** [Number.prototype.toString] on a safe integer (of magnitude below 2^53):
    its decimal digits.  Larger numbers, which print with the shortest digits
    that read back as the same double, are outside this model. *)
Definition of_number (n : Z) : jsstring :=
  if n <? 0 then 45%N :: decimal (- n) else decimal n.

End JsString.

(* ================================================================== *)
(** ** JavaScript values *)

(** What [JSON.parse] produces, and [undefined] for what is absent.  Numbers are
    the safe integers, of magnitude below 2^53 (Telegram ids, timestamps,
    numeric codes). *)
#[warnings="-register-all"]
Inductive value : Type :=
| VUndefined
| VNull
| VBool (b : bool)
| VNum (n : Z)
| VStr (s : jsstring)
| VArr (elems : list value)
| VObj (props : list (jsstring * value)).

Module Js.

(** ToBoolean: [!v] is [negb (truthy v)]. *)
Definition truthy (v : value) : bool :=
  match v with
  | VUndefined | VNull => false
  | VBool b => b
  | VNum n => negb (n =? 0)
  | VStr s => match s with [] => false | _ => true end
  | VArr _ | VObj _ => true
  end.

(** [a || b] *)
Definition or (a b : value) : value := if truthy a then a else b.

Fixpoint own (k : jsstring) (props : list (jsstring * value)) : option value :=
  match props with
  | [] => None
  | (k', v) :: rest => if JsString.eqb k k' then Some v else own k rest
  end.

(** [v.k] for the property names the handlers read ([message], [code], [text],
    [chat], [from], [id], [username], [first_name], [chatId]): none of them is a property
    of a primitive's or an array's prototype, so only an object's own property
    can answer; reading a property of [undefined] or [null] throws a TypeError
    ([None]). *)
Definition get (v : value) (k : jsstring) : option value :=
  match v with
  | VUndefined | VNull => None
  | VObj props => Some (match own k props with Some x => x | None => VUndefined end)
  | _ => Some VUndefined
  end.

(** [v?.k]: [undefined] where [v.k] would throw. *)
Definition get_opt (v : value) (k : jsstring) : value :=
  match get v k with Some x => x | None => VUndefined end.

(** ToString, as a template literal applies it; [None] is a TypeError.  A parsed
    object holds no function, so an own property named [toString] shadows
    [Object.prototype.toString] with something that cannot be called. *)
Fixpoint to_string (v : value) : option jsstring :=
  match v with
  | VUndefined => Some (str "undefined")
  | VNull => Some (str "null")
  | VBool true => Some (str "true")
  | VBool false => Some (str "false")
  | VNum n => Some (JsString.of_number n)
  | VStr s => Some s
  | VArr elems =>
      (fix join (l : list value) : option jsstring :=
         match l with
         | [] => Some []
         | x :: rest =>
             let sx := match x with
                       | VUndefined | VNull => Some []
                       | _ => to_string x
                       end in
             match rest with
             | [] => sx
             | _ :: _ =>
                 match sx, join rest with
                 | Some a, Some b => Some (a ++ str "," ++ b)
                 | _, _ => None
                 end
             end
         end) elems
  | VObj props =>
      match own (str "toString") props with
      | Some _ => None
      | None => Some (str "[object Object]")
      end
  end.

(** [v.toString()]: the method call throws on [undefined] and [null]. *)
Definition call_toString (v : value) : option jsstring :=
  match v with
  | VUndefined | VNull => None
  | _ => to_string v
  end.

(** [v.trim()]: only a string has the method. *)
Definition call_trim (v : value) : option jsstring :=
  match v with
  | VStr s => Some (JsString.trim s)
  | _ => None
  end.

End Js.

(* ================================================================== *)
(** ** [Map]: the container behind [pendingCodes] *)

(** A [Map] keyed by strings, as the list of its entries in insertion order.
    A [Map] holds one entry per key: [wf] says so, [set] and [delete] keep it. *)
Module JsMap.
Section WithValues.
Context {V : Type}.

Definition t := list (jsstring * V).

(** [new Map()] *)
Definition empty : t := [].

(** [m.get(k)]; [None] is [undefined]. *)
Fixpoint get (k : jsstring) (m : t) : option V :=
  match m with
  | [] => None
  | (k', v) :: rest => if JsString.eqb k k' then Some v else get k rest
  end.

(** [m.has(k)] *)
Definition has (k : jsstring) (m : t) : bool :=
  match get k m with Some _ => true | None => false end.

(** [m.set(k, v)]: an existing entry keeps its place, a new one goes last. *)
Fixpoint set (k : jsstring) (v : V) (m : t) : t :=
  match m with
  | [] => [(k, v)]
  | (k', v') :: rest =>
      if JsString.eqb k k' then (k, v) :: rest else (k', v') :: set k v rest
  end.

(** [m.delete(k)] *)
Definition delete (k : jsstring) (m : t) : t :=
  filter (fun e => negb (JsString.eqb k (fst e))) m.

(** [m.entries()] and [m.keys()], in insertion order; [m.size]. *)
Definition entries (m : t) : list (jsstring * V) := m.
Definition keys (m : t) : list jsstring := map fst m.
Definition size (m : t) : Z := Z.of_nat (List.length m).

(** One entry per key. *)
Definition wf (m : t) : Prop := NoDup (keys m).

End WithValues.
Arguments t : clear implicits.
End JsMap.

(* ================================================================== *)
(** ** Numbers: IEEE 754 binary64

    A finite double is a rational [m * 2^e] with [|m| < 2^53] and
    [-1074 <= e <= 971]; it is modelled by that rational.  An arithmetic
    operation of JavaScript returns the exact result rounded to the nearest
    double, ties to the one with an even significand. *)

Module Double.

(** 2^k *)
Definition pow2 (k : Z) : Q := (2 ^ k)%Q.

(** The binade of [q > 0]: the [e] with [2^e <= q < 2^(e+1)].  With
    [a = log2 (numerator)] and [b = log2 (denominator)] it is [a - b] or
    [a - b - 1]. *)
Definition exponent (q : Q) : Z :=
  let k := Z.log2 (Qnum q) - Z.log2 (Zpos (Qden q)) in
  if Qle_bool (pow2 k) q then k else k - 1.

(** The nearest integer, the even one of two that are equally near. *)
Definition nearest_even (x : Q) : Z :=
  let f := Qfloor x in
  match (x - inject_Z f ?= 1 # 2)%Q with
  | Lt => f
  | Gt => f + 1
  | Eq => if Z.even f then f else f + 1
  end.

(** The distance between the doubles around [q > 0]: 53 significant bits,
    and no exponent below -1074 (the subnormal numbers). *)
Definition ulp (q : Q) : Q := pow2 (Z.max (exponent q - 52) (-1074)).

(** Rounding to nearest, ties to even.  Results of magnitude 2^1024 and above
    (infinity in binary64) are outside this model; no number of the program
    comes near. *)
Definition round (q : Q) : Q :=
  match Qnum q with
  | Z0 => 0%Q
  | Zpos _ => (inject_Z (nearest_even (q / ulp q)) * ulp q)%Q
  | Zneg _ => (- (inject_Z (nearest_even (- q / ulp (- q))) * ulp (- q)))%Q
  end.

(** [q] is a finite double. *)
Definition finite (q : Q) : Prop :=
  exists m e, Z.abs m < 2 ^ 53 /\ -1074 <= e <= 971
              /\ (q == inject_Z m * pow2 e)%Q.

(** The rational a finite value of the Standard Library's specification of
    binary64 ([SpecFloat]) stands for; it serves to compare [round] with that
    specification on given numbers. *)
Definition of_spec (f : SpecFloat.spec_float) : Q :=
  match f with
  | SpecFloat.S754_finite s m e =>
      ((if s then - (1) else 1) * inject_Z (Zpos m) * pow2 e)%Q
  | _ => 0%Q
  end.

(** [x * y] and [x + y] of two doubles given as [m * 2^e], by [SpecFloat]. *)
Definition spec_mul (x y : SpecFloat.spec_float) : SpecFloat.spec_float :=
  SpecFloat.SFmul 53 1024 x y.
Definition spec_add (x y : SpecFloat.spec_float) : SpecFloat.spec_float :=
  SpecFloat.SFadd 53 1024 x y.

End Double.

(* ================================================================== *)
(** ** What the three files share *)

(** The object stored per code.  [createdAt] is absent ([None]) from the records
    [Index.handleWebhook] stores. *)
Record codeData : Type := mkCodeData {
  chatId : value;
  userId : value;
  username : value;
  firstName : value;
  createdAt : option Z;
  expiresAt : Z
}.

(** [pendingCodes] *)
Definition store := JsMap.t codeData.

(** [const CODE_EXPIRY_MS = 5 * 60 * 1000;] *)
Definition CODE_EXPIRY_MS : Z := 5 * 60 * 1000.

(** [Math.floor(100000 + Math.random() * 900000).toString()], [r] being what
    [Math.random()] returned.  The product and then the sum are rounded to
    binary64; 100000 and 900000 are doubles; [Math.floor] is exact, and the
    result, an integer below 2^53, prints as its decimal digits. *)
Definition generateCode (r : Q) : jsstring :=
  JsString.of_number
    (Qfloor (Double.round (inject_Z 100000 + Double.round (r * inject_Z 900000)))).

(** What [Math.random()] returns: a double, at least 0 and below 1. *)
Definition random_result (r : Q) : Prop :=
  Double.finite r /\ (0 <= r)%Q /\ (r < 1)%Q.

(** [cleanExpiredCodes()], [now] being what its [Date.now()] returned.  The loop
    visits the entries the map held when it started and deletes from the map. *)
Definition cleanExpiredCodes (now : Z) (pendingCodes : store) : store :=
  fold_left
    (fun m '(code, data) =>
       if now >? expiresAt data then JsMap.delete code m else m)
    (JsMap.entries pendingCodes) pendingCodes.

(** [do { code = generateCode(); } while (pendingCodes.has(code));] over the
    successive results of [Math.random()].  [None]: every draw at hand collided and
    the loop is still running. *)
Fixpoint pick_code (draws : list Q) (pendingCodes : store) : option jsstring :=
  match draws with
  | [] => None
  | r :: later =>
      let code := generateCode r in
      if JsMap.has code pendingCodes then pick_code later pendingCodes
      else Some code
  end.

(** A request as the handlers read it ([req.url] is the path and query of
    the request line), and the response they send:
    [res.status(s).json(b)] is [send s b], [res.status(s).end()] has no body.  The
    CORS headers [Verify.handler] sets are not part of the model. *)
Record request : Type := mkRequest {
  method : jsstring;
  url : jsstring;
  body : value
}.

Record response : Type := mkResponse {
  status : Z;
  json : option value
}.

Definition send (s : Z) (b : value) : response := mkResponse s (Some b).
Definition send_end (s : Z) : response := mkResponse s None.

(** A step that may throw: [x <- e ;; k] runs [k] on the result of [e] and
    propagates the exception ([None]) otherwise. *)
Notation "x <- e ;; k" :=
  (match e with Some x => k | None => None end)
  (at level 61, e at next level, right associativity).

(** What a call of a handler comes to: the response it sent and the map it
    left.  [None] (only from the resampling loop) is a call that has not
    returned with the draws at hand. *)
Definition outcome : Type := option (response * store).

Definition ok_true : value := VObj [(str "ok", VBool true)].
Definition error (msg : string) : value := VObj [(str "error", VStr (str msg))].
Definition failure (msg : string) : value :=
  VObj [(str "success", VBool false); (str "error", VStr (str msg))].

(* ================================================================== *)
(** ** [api/webhook.js] *)

Module Webhook.

(** What one call reads from outside: the three results of [Date.now()] (in
    [cleanExpiredCodes], for [createdAt] and for [expiresAt]), the results of
    [Math.random()], and whether the [fetch] awaited by [sendTelegramMessage]
    resolves. *)
Record env : Type := mkEnv {
  now_sweep : Z;
  now_created : Z;
  now_expires : Z;
  random : list Q;
  delivered : bool
}.

(** The constants the handler binds from [message]; a read through
    [undefined] or [null], or [trim] on a text that is no string, throws. *)
Record update : Type := mkUpdate {
  u_chatId : value;
  u_userId : value;
  u_username : value;
  u_firstName : value;
  u_text : jsstring
}.

Definition read_update (message : value) : option update :=
  chat <- Js.get message (str "chat") ;;
  chatId <- Js.get chat (str "id") ;;
  from <- Js.get message (str "from") ;;
  userId <- Js.get from (str "id") ;;
  username <- Js.get from (str "username") ;;
  first_name <- Js.get from (str "first_name") ;;
  mtext <- Js.get message (str "text") ;;
  text <- Js.call_trim mtext ;;
  Some (mkUpdate chatId userId (Js.or username (VStr (str "")))
          (Js.or first_name (VStr (str "there"))) text).

(** The [try] block up to [cleanExpiredCodes()]: the response sent without a
    look at the map ([inl]), or the constants the rest goes on with ([inr]). *)
Definition read_body (b : value) : response + update :=
  let thrown := inl (send 500 (error "Internal error")) in
  match Js.get b (str "message") with
  | None => thrown
  | Some message =>
      if negb (Js.truthy message) then inl (send 200 ok_true)
      else
        match Js.get message (str "text") with
        | None => thrown
        | Some mtext =>
            if negb (Js.truthy mtext) then inl (send 200 ok_true)
            else
              match read_update message with
              | None => thrown
              | Some u => inr u
              end
        end
  end.

Definition preamble (req : request) : response + update :=
  if negb (JsString.eqb (method req) (str "POST")) then
    inl (send 405 (error "Method not allowed"))
  else read_body (body req).

(** The record [/connect] stores. *)
Definition new_record (u : update) (e : env) : codeData :=
  mkCodeData (u_chatId u) (u_userId u) (u_username u) (u_firstName u)
    (Some (now_created e)) (now_expires e + CODE_EXPIRY_MS).

(** The [try] block from [cleanExpiredCodes()] on. *)
Definition dispatch (u : update) (e : env) (pendingCodes : store) : outcome :=
  let pendingCodes := cleanExpiredCodes (now_sweep e) pendingCodes in
  let thrown := Some (send 500 (error "Internal error"), pendingCodes) in
  if JsString.eqb (u_text u) (str "/start") then
    match Js.to_string (u_firstName u) with
    | None => thrown
    | Some _ =>
        if delivered e then Some (send 200 ok_true, pendingCodes) else thrown
    end
  else if JsString.eqb (u_text u) (str "/connect") then
    match pick_code (random e) pendingCodes with
    | None => None
    | Some code =>
        let pendingCodes := JsMap.set code (new_record u e) pendingCodes in
        let thrown := Some (send 500 (error "Internal error"), pendingCodes) in
        if delivered e then
          (* [console.log(`Generated code ${code} for user ${userId}`)] *)
          match Js.to_string (u_userId u) with
          | None => thrown
          | Some _ => Some (send 200 ok_true, pendingCodes)
          end
        else thrown
    end
  else
    (* [/help] and any other text: one message each *)
    if delivered e then Some (send 200 ok_true, pendingCodes) else thrown.

Definition handler (req : request) (e : env) (pendingCodes : store) : outcome :=
  match preamble req with
  | inl r => Some (r, pendingCodes)
  | inr u => dispatch u e pendingCodes
  end.

End Webhook.

(* ================================================================== *)
(** ** [api/verify.js] *)

Module Verify.

(** The two results of [Date.now()] (the expiry check, the session token) and
    [process.env.OPENCLAW_API_URL] (a string, or [undefined]). *)
Record env : Type := mkEnv {
  now_check : Z;
  now_token : Z;
  OPENCLAW_API_URL : value
}.

(** Lines 19-48: the response sent without a look at the map ([inl]), or
    [codeStr] ([inr]). *)
Definition preamble (req : request) : response + jsstring :=
  if JsString.eqb (method req) (str "OPTIONS") then inl (send_end 200)
  else if negb (JsString.eqb (method req) (str "POST")) then
    inl (send 405 (failure "Method not allowed"))
  else
    let thrown := inl (send 500 (failure "Server error")) in
    match Js.get (body req) (str "code") with
    | None => thrown
    | Some code =>
        if negb (Js.truthy code) then inl (send 400 (failure "Code is required"))
        else
          match Js.call_toString code with
          | None => thrown
          | Some s =>
              let codeStr := JsString.trim s in
              if negb (JsString.test_six_digits codeStr) then
                inl (send 400 (failure "Invalid code format"))
              else inr codeStr
          end
    end.

Definition config (data : codeData) (uid : jsstring) (e : env) : value :=
  VObj [(str "userId", userId data);
        (str "chatId", chatId data);
        (str "username", Js.or (username data) VNull);
        (str "firstName", Js.or (firstName data) VNull);
        (str "apiEndpoint",
          Js.or (OPENCLAW_API_URL e) (VStr (str "https://api.openclaw.ai/v1")));
        (str "sessionToken",
          VStr (str "cw_" ++ uid ++ str "_" ++ JsString.of_number (now_token e)))].

(** Lines 50-85. *)
Definition redeem (codeStr : jsstring) (e : env) (pendingCodes : store)
  : response * store :=
  match JsMap.get codeStr pendingCodes with
  | None => (send 404 (failure "Invalid or expired code"), pendingCodes)
  | Some data =>
      if now_check e >? expiresAt data then
        (send 410 (failure "Code has expired. Please request a new one."),
         JsMap.delete codeStr pendingCodes)
      else
        let pendingCodes := JsMap.delete codeStr pendingCodes in
        (* the template literal of [console.log] reads [userId] first *)
        match Js.to_string (userId data) with
        | None => (send 500 (failure "Server error"), pendingCodes)
        | Some uid =>
            (send 200
               (VObj [(str "success", VBool true);
                      (str "config", config data uid e)]),
             pendingCodes)
        end
  end.

Definition handler (req : request) (e : env) (pendingCodes : store)
  : response * store :=
  match preamble req with
  | inl r => (r, pendingCodes)
  | inr codeStr => redeem codeStr e pendingCodes
  end.

End Verify.

(* ================================================================== *)
(** ** [api/index.js], the production version (with Supabase)

    [handleSend], [handleResponse], [handleMessages] and [handleCheck] neither
    read nor write [pendingCodes]; the exported [handler] only routes
    ([route]) and calls the handler it chose. *)

Module Index.

(** [handleWebhook] reads the clock twice (sweep, [expiresAt]). *)
Record webhook_env : Type := mkWebhookEnv {
  w_now_sweep : Z;
  w_now_expires : Z;
  w_random : list Q;
  w_delivered : bool
}.

(** [handleVerify] reads the clock for the sweep and for the expiry test;
    [v_registered] says whether the awaited [addUser] returned (it throws when
    its [fetch] rejects or the reply cannot be read). *)
Record verify_env : Type := mkVerifyEnv {
  v_now_sweep : Z;
  v_now_check : Z;
  v_registered : bool
}.

Record update : Type := mkUpdate {
  u_chatId : value;
  u_from : value;
  u_firstName : value;
  u_text : jsstring
}.

Definition read_update (message : value) : option update :=
  chat <- Js.get message (str "chat") ;;
  chatId <- Js.get chat (str "id") ;;
  from <- Js.get message (str "from") ;;
  first_name <- Js.get from (str "first_name") ;;
  mtext <- Js.get message (str "text") ;;
  text <- Js.call_trim mtext ;;
  Some (mkUpdate chatId from (Js.or first_name (VStr (str "there"))) text).

Definition preamble (req : request) : response + update :=
  let thrown := inl (send 500 (error "Internal error")) in
  match Js.get (body req) (str "message") with
  | None => thrown
  | Some message =>
      if negb (Js.truthy message) then inl (send 200 ok_true)
      else
        match Js.get message (str "text") with
        | None => thrown
        | Some mtext =>
            if negb (Js.truthy mtext) then inl (send 200 ok_true)
            else
              match read_update message with
              | None => thrown
              | Some u => inr u
              end
        end
  end.

(** [from.k] once [from.first_name] has been read: [from] is neither
    [undefined] nor [null], the read cannot throw. *)
Definition field (from : value) (k : string) : value :=
  match Js.get from (str k) with Some v => v | None => VUndefined end.

(** The record [/connect] stores: no [createdAt], [username] as it came. *)
Definition new_record (u : update) (e : webhook_env) : codeData :=
  mkCodeData (u_chatId u) (field (u_from u) "id") (field (u_from u) "username")
    (u_firstName u) None (w_now_expires e + CODE_EXPIRY_MS).

Definition dispatch (u : update) (e : webhook_env) (pendingCodes : store)
  : outcome :=
  let pendingCodes := cleanExpiredCodes (w_now_sweep e) pendingCodes in
  let thrown := Some (send 500 (error "Internal error"), pendingCodes) in
  if JsString.eqb (u_text u) (str "/start") then
    match Js.to_string (u_firstName u) with
    | None => thrown
    | Some _ =>
        if w_delivered e then Some (send 200 ok_true, pendingCodes) else thrown
    end
  else if JsString.eqb (u_text u) (str "/connect") then
    match pick_code (w_random e) pendingCodes with
    | None => None
    | Some code =>
        let pendingCodes := JsMap.set code (new_record u e) pendingCodes in
        if w_delivered e then Some (send 200 ok_true, pendingCodes)
        else Some (send 500 (error "Internal error"), pendingCodes)
    end
  else
    if w_delivered e then Some (send 200 ok_true, pendingCodes) else thrown.

Definition handleWebhook (req : request) (e : webhook_env) (pendingCodes : store)
  : outcome :=
  match preamble req with
  | inl r => Some (r, pendingCodes)
  | inr u => dispatch u e pendingCodes
  end.

(** Where the exported [handler] sends a request. *)
Inductive target : Type :=
| ToMessages | ToResponse | ToCheck | ToSend | ToWebhook | ToVerify | ToInfo.

Definition route (req : request) : target :=
  let path := url req in
  if JsString.includes path (str "/messages") then ToMessages
  else if JsString.includes path (str "/response") then ToResponse
  else if JsString.includes path (str "/check") then ToCheck
  else if JsString.includes path (str "/send") then ToSend
  else if JsString.eqb (method req) (str "POST")
          && Js.truthy (Js.get_opt (body req) (str "message"))
          && negb (Js.truthy (Js.get_opt (body req) (str "chatId")))
       then ToWebhook
  else if JsString.eqb (method req) (str "POST")
          || JsString.eqb (method req) (str "OPTIONS")
       then ToVerify
  else ToInfo.

(** [handleVerify] up to the format test. *)
Definition verify_preamble (req : request) : response + jsstring :=
  if JsString.eqb (method req) (str "OPTIONS") then inl (send_end 200)
  else
    let thrown := inl (send 500 (failure "Server error")) in
    match Js.get (body req) (str "code") with
    | None => thrown
    | Some code =>
        if negb (Js.truthy code) then inl (send 400 (failure "Code required"))
        else
          match Js.call_toString code with
          | None => thrown
          | Some s =>
              let codeStr := JsString.trim s in
              if negb (JsString.test_six_digits codeStr) then
                inl (send 400 (failure "Invalid code format"))
              else inr codeStr
          end
    end.

Definition config (data : codeData) : value :=
  VObj [(str "userId", userId data);
        (str "chatId", chatId data);
        (str "username", Js.or (username data) VNull);
        (str "firstName", Js.or (firstName data) VNull)].

(** [handleVerify] from [cleanExpiredCodes()] on. *)
Definition redeem (codeStr : jsstring) (e : verify_env) (pendingCodes : store)
  : response * store :=
  let pendingCodes := cleanExpiredCodes (v_now_sweep e) pendingCodes in
  let miss :=
    (send 404 (failure "Invalid or expired code"),
     JsMap.delete codeStr pendingCodes) in
  match JsMap.get codeStr pendingCodes with
  | None => miss
  | Some data =>
      if v_now_check e >? expiresAt data then miss
      else if negb (v_registered e) then
        (send 500 (failure "Server error"), pendingCodes)
      else
        let pendingCodes := JsMap.delete codeStr pendingCodes in
        (* [console.log(`User ${codeData.chatId} connected`)] *)
        match Js.to_string (chatId data) with
        | None => (send 500 (failure "Server error"), pendingCodes)
        | Some _ =>
            (send 200
               (VObj [(str "success", VBool true); (str "config", config data)]),
             pendingCodes)
        end
  end.

Definition handleVerify (req : request) (e : verify_env) (pendingCodes : store)
  : response * store :=
  match verify_preamble req with
  | inl r => (r, pendingCodes)
  | inr codeStr => redeem codeStr e pendingCodes
  end.

End Index.

(* ================================================================== *)
(** ** [api/index.js], the combined version ("Combined Webhook + Verify API") *)

Module Combined.

(** [handleWebhook] binds [chatId], [userId], [username], [firstName] and
    [text] with the statements of [api/webhook.js] and has no method test:
    its first part is [Webhook.read_body]. *)
Definition dispatch (u : Webhook.update) (e : Webhook.env) (pendingCodes : store)
  : outcome :=
  let pendingCodes := cleanExpiredCodes (Webhook.now_sweep e) pendingCodes in
  let thrown := Some (send 500 (error "Internal error"), pendingCodes) in
  if JsString.eqb (Webhook.u_text u) (str "/start") then
    match Js.to_string (Webhook.u_firstName u) with
    | None => thrown
    | Some _ =>
        if Webhook.delivered e then Some (send 200 ok_true, pendingCodes)
        else thrown
    end
  else if JsString.eqb (Webhook.u_text u) (str "/connect") then
    match pick_code (Webhook.random e) pendingCodes with
    | None => None
    | Some code =>
        let pendingCodes := JsMap.set code (Webhook.new_record u e) pendingCodes in
        let thrown := Some (send 500 (error "Internal error"), pendingCodes) in
        (* here [console.log] comes before the message is sent *)
        match Js.to_string (Webhook.u_userId u) with
        | None => thrown
        | Some _ =>
            if Webhook.delivered e then Some (send 200 ok_true, pendingCodes)
            else thrown
        end
    end
  else
    (* [/help], [/debug] and any other text: one message each *)
    if Webhook.delivered e then Some (send 200 ok_true, pendingCodes) else thrown.

Definition handleWebhook (req : request) (e : Webhook.env) (pendingCodes : store)
  : outcome :=
  match Webhook.read_body (body req) with
  | inl r => Some (r, pendingCodes)
  | inr u => dispatch u e pendingCodes
  end.

(** Where the exported [handler] of this version sends a request. *)
Definition route (req : request) : Index.target :=
  let path := url req in
  if JsString.eqb (method req) (str "POST")
     && Js.truthy (Js.get_opt (body req) (str "message"))
     && negb (Js.truthy (Js.get_opt (body req) (str "chatId")))
  then Index.ToWebhook
  else if JsString.includes path (str "/send")
          || (JsString.eqb (method req) (str "POST")
              && Js.truthy (Js.get_opt (body req) (str "chatId"))
              && Js.truthy (Js.get_opt (body req) (str "message")))
       then Index.ToSend
  else if JsString.eqb (method req) (str "POST")
          || JsString.eqb (method req) (str "OPTIONS")
       then Index.ToVerify
  else Index.ToInfo.

(** Three results of [Date.now()]: sweep, expiry test, session token. *)
Record verify_env : Type := mkVerifyEnv {
  v_now_sweep : Z;
  v_now_check : Z;
  v_now_token : Z;
  v_OPENCLAW_API_URL : value
}.

Definition token_env (e : verify_env) : Verify.env :=
  Verify.mkEnv (v_now_check e) (v_now_token e) (v_OPENCLAW_API_URL e).

Definition verify_preamble (req : request) : response + jsstring :=
  if JsString.eqb (method req) (str "OPTIONS") then inl (send_end 200)
  else
    let thrown := inl (send 500 (failure "Server error")) in
    match Js.get (body req) (str "code") with
    | None => thrown
    | Some code =>
        (* [console.log(`Verify attempt for code: ${code}, ...`)] *)
        match Js.to_string code with
        | None => thrown
        | Some _ =>
            if negb (Js.truthy code) then
              inl (send 400 (failure "Code is required"))
            else
              match Js.call_toString code with
              | None => thrown
              | Some s =>
                  let codeStr := JsString.trim s in
                  if negb (JsString.test_six_digits codeStr) then
                    inl (send 400 (failure "Invalid code format"))
                  else inr codeStr
              end
        end
    end.

Definition redeem (codeStr : jsstring) (e : verify_env) (pendingCodes : store)
  : response * store :=
  let pendingCodes := cleanExpiredCodes (v_now_sweep e) pendingCodes in
  match JsMap.get codeStr pendingCodes with
  | None => (send 404 (failure "Invalid or expired code"), pendingCodes)
  | Some data =>
      if v_now_check e >? expiresAt data then
        (send 410 (failure "Code has expired"), JsMap.delete codeStr pendingCodes)
      else
        let pendingCodes := JsMap.delete codeStr pendingCodes in
        match Js.to_string (userId data) with
        | None => (send 500 (failure "Server error"), pendingCodes)
        | Some uid =>
            (send 200
               (VObj [(str "success", VBool true);
                      (str "config", Verify.config data uid (token_env e))]),
             pendingCodes)
        end
  end.

Definition handleVerify (req : request) (e : verify_env) (pendingCodes : store)
  : response * store :=
  match verify_preamble req with
  | inl r => (r, pendingCodes)
  | inr codeStr => redeem codeStr e pendingCodes
  end.

End Combined.


(* ================================================================== *)
(** ** [api/index.js], production: the Supabase helpers *)

Module Supabase.

(** [process.env.SUPABASE_URL] and [process.env.SUPABASE_ANON_KEY]: a string
    each, or [undefined] ([None]). *)
Record config : Type := mkConfig {
  SUPABASE_URL : option jsstring;
  SUPABASE_ANON_KEY : option jsstring
}.

(** [!v] for such a variable: it is unset or the empty string. *)
Definition unset (v : option jsstring) : bool :=
  match v with
  | Some (_ :: _) => false
  | _ => true
  end.

(** The [options] a caller passes: [method], the value [JSON.stringify] is
    applied to for [body], and [headers.Prefer]; each may be absent.  No
    caller sets [options.prefer]. *)
Record options : Type := mkOptions {
  o_method : option jsstring;
  o_body : option value;
  o_headers_Prefer : option jsstring
}.

(** A call of [fetch]: the address, what [...options] contributes, and the
    two headers that vary. *)
Record fetch_call : Type := mkFetch {
  f_url : jsstring;
  f_method : option jsstring;
  f_body : option value;
  f_apikey : jsstring;
  f_Prefer : jsstring
}.

(** What the awaited [fetch] comes to: it rejects, or it resolves to a
    response with its [ok] and what [response.text()] resolves to ([None]
    when that rejects). *)
Inductive reply : Type :=
| Rejected
| Replied (ok : bool) (text : option jsstring).

Section WithParser.

(** [JSON.parse]; [None] is a SyntaxError. *)
Variable JSON_parse : jsstring -> option value.

(** [supabaseQuery(path, options)]: the calls of [fetch] it made, and what it
    returned ([Some VNull] is [null]); [None] when it threw. *)
Definition supabaseQuery (cfg : config) (net : reply) (path : jsstring)
    (o : options) : list fetch_call * option value :=
  if unset (SUPABASE_URL cfg) || unset (SUPABASE_ANON_KEY cfg) then
    ([], Some VNull)
  else
    match SUPABASE_URL cfg, SUPABASE_ANON_KEY cfg with
    | Some url, Some key =>
        let request :=
          mkFetch (url ++ str "/rest/v1/" ++ path) (o_method o) (o_body o) key
            (match o_headers_Prefer o with
             | Some p => p
             | None => str "return=representation"
             end) in
        match net with
        | Rejected => ([request], None)
        | Replied ok text =>
            match text with
            | None => ([request], None)
            | Some t =>
                if negb ok then ([request], Some VNull)
                else
                  match t with
                  | [] => ([request], Some VNull)
                  | _ :: _ => ([request], JSON_parse t)
                  end
            end
        end
    | _, _ => ([], Some VNull)
    end.

(** [addUser(chatId, firstName, username)], [deviceType] at its default. *)
Definition addUser (cfg : config) (net : reply) (chatId firstName username : value)
  : list fetch_call * option value :=
  supabaseQuery cfg net (str "clawwatch_users")
    (mkOptions (Some (str "POST"))
       (Some (VObj [(str "chat_id", chatId);
                    (str "first_name", firstName);
                    (str "username", username);
                    (str "device_type", VStr (str "phone"))]))
       (Some (str "resolution=merge-duplicates,return=representation"))).

(** [storeMessage(chatId, message)] *)
Definition storeMessage (cfg : config) (net : reply) (chatId message : value)
  : list fetch_call * option value :=
  supabaseQuery cfg net (str "pending_messages")
    (mkOptions (Some (str "POST"))
       (Some (VObj [(str "chat_id", chatId);
                    (str "message", message);
                    (str "delivered", VBool false)]))
       None).

End WithParser.

(** Whether a call of a helper returned (rather than threw). *)
Definition returned (x : list fetch_call * option value) : bool :=
  match snd x with Some _ => true | None => false end.

End Supabase.

(* ================================================================== *)
(** ** [api/index.js], production: [handleResponse] and [handleSend]

    Neither touches [pendingCodes].  Beside the response a handler sent,
    the model gives the requests it made.  [req.body.chatId],
    [req.body.message] and [result.ok] are read like the properties of
    [Js.get]. *)

Module IndexApi.

Section WithParser.

Variable JSON_parse : jsstring -> option value.

Definition handleResponse (req : request) (cfg : Supabase.config)
    (net : Supabase.reply) : response * list Supabase.fetch_call :=
  if JsString.eqb (method req) (str "OPTIONS") then (send_end 200, [])
  else
    let thrown := send 500 (failure "Server error") in
    match Js.get (body req) (str "chatId"), Js.get (body req) (str "message") with
    | Some chatId, Some message =>
        if negb (Js.truthy chatId) || negb (Js.truthy message) then
          (send 400 (failure "Missing chatId or message"), [])
        else
          let stored := Supabase.storeMessage JSON_parse cfg net chatId message in
          match snd stored with
          | None => (thrown, fst stored)
          | Some _ =>
              (* [console.log(`Stored response for ${chatId}`)] *)
              match Js.to_string chatId with
              | None => (thrown, fst stored)
              | Some _ => (send 200 (VObj [(str "success", VBool true)]), fst stored)
              end
          end
    | _, _ => (thrown, [])
    end.

End WithParser.

(** What [handleSend] reads from outside: the two variables of
    [process.env] (a string each, or [undefined]), the result of
    [toLocaleTimeString], and what [response.json()] of the awaited [fetch]
    resolves to ([None] when either rejects). *)
Record send_env : Type := mkSendEnv {
  ED_BOT_TOKEN : value;
  CLAWWATCH_BOT_TOKEN : value;
  timeStr : jsstring;
  telegram : option value
}.

(** A call of Telegram's [sendMessage]: the token in the address, and
    [chat_id], [text] and [parse_mode] of the body. *)
Record telegram_call : Type := mkTelegramCall {
  t_botToken : jsstring;
  t_chat_id : value;
  t_text : jsstring;
  t_parse_mode : option jsstring
}.

(** The watch emoji U+231A. *)
Definition watch : jsstring := [8986%N].

Definition handleSend (req : request) (e : send_env)
  : response * list telegram_call :=
  if JsString.eqb (method req) (str "OPTIONS") then (send_end 200, [])
  else
    let thrown := send 500 (failure "Server error") in
    match Js.get (body req) (str "chatId"), Js.get (body req) (str "message") with
    | Some chatId, Some message =>
        if negb (Js.truthy chatId) || negb (Js.truthy message) then
          (send 400 (failure "Missing chatId or message"), [])
        else
          let botToken := Js.or (ED_BOT_TOKEN e) (CLAWWATCH_BOT_TOKEN e) in
          match Js.to_string message, Js.to_string botToken with
          | Some m, Some token =>
              let formattedMessage :=
                watch ++ str " *[ClawWatch " ++ timeStr e ++ str "]*"
                  ++ [10%N; 10%N] ++ m in
              let request :=
                mkTelegramCall token chatId formattedMessage (Some (str "Markdown")) in
              match telegram e with
              | None => (thrown, [request])
              | Some result =>
                  match Js.get result (str "ok") with
                  | None => (thrown, [request])
                  | Some ok =>
                      (send (if Js.truthy ok then 200 else 500)
                         (VObj [(str "success", ok)]),
                       [request])
                  end
              end
          | _, _ => (thrown, [])
          end
    | _, _ => (thrown, [])
    end.

End IndexApi.

(* ================================================================== *)
(** ** [api/index.js], the combined version: [handleSend] and [/debug] *)

Module CombinedApi.

(** [handleSend]: the address of the request is built from [edBotToken],
    a name the file does not declare; evaluating it throws a ReferenceError
    inside the [try] block, before [fetch] is reached. *)
Definition handleSend (req : request)
  : response * list IndexApi.telegram_call :=
  if JsString.eqb (method req) (str "OPTIONS") then (send_end 200, [])
  else
    let thrown := send 500 (failure "Server error") in
    match Js.get (body req) (str "chatId"), Js.get (body req) (str "message") with
    | Some chatId, Some message =>
        if negb (Js.truthy chatId) || negb (Js.truthy message) then
          (send 400 (failure "Missing chatId or message"), [])
        else (thrown, [])
    | _, _ => (thrown, [])
    end.

(** [keys.join(sep)] on an array of strings. *)
Fixpoint join (sep : jsstring) (keys : list jsstring) : jsstring :=
  match keys with
  | [] => []
  | k :: rest =>
      match rest with
      | [] => k
      | _ :: _ => k ++ sep ++ join sep rest
      end
  end.

(** The text [handleWebhook] sends for [/debug]. *)
Definition debug_text (pendingCodes : store) : jsstring :=
  str "Debug info:" ++ [10%N]
    ++ str "Pending codes: " ++ JsString.of_number (JsMap.size pendingCodes) ++ [10%N]
    ++ str "Codes: "
    ++ match join (str ", ") (JsMap.keys pendingCodes) with
       | [] => str "none"
       | c :: rest => c :: rest
       end.

(** The arguments of the [sendTelegramMessage] call [handleWebhook] makes
    when the text is [/debug]: the chat of the update, and the text built
    from the map as [cleanExpiredCodes()] left it. *)
Definition debug_call (req : request) (e : Webhook.env) (pendingCodes : store)
  : option (value * jsstring) :=
  match Webhook.read_body (body req) with
  | inl _ => None
  | inr u =>
      if JsString.eqb (Webhook.u_text u) (str "/start") then None
      else if JsString.eqb (Webhook.u_text u) (str "/connect") then None
      else if JsString.eqb (Webhook.u_text u) (str "/help") then None
      else if JsString.eqb (Webhook.u_text u) (str "/debug") then
        Some (Webhook.u_chatId u,
              debug_text (cleanExpiredCodes (Webhook.now_sweep e) pendingCodes))
      else None
  end.

End CombinedApi.
(* ================================================================== *)
(** ** The registry as a transition system *)

(** One call of one of the six handlers, with what it reads from outside. *)
Inductive call : Type :=
| CallWebhook (req : request) (e : Webhook.env)
| CallVerify (req : request) (e : Verify.env)
| CallIndexWebhook (req : request) (e : Index.webhook_env)
| CallIndexVerify (req : request) (e : Index.verify_env)
| CallCombinedWebhook (req : request) (e : Webhook.env)
| CallCombinedVerify (req : request) (e : Combined.verify_env).

Definition run (c : call) (pendingCodes : store) : outcome :=
  match c with
  | CallWebhook req e => Webhook.handler req e pendingCodes
  | CallVerify req e => Some (Verify.handler req e pendingCodes)
  | CallIndexWebhook req e => Index.handleWebhook req e pendingCodes
  | CallIndexVerify req e => Some (Index.handleVerify req e pendingCodes)
  | CallCombinedWebhook req e => Combined.handleWebhook req e pendingCodes
  | CallCombinedVerify req e => Some (Combined.handleVerify req e pendingCodes)
  end.

(** The maps a process can hold: [new Map()] at start, then whatever calls that
    returned have left.  The files are alternative deployments; every
    sequence of calls of their handlers is allowed here.  A handler runs
    without interruption between two [await]s, and only [Index.handleVerify]
    awaits ([addUser]) between two accesses to the map, its lookup and its
    [delete]: when other calls run in between, that [delete] acts on the map
    they left, which is the third rule. *)
Inductive reachable : store -> Prop :=
| reachable_start : reachable JsMap.empty
| reachable_call (st : store) (c : call) (r : response) (st' : store) :
    reachable st -> run c st = Some (r, st') -> reachable st'
| reachable_late_delete (st : store) (code : jsstring) :
    reachable st -> reachable (JsMap.delete code st).

(** The code a redeeming call asks for: [codeStr], when the call gets as far
    as the map. *)
Definition submitted (c : call) : option jsstring :=
  match c with
  | CallVerify req _ =>
      match Verify.preamble req with inr code => Some code | inl _ => None end
  | CallIndexVerify req _ =>
      match Index.verify_preamble req with inr code => Some code | inl _ => None end
  | CallCombinedVerify req _ =>
      match Combined.verify_preamble req with inr code => Some code | inl _ => None end
  | _ => None
  end.

(** The result of [Date.now()] a call sweeps with. *)
Definition sweep_time (c : call) : option Z :=
  match c with
  | CallWebhook _ e | CallCombinedWebhook _ e => Some (Webhook.now_sweep e)
  | CallVerify _ _ => None
  | CallIndexWebhook _ e => Some (Index.w_now_sweep e)
  | CallIndexVerify _ e => Some (Index.v_now_sweep e)
  | CallCombinedVerify _ e => Some (Combined.v_now_sweep e)
  end.

(** The result of [Date.now()] a redeeming call tests the deadline against. *)
Definition check_time (c : call) : option Z :=
  match c with
  | CallVerify _ e => Some (Verify.now_check e)
  | CallIndexVerify _ e => Some (Index.v_now_check e)
  | CallCombinedVerify _ e => Some (Combined.v_now_check e)
  | _ => None
  end.

(** The code an issuing call settles on: the text is [/connect] and the
    resampling loop, run on the swept map, ends with that code. *)
Definition issued (c : call) (pendingCodes : store) : option jsstring :=
  match c with
  | CallWebhook req e =>
      match Webhook.preamble req with
      | inr u =>
          if JsString.eqb (Webhook.u_text u) (str "/connect") then
            pick_code (Webhook.random e)
              (cleanExpiredCodes (Webhook.now_sweep e) pendingCodes)
          else None
      | inl _ => None
      end
  | CallIndexWebhook req e =>
      match Index.preamble req with
      | inr u =>
          if JsString.eqb (Index.u_text u) (str "/connect") then
            pick_code (Index.w_random e)
              (cleanExpiredCodes (Index.w_now_sweep e) pendingCodes)
          else None
      | inl _ => None
      end
  | CallCombinedWebhook req e =>
      match Webhook.read_body (body req) with
      | inr u =>
          if JsString.eqb (Webhook.u_text u) (str "/connect") then
            pick_code (Webhook.random e)
              (cleanExpiredCodes (Webhook.now_sweep e) pendingCodes)
          else None
      | inl _ => None
      end
  | _ => None
  end.

(** The record an issuing call stores. *)
Definition new_record (c : call) : option codeData :=
  match c with
  | CallWebhook req e =>
      match Webhook.preamble req with
      | inr u => Some (Webhook.new_record u e)
      | inl _ => None
      end
  | CallIndexWebhook req e =>
      match Index.preamble req with
      | inr u => Some (Index.new_record u e)
      | inl _ => None
      end
  | CallCombinedWebhook req e =>
      match Webhook.read_body (body req) with
      | inr u => Some (Webhook.new_record u e)
      | inl _ => None
      end
  | _ => None
  end.

(** The results of [Math.random()] a call has at hand. *)
Definition draws (c : call) : list Q :=
  match c with
  | CallWebhook _ e | CallCombinedWebhook _ e => Webhook.random e
  | CallIndexWebhook _ e => Index.w_random e
  | _ => []
  end.

(** [quiet code st st']: calls (and late [delete]s of calls under way) lead
    from [st] to [st'], none of them an issuance of [code]. *)
Inductive quiet (code : jsstring) : store -> store -> Prop :=
| quiet_here (st : store) : quiet code st st
| quiet_call (st : store) (c : call) (r : response) (st1 st' : store) :
    run c st = Some (r, st1) ->
    issued c st <> Some code ->
    quiet code st1 st' ->
    quiet code st st'
| quiet_late_delete (st : store) (k : jsstring) (st' : store) :
    quiet code (JsMap.delete k st) st' ->
    quiet code st st'.

(** What a call may have done to the map: swept it or not, and then nothing,
    or deleted the code asked for, or stored a record under a code that was
    free. *)
Definition effect (c : call) (st st' : store) : Prop :=
  exists base,
    (base = st \/ exists now, sweep_time c = Some now /\ base = cleanExpiredCodes now st) /\
    (st' = base
     \/ (exists code, submitted c = Some code /\ st' = JsMap.delete code base)
     \/ (exists code d, issued c st = Some code /\ JsMap.get code base = None
                        /\ st' = JsMap.set code d base)).

(** ** Words of the specification *)

(** What the regular expression accepts, in words: exactly six code units,
    each an ASCII digit. *)
Definition six_ascii_digits (s : jsstring) : Prop :=
  List.length s = 6%nat /\ Forall (fun c => (48 <= c <= 57)%N) s.

(** The number a string of decimal digits denotes. *)
Definition value_of (s : jsstring) : Z :=
  fold_left (fun acc c => 10 * acc + (Z.of_N c - 48)) s 0.

(** How many entries the map holds for [code]. *)
Definition entries_for (code : jsstring) (pendingCodes : store) : nat :=
  List.length (filter (fun e => JsString.eqb code (fst e)) (JsMap.entries pendingCodes)).

(** Whether the sweeping loop over [l] deletes the entries keyed like [e]. *)
Definition hit (now : Z) (l : list (jsstring * codeData)) (e : jsstring * codeData)
  : bool :=
  existsb (fun x => JsString.eqb (fst x) (fst e) && (now >? expiresAt (snd x))) l.

(** ** Concrete requests and maps *)

Module Scenario.

(** A POST to the function's own path. *)
Definition post (b : value) : request := mkRequest (str "POST") (str "/api") b.

(** A Telegram update carrying [text] from user and chat [id]. *)
Definition update_from (id : Z) (text : string) : value :=
  VObj [(str "message",
         VObj [(str "text", VStr (str text));
               (str "chat", VObj [(str "id", VNum id)]);
               (str "from", VObj [(str "id", VNum id);
                                  (str "first_name", VStr (str "Ann"))])])].

(** The body the watch sends. *)
Definition code_body (code : string) : value :=
  VObj [(str "code", VStr (str code))].

(** The record [/connect] stores for user 42 when both clock reads give
    [t]. *)
Definition record_42 (t : Z) : codeData :=
  mkCodeData (VNum 42) (VNum 42) (VStr (str "")) (VStr (str "Ann"))
    (Some t) (t + CODE_EXPIRY_MS).

(** [Math.random()] results that make [generateCode] return "482913" (the
    double nearest to 382913/900000), "100000" and "370000" (the double
    nearest to 0.3, which lies below 0.3: the exact product lies below 270000
    and rounds to it). *)
Definition draw_482913 : Q := 7664385973845861 # 18014398509481984.
Definition draw_100000 : Q := 0.
Definition draw_370000 : Q := 5404319552844595 # 18014398509481984.

(** A map holding "482913" for user 42, issued at time 0. *)
Definition one_code : store := [(str "482913", record_42 0)].

(** A map holding "482913" issued at time 0 and "100000" issued at 400000. *)
Definition two_codes : store :=
  [(str "482913", record_42 0); (str "100000", record_42 400000)].

End Scenario.

(** ** Further readings of a call and of a response *)

(** Whether the [fetch] awaited by [sendTelegramMessage] resolves in a call
    of a webhook handler. *)
Definition delivered_in (c : call) : bool :=
  match c with
  | CallWebhook _ e | CallCombinedWebhook _ e => Webhook.delivered e
  | CallIndexWebhook _ e => Index.w_delivered e
  | _ => true
  end.

(** [body.success] of a response, as a client reads it. *)
Definition success_flag (r : response) : option value :=
  option_map (fun b => Js.get_opt b (str "success")) (json r).

(** The number [generateCode] prints: [Math.floor(100000 + r * 900000)] as
    binary64 computes it. *)
Definition drawn_number (r : Q) : Z :=
  Qfloor (Double.round (inject_Z 100000 + Double.round (r * inject_Z 900000))).

(** [message.from.id] and [message.chat.id] of a Telegram update. *)
Definition requester_id (b : value) : value :=
  Js.get_opt (Js.get_opt (Js.get_opt b (str "message")) (str "from")) (str "id").

Definition requester_chat (b : value) : value :=
  Js.get_opt (Js.get_opt (Js.get_opt b (str "message")) (str "chat")) (str "id").


(** The request a call serves. *)
Definition request_of (c : call) : request :=
  match c with
  | CallWebhook req _ | CallVerify req _
  | CallIndexWebhook req _ | CallIndexVerify req _
  | CallCombinedWebhook req _ | CallCombinedVerify req _ => req
  end.

(** Whether the exported function of the file hands the request of the call
    to the handler of the call: in [api/webhook.js] and [api/verify.js] the
    handler is the export; in [api/index.js] the export routes. *)
Definition routed (c : call) : bool :=
  match c with
  | CallWebhook _ _ | CallVerify _ _ => true
  | CallIndexWebhook req _ =>
      match Index.route req with Index.ToWebhook => true | _ => false end
  | CallIndexVerify req _ =>
      match Index.route req with Index.ToVerify => true | _ => false end
  | CallCombinedWebhook req _ =>
      match Combined.route req with Index.ToWebhook => true | _ => false end
  | CallCombinedVerify req _ =>
      match Combined.route req with Index.ToVerify => true | _ => false end
  end.

(** [message.from.username], [message.from.first_name] and [message.text]
    of a Telegram update. *)
Definition requester_username (b : value) : value :=
  Js.get_opt (Js.get_opt (Js.get_opt b (str "message")) (str "from")) (str "username").

Definition requester_first_name (b : value) : value :=
  Js.get_opt (Js.get_opt (Js.get_opt b (str "message")) (str "from")) (str "first_name").

Definition update_text (b : value) : value :=
  Js.get_opt (Js.get_opt b (str "message")) (str "text").
(* ================================================================== *)
(** * Properties *)

(** ** Strings *)

Module JsStringFacts.
Import JsString.

Lemma eqb_spec (a b : jsstring) : reflect (a = b) (eqb a b).
Proof.
  revert b; induction a as [|x a IH]; intros [|y b]; simpl;
    try (constructor; congruence).
  destruct (N.eqb_spec x y) as [->|Hxy]; simpl.
  - destruct (IH b) as [->|Hab]; constructor; congruence.
  - constructor; congruence.
Qed.

Lemma eqb_refl (a : jsstring) : eqb a a = true.
Proof. destruct (eqb_spec a a); congruence. Qed.

Lemma eqb_eq (a b : jsstring) : eqb a b = true <-> a = b.
Proof. destruct (eqb_spec a b); split; congruence. Qed.

Lemma eqb_neq (a b : jsstring) : eqb a b = false <-> a <> b.
Proof. destruct (eqb_spec a b); split; congruence. Qed.

Lemma is_digit_iff (c : N) : is_digit c = true <-> (48 <= c <= 57)%N.
Proof.
  unfold is_digit. rewrite andb_true_iff, !N.leb_le. tauto.
Qed.

Lemma test_six_digits_iff (s : jsstring) :
  test_six_digits s = true <-> six_ascii_digits s.
Proof.
  unfold test_six_digits, six_ascii_digits.
  rewrite andb_true_iff, Nat.eqb_eq, forallb_forall, Forall_forall.
  split; intros [Hl Hd]; split; auto; intros c Hc; apply is_digit_iff; auto.
Qed.

End JsStringFacts.

(** ** The map *)

Module JsMapFacts.
Import JsStringFacts.

Section WithValues.
Context {V : Type}.
Implicit Types (m : JsMap.t V) (k c : jsstring) (v : V).

Lemma get_set_same k v m : JsMap.get k (JsMap.set k v m) = Some v.
Proof.
  induction m as [|[k' v'] m IH]; simpl.
  - now rewrite eqb_refl.
  - destruct (JsString.eqb k k') eqn:E; simpl.
    + now rewrite eqb_refl.
    + now rewrite E.
Qed.

Lemma get_set_other k c v m :
  k <> c -> JsMap.get c (JsMap.set k v m) = JsMap.get c m.
Proof.
  intros Hkc. induction m as [|[k' v'] m IH]; simpl.
  - destruct (eqb_spec c k); congruence.
  - destruct (eqb_spec k k') as [<-|Hk]; simpl.
    + destruct (eqb_spec c k); congruence.
    + now rewrite IH.
Qed.

Lemma get_filter_none (p : jsstring * V -> bool) c m :
  JsMap.get c m = None -> JsMap.get c (filter p m) = None.
Proof.
  induction m as [|[k' v'] m IH]; simpl; auto.
  destruct (JsString.eqb c k') eqn:E; [discriminate|].
  intros H. destruct (p (k', v')); simpl; rewrite ?E; auto.
Qed.

Lemma get_filter_keep (p : jsstring * V -> bool) c m :
  (forall v, p (c, v) = true) -> JsMap.get c (filter p m) = JsMap.get c m.
Proof.
  intros Hp. induction m as [|[k' v'] m IH]; simpl; auto.
  destruct (eqb_spec c k') as [<-|Hk].
  - rewrite Hp. simpl. now rewrite eqb_refl.
  - destruct (p (k', v')); simpl; auto.
    destruct (eqb_spec c k'); congruence.
Qed.

Lemma get_delete_same k m : JsMap.get k (JsMap.delete k m) = None.
Proof.
  unfold JsMap.delete. induction m as [|[k' v'] m IH]; simpl; auto.
  destruct (JsString.eqb k k') eqn:E; simpl; auto. now rewrite E.
Qed.

Lemma get_delete_other k c m :
  k <> c -> JsMap.get c (JsMap.delete k m) = JsMap.get c m.
Proof.
  intros Hkc. apply get_filter_keep. intros v. simpl.
  destruct (eqb_spec k c); simpl; congruence.
Qed.

Lemma get_none_iff c m : JsMap.get c m = None <-> ~ In c (JsMap.keys m).
Proof.
  induction m as [|[k' v'] m IH]; simpl; [tauto|].
  destruct (eqb_spec c k') as [->|Hk].
  - split; [discriminate|]. intros H; exfalso; auto.
  - rewrite IH. intuition congruence.
Qed.

Lemma get_some_in c v m : JsMap.get c m = Some v -> In (c, v) m.
Proof.
  induction m as [|[k' v'] m IH]; simpl; [discriminate|].
  destruct (eqb_spec c k') as [->|Hk]; [intros [= ->]; auto | auto].
Qed.

Lemma delete_absent k m : JsMap.get k m = None -> JsMap.delete k m = m.
Proof.
  unfold JsMap.delete. induction m as [|[k' v'] m IH]; simpl; auto.
  destruct (JsString.eqb k k') eqn:E; [discriminate|]. simpl.
  intros H. now rewrite IH.
Qed.

Lemma keys_filter_incl (p : jsstring * V -> bool) m c :
  In c (JsMap.keys (filter p m)) -> In c (JsMap.keys m).
Proof.
  unfold JsMap.keys. rewrite !in_map_iff.
  intros [e [He Hin]]. apply filter_In in Hin. exists e; tauto.
Qed.

Lemma wf_filter (p : jsstring * V -> bool) m :
  JsMap.wf m -> JsMap.wf (filter p m).
Proof.
  unfold JsMap.wf. induction m as [|[k' v'] m IH]; simpl; auto.
  intros H. inversion H as [|? ? Hn Hd]; subst.
  destruct (p (k', v')); simpl; auto.
  constructor; auto. intros Hin. apply Hn. eapply keys_filter_incl; eauto.
Qed.

Lemma wf_delete k m : JsMap.wf m -> JsMap.wf (JsMap.delete k m).
Proof. apply wf_filter. Qed.

Lemma keys_set k v m c :
  In c (JsMap.keys (JsMap.set k v m)) <-> c = k \/ In c (JsMap.keys m).
Proof.
  induction m as [|[k' v'] m IH]; simpl.
  - intuition.
  - destruct (eqb_spec k k') as [<-|Hk]; simpl.
    + intuition.
    + rewrite IH. intuition.
Qed.

Lemma wf_set k v m : JsMap.wf m -> JsMap.wf (JsMap.set k v m).
Proof.
  unfold JsMap.wf. induction m as [|[k' v'] m IH]; simpl.
  - intros _. constructor; [simpl; tauto | constructor].
  - intros H. inversion H as [|? ? Hn Hd]; subst.
    destruct (eqb_spec k k') as [<-|Hk]; simpl.
    + constructor; auto.
    + constructor; auto. intros Hin.
      apply keys_set in Hin. destruct Hin as [E|Hin]; [congruence|auto].
Qed.

(** With one entry per key, [get] sees through [filter]. *)
Lemma get_filter (p : jsstring * V -> bool) c m :
  JsMap.wf m ->
  JsMap.get c (filter p m) =
    match JsMap.get c m with
    | Some v => if p (c, v) then Some v else None
    | None => None
    end.
Proof.
  unfold JsMap.wf. induction m as [|[k' v'] m IH]; simpl; auto.
  intros H. inversion H as [|? ? Hn Hd]; subst.
  destruct (eqb_spec c k') as [->|Hk].
  - destruct (p (k', v')) eqn:Ep; simpl.
    + now rewrite eqb_refl.
    + apply get_filter_none. now apply get_none_iff.
  - destruct (p (k', v')); simpl; auto.
    destruct (eqb_spec c k'); [congruence|auto].
Qed.

(** A new key goes last and disturbs nothing. *)
Lemma set_fresh k v m : JsMap.get k m = None -> JsMap.set k v m = m ++ [(k, v)].
Proof.
  induction m as [|[k' v'] m IH]; simpl; auto.
  destruct (JsString.eqb k k'); [discriminate|]. intros H. now rewrite IH.
Qed.

End WithValues.
End JsMapFacts.

(** ** The sweep *)

Module SweepFacts.
Import JsStringFacts JsMapFacts.

Lemma filter_twice {A : Type} (p q : A -> bool) (l : list A) :
  filter p (filter q l) = filter (fun x => q x && p x) l.
Proof.
  induction l as [|a l IH]; simpl; auto.
  destruct (q a); simpl; [destruct (p a)|]; now rewrite IH.
Qed.

Lemma filter_none {A : Type} (p : A -> bool) (l : list A) :
  (forall a, In a l -> p a = false) -> filter p l = [].
Proof.
  induction l as [|a l IH]; simpl; auto.
  intros H. rewrite (H a) by auto. auto.
Qed.

Lemma filter_all {A : Type} (p : A -> bool) (l : list A) :
  (forall a, In a l -> p a = true) -> filter p l = l.
Proof.
  induction l as [|a l IH]; simpl; auto.
  intros H. rewrite (H a) by auto. f_equal. auto.
Qed.

Lemma sweep_fold (now : Z) (l : list (jsstring * codeData)) (m : store) :
  fold_left
    (fun m '(code, data) =>
       if now >? expiresAt data then JsMap.delete code m else m) l m
  = filter (fun e => negb (hit now l e)) m.
Proof.
  revert m; induction l as [|[c d] l IH]; intros m; simpl.
  - symmetry. now apply filter_all.
  - rewrite IH. destruct (now >? expiresAt d).
    + unfold JsMap.delete. rewrite filter_twice. apply filter_ext.
      intros e. unfold hit; simpl. rewrite andb_true_r.
      now rewrite negb_orb.
    + apply filter_ext. intros e. unfold hit; simpl.
      now rewrite andb_false_r.
Qed.

Lemma in_get {V : Type} (k : jsstring) (v : V) (m : JsMap.t V) :
  JsMap.wf m -> In (k, v) m -> JsMap.get k m = Some v.
Proof.
  unfold JsMap.wf. induction m as [|[k' v'] m IH]; simpl; [tauto|].
  intros H. inversion H as [|? ? Hn Hd]; subst.
  intros [[= -> ->]|Hin].
  - now rewrite eqb_refl.
  - destruct (eqb_spec k k') as [->|Hk]; auto.
    exfalso. apply Hn. unfold JsMap.keys. apply in_map_iff.
    now exists (k', v).
Qed.

(** The loop is a filter: it drops the entries whose deadline lies before
    [now] and keeps the others, in their order. *)
Lemma cleanExpiredCodes_filter (now : Z) (m : store) :
  JsMap.wf m ->
  cleanExpiredCodes now m = filter (fun e => negb (now >? expiresAt (snd e))) m.
Proof.
  intros Hwf. unfold cleanExpiredCodes, JsMap.entries. rewrite sweep_fold.
  apply filter_ext_in. intros [k d] Hin. f_equal. simpl.
  unfold hit. destruct (now >? expiresAt d) eqn:E.
  - apply existsb_exists. exists (k, d). simpl. now rewrite eqb_refl, E.
  - destruct (existsb _ m) eqn:Ex; auto.
    apply existsb_exists in Ex. destruct Ex as [[k' d'] [Hin' Hx]].
    simpl in Hx. apply andb_true_iff in Hx. destruct Hx as [Hk Hd].
    apply eqb_eq in Hk. subst k'.
    apply (in_get _ _ _ Hwf) in Hin. apply (in_get _ _ _ Hwf) in Hin'.
    congruence.
Qed.

Lemma get_clean (now : Z) (c : jsstring) (m : store) :
  JsMap.wf m ->
  JsMap.get c (cleanExpiredCodes now m) =
    match JsMap.get c m with
    | Some d => if now >? expiresAt d then None else Some d
    | None => None
    end.
Proof.
  intros Hwf. rewrite cleanExpiredCodes_filter by assumption.
  rewrite get_filter by assumption.
  destruct (JsMap.get c m) as [d|]; auto. simpl.
  now destruct (now >? expiresAt d).
Qed.

(** The loop adds nothing. *)
Lemma get_clean_none (now : Z) (c : jsstring) (m : store) :
  JsMap.get c m = None -> JsMap.get c (cleanExpiredCodes now m) = None.
Proof.
  intros H. unfold cleanExpiredCodes, JsMap.entries. rewrite sweep_fold.
  now apply get_filter_none.
Qed.

Lemma wf_clean (now : Z) (m : store) :
  JsMap.wf m -> JsMap.wf (cleanExpiredCodes now m).
Proof.
  intros H. unfold cleanExpiredCodes, JsMap.entries. rewrite sweep_fold.
  now apply wf_filter.
Qed.

End SweepFacts.

(** ** Generated codes *)

(** ** Rounding to binary64 *)

Module DoubleFacts.
Import Double.
Local Open Scope Q_scope.

Lemma pow2_pos (k : Z) : 0 < pow2 k.
Proof. apply Qpower_0_lt. reflexivity. Qed.

Lemma pow2_plus (a b : Z) : pow2 (a + b) == pow2 a * pow2 b.
Proof. apply Qpower_plus. discriminate. Qed.

Lemma pow2_le (a b : Z) : (a <= b)%Z -> pow2 a <= pow2 b.
Proof. intros H. apply Qpower_le_compat_l; [assumption|discriminate]. Qed.

Lemma pow2_lt_inv (a b : Z) : pow2 a < pow2 b -> (a < b)%Z.
Proof. intros H. apply (Qpower_lt_compat_l_inv 2); [assumption|reflexivity]. Qed.

Lemma pow2_inject (k : Z) : (0 <= k)%Z -> pow2 k == inject_Z (2 ^ k).
Proof. intros H. unfold pow2. now rewrite Zpower_Qpower. Qed.

(** A multiple of [2^a] is a multiple of every smaller power of two. *)
Lemma multiple_finer (c a j : Z) :
  (j <= a)%Z -> inject_Z c * pow2 a == inject_Z (c * 2 ^ (a - j)) * pow2 j.
Proof.
  intros H. replace a with ((a - j) + j)%Z at 1 by lia.
  rewrite pow2_plus, (pow2_inject (a - j)) by lia.
  rewrite inject_Z_mult. ring.
Qed.

Lemma log2_bounds (n : Z) :
  (0 < n)%Z -> pow2 (Z.log2 n) <= inject_Z n /\ inject_Z n < pow2 (Z.log2 n + 1).
Proof.
  intros Hn. destruct (Z.log2_spec n Hn) as [H1 H2].
  pose proof (Z.log2_nonneg n) as H0.
  rewrite !pow2_inject by lia. split.
  - now rewrite <- Zle_Qle.
  - rewrite <- Zlt_Qlt. now rewrite <- Z.add_1_r in H2.
Qed.

Lemma exponent_spec (q : Q) :
  0 < q -> pow2 (exponent q) <= q /\ q < pow2 (exponent q + 1).
Proof.
  intros Hq. destruct q as [n d].
  assert (Hn : (0 < n)%Z).
  { unfold Qlt in Hq. simpl in Hq. lia. }
  destruct (log2_bounds n Hn) as [N1 N2].
  destruct (log2_bounds (Zpos d) eq_refl) as [D1 D2].
  unfold exponent. cbn [Qnum Qden].
  set (a := Z.log2 n) in *. set (b := Z.log2 (Zpos d)) in *.
  assert (Hd : 0 < inject_Z (Zpos d)) by reflexivity.
  assert (E : n # d == inject_Z n / inject_Z (Zpos d)) by apply Qmake_Qdiv.
  assert (U : n # d < pow2 (a - b + 1)).
  { rewrite E. apply Qlt_shift_div_r; [assumption|].
    apply Qlt_le_trans with (pow2 (a + 1)); [assumption|].
    replace (a + 1)%Z with ((a - b + 1) + b)%Z by lia.
    rewrite pow2_plus. apply Qmult_le_l; [apply pow2_pos|assumption]. }
  assert (L : pow2 (a - b - 1) < n # d).
  { rewrite E. apply Qlt_shift_div_l; [assumption|].
    apply Qlt_le_trans with (pow2 a); [|assumption].
    replace a with ((a - b - 1) + (b + 1))%Z at 2 by lia.
    rewrite pow2_plus. apply Qmult_lt_l; [apply pow2_pos|assumption]. }
  destruct (Qle_bool (pow2 (a - b)) (n # d)) eqn:C.
  - apply Qle_bool_iff in C. split; assumption.
  - assert (C' : n # d < pow2 (a - b)).
    { apply Qnot_le_lt. intros H. apply Qle_bool_iff in H. congruence. }
    split; [apply Qlt_le_weak; assumption|].
    now replace (a - b - 1 + 1)%Z with (a - b)%Z by lia.
Qed.

Lemma exponent_bounds (q : Q) (lo hi : Z) :
  pow2 lo <= q -> q < pow2 (hi + 1) -> (lo <= exponent q <= hi)%Z.
Proof.
  intros Hlo Hhi.
  assert (Hq : 0 < q) by (eapply Qlt_le_trans; [apply pow2_pos|exact Hlo]).
  destruct (exponent_spec q Hq) as [E1 E2]. split.
  - assert (H : pow2 lo < pow2 (exponent q + 1)) by (eapply Qle_lt_trans; eauto).
    apply pow2_lt_inv in H. lia.
  - assert (H : pow2 (exponent q) < pow2 (hi + 1)) by (eapply Qle_lt_trans; eauto).
    apply pow2_lt_inv in H. lia.
Qed.

Lemma exponent_below (q : Q) (hi : Z) :
  0 < q -> q < pow2 (hi + 1) -> (exponent q <= hi)%Z.
Proof.
  intros Hq Hhi. destruct (exponent_spec q Hq) as [E1 _].
  assert (H : pow2 (exponent q) < pow2 (hi + 1)) by (eapply Qle_lt_trans; eauto).
  apply pow2_lt_inv in H. lia.
Qed.

(** *** Rounding to an integer *)

Lemma floor_cases (x : Q) :
  inject_Z (Qfloor x) <= x /\ x < inject_Z (Qfloor x) + 1.
Proof.
  split; [apply Qfloor_le|].
  pose proof (Qlt_floor x) as H. rewrite inject_Z_plus in H. exact H.
Qed.

Lemma inject_Z_lt_le (a b : Z) : inject_Z a < inject_Z b + 1 -> (a <= b)%Z.
Proof.
  intros H. change 1 with (inject_Z 1) in H. rewrite <- inject_Z_plus in H.
  rewrite <- Zlt_Qlt in H. lia.
Qed.

Lemma nearest_even_cases (x : Q) :
  (nearest_even x = Qfloor x /\ x - inject_Z (Qfloor x) <= 1 # 2)
  \/ (nearest_even x = (Qfloor x + 1)%Z /\ 1 # 2 <= x - inject_Z (Qfloor x)).
Proof.
  unfold nearest_even.
  destruct (Qcompare_spec (x - inject_Z (Qfloor x)) (1 # 2)) as [E|E|E].
  - destruct (Z.even (Qfloor x)); [left|right]; split; auto; rewrite E;
      apply Qle_refl.
  - left. split; auto. now apply Qlt_le_weak.
  - right. split; auto. now apply Qlt_le_weak.
Qed.

Lemma nearest_even_le (x : Q) (k : Z) :
  x < inject_Z k + (1 # 2) -> (nearest_even x <= k)%Z.
Proof.
  intros H. destruct (floor_cases x) as [F1 F2].
  destruct (nearest_even_cases x) as [[-> C]|[-> C]].
  - apply inject_Z_lt_le. lra.
  - assert (G : inject_Z (Qfloor x) < inject_Z k) by lra.
    rewrite <- Zlt_Qlt in G. lia.
Qed.

Lemma nearest_even_ge (x : Q) (k : Z) :
  inject_Z k - (1 # 2) < x -> (k <= nearest_even x)%Z.
Proof.
  intros H. destruct (floor_cases x) as [F1 F2].
  destruct (nearest_even_cases x) as [[-> C]|[-> C]].
  - apply inject_Z_lt_le. lra.
  - assert (G : inject_Z k < inject_Z (Qfloor x) + 1 + 1) by lra.
    change 1 with (inject_Z 1) in G. rewrite <- !inject_Z_plus in G.
    rewrite <- Zlt_Qlt in G. lia.
Qed.

Lemma nearest_even_error (x : Q) :
  x - (1 # 2) <= inject_Z (nearest_even x) /\ inject_Z (nearest_even x) <= x + (1 # 2).
Proof.
  destruct (floor_cases x) as [F1 F2].
  destruct (nearest_even_cases x) as [[-> C]|[-> C]].
  - split; lra.
  - rewrite inject_Z_plus. change (inject_Z 1) with 1. split; lra.
Qed.

(** *** Rounding to a double *)

Lemma ulp_pos (q : Q) : 0 < ulp q.
Proof. apply pow2_pos. Qed.

Lemma round_pos_eq (q : Q) :
  0 < q -> round q = inject_Z (nearest_even (q / ulp q)) * ulp q.
Proof.
  intros H. unfold round. destruct q as [[|n|n] d]; try reflexivity;
    unfold Qlt in H; simpl in H; lia.
Qed.

Lemma round_le (q : Q) (k : Z) :
  0 < q -> q < (inject_Z k + (1 # 2)) * ulp q -> round q <= inject_Z k * ulp q.
Proof.
  intros Hq H. rewrite (round_pos_eq q Hq).
  apply Qmult_le_compat_r; [|apply Qlt_le_weak, ulp_pos].
  rewrite <- Zle_Qle. apply nearest_even_le.
  apply Qlt_shift_div_r; [apply ulp_pos|assumption].
Qed.

Lemma round_ge (q : Q) (k : Z) :
  0 < q -> inject_Z k * ulp q <= q -> inject_Z k * ulp q <= round q.
Proof.
  intros Hq H. rewrite (round_pos_eq q Hq).
  apply Qmult_le_compat_r; [|apply Qlt_le_weak, ulp_pos].
  rewrite <- Zle_Qle. apply nearest_even_ge.
  apply Qlt_le_trans with (inject_Z k); [lra|].
  apply Qle_shift_div_l; [apply ulp_pos|assumption].
Qed.

Lemma round_nonneg (q : Q) : 0 <= q -> 0 <= round q.
Proof.
  intros H. destruct (Qle_lt_or_eq _ _ H) as [Hq|Hq].
  - pose proof (round_ge q 0 Hq) as G. rewrite Qmult_0_l in G. now apply G.
  - unfold round. destruct q as [[|n|n] d]; try apply Qle_refl;
      unfold Qeq in Hq; simpl in Hq; lia.
Qed.


(** Closed comparisons of rationals, by computation. *)
Ltac qcompute :=
  solve [ unfold Qlt; vm_compute; reflexivity
        | unfold Qle; vm_compute; discriminate
        | unfold Qeq; vm_compute; reflexivity ].

Lemma ulp_exponent (q : Q) (a : Z) :
  0 < q -> q < pow2 (a + 53) -> (-1074 <= a)%Z ->
  exists j, ulp q = pow2 j /\ (j <= a)%Z.
Proof.
  intros Hq Hhi Ha. exists (Z.max (exponent q - 52) (-1074)).
  split; [reflexivity|].
  pose proof (exponent_below q (a + 52) Hq) as H.
  replace (a + 52 + 1)%Z with (a + 53)%Z in H by lia.
  specialize (H Hhi). lia.
Qed.

(** A double bounds what rounds below it, and what rounds above it. *)
Lemma round_below (q : Q) (c a : Z) :
  0 < q -> q <= inject_Z c * pow2 a -> inject_Z c * pow2 a < pow2 (a + 53) ->
  (-1074 <= a)%Z ->
  round q <= inject_Z c * pow2 a.
Proof.
  intros Hq Hle Hhi Ha.
  destruct (ulp_exponent q a Hq) as [j [Hu Hj]]; [eapply Qle_lt_trans; eauto|assumption|].
  rewrite (multiple_finer c a j Hj) in *. rewrite <- Hu in *.
  apply round_le; [assumption|].
  eapply Qle_lt_trans; [exact Hle|].
  apply Qmult_lt_r; [apply ulp_pos|]. lra.
Qed.

Lemma round_above (q : Q) (c a : Z) :
  0 < q -> inject_Z c * pow2 a <= q -> q < pow2 (a + 53) -> (-1074 <= a)%Z ->
  inject_Z c * pow2 a <= round q.
Proof.
  intros Hq Hle Hhi Ha.
  destruct (ulp_exponent q a Hq Hhi Ha) as [j [Hu Hj]].
  rewrite (multiple_finer c a j Hj) in *. rewrite <- Hu in *.
  now apply round_ge.
Qed.

(** *** The generator's arithmetic *)

(** The largest double below 1. *)
Lemma finite_below_one (r : Q) :
  finite r -> r < 1 -> r <= 1 - pow2 (-53).
Proof.
  intros [m [e [Hm [He Hr]]]] H1. rewrite Hr in *. clear Hr r.
  destruct (Z_lt_le_dec m 1) as [Hn|Hp].
  { apply Qle_trans with 0; [|qcompute].
    rewrite <- (Qmult_0_l (pow2 e)).
    apply Qmult_le_compat_r; [|apply Qlt_le_weak, pow2_pos].
    change (inject_Z m <= inject_Z 0). rewrite <- Zle_Qle. lia. }
  destruct (Z_le_gt_dec 0 e) as [He0|He0].
  { exfalso. apply (Qlt_not_le _ _ H1).
    apply Qle_trans with (inject_Z 1 * pow2 0); [qcompute|].
    apply Qle_trans with (inject_Z m * pow2 0).
    - apply Qmult_le_compat_r; [|qcompute]. rewrite <- Zle_Qle. lia.
    - apply Qmult_le_l; [rewrite <- (Zlt_Qlt 0); lia|]. now apply pow2_le. }
  destruct (Z_le_gt_dec (-53) e) as [Hk|Hk].
  - (* the grid is at least as coarse as 2^-53 *)
    assert (E : 1 == inject_Z (2 ^ (- e)) * pow2 e).
    { rewrite <- pow2_inject, <- pow2_plus by lia.
      now replace (- e + e)%Z with 0%Z by lia. }
    assert (Hlt : (m < 2 ^ (- e))%Z).
    { rewrite E in H1. apply Qmult_lt_r in H1; [|apply pow2_pos].
      now rewrite <- Zlt_Qlt in H1. }
    apply Qle_trans with (inject_Z (2 ^ (- e) - 1) * pow2 e).
    + apply Qmult_le_compat_r; [|apply Qlt_le_weak, pow2_pos].
      rewrite <- Zle_Qle. lia.
    + assert (R : inject_Z (2 ^ (- e) - 1) * pow2 e == 1 - pow2 e).
      { unfold Z.sub. rewrite inject_Z_plus, Qmult_plus_distr_l, <- E.
        change (inject_Z (- (1))) with (- (1)). ring. }
      assert (G : pow2 (-53) <= pow2 e) by now apply pow2_le.
      rewrite R. lra.
  - (* below 2^-54 per unit: less than a half *)
    apply Qle_trans with (inject_Z (2 ^ 53) * pow2 (-54)); [|qcompute].
    apply Qle_trans with (inject_Z (2 ^ 53) * pow2 e).
    + apply Qmult_le_compat_r; [|apply Qlt_le_weak, pow2_pos].
      rewrite <- Zle_Qle. lia.
    + apply Qmult_le_l; [reflexivity|]. apply pow2_le. lia.
Qed.

Lemma product_range (r : Q) :
  0 <= r -> r <= 1 - pow2 (-53) ->
  0 <= round (r * inject_Z 900000)
  /\ round (r * inject_Z 900000) <= inject_Z (900000 * 2 ^ 33 - 1) * pow2 (-33).
Proof.
  intros H0 H1. set (p := r * inject_Z 900000).
  assert (Hp0 : 0 <= p).
  { unfold p. apply Qmult_le_0_compat; [assumption|discriminate]. }
  assert (HpP : p <= (1 - pow2 (-53)) * inject_Z 900000).
  { unfold p. apply Qmult_le_compat_r; [assumption|discriminate]. }
  split; [now apply round_nonneg|].
  destruct (Qle_lt_or_eq _ _ Hp0) as [Hq|Hq].
  2:{ unfold round. destruct p as [[|n|n] d]; [qcompute| |];
        unfold Qeq in Hq; simpl in Hq; lia. }
  destruct (Qlt_le_dec (inject_Z (900000 * 2 ^ 33 - 1) * pow2 (-33)) p) as [Hb|Hb].
  - (* the last binade: the product lies below the midpoint to 900000 *)
    assert (He : (19 <= exponent p <= 19)%Z).
    { apply exponent_bounds.
      - apply Qle_trans with (inject_Z (900000 * 2 ^ 33 - 1) * pow2 (-33));
          [qcompute|now apply Qlt_le_weak].
      - eapply Qle_lt_trans; [exact HpP|qcompute]. }
    assert (Hu : ulp p = pow2 (-33)).
    { unfold ulp. replace (exponent p) with 19%Z by lia. reflexivity. }
    rewrite <- Hu. apply round_le; [assumption|]. rewrite Hu.
    eapply Qle_lt_trans; [exact HpP|qcompute].
  - apply round_below; [assumption|assumption|qcompute|lia].
Qed.

Lemma sum_range (x : Q) :
  0 <= x -> x <= inject_Z (900000 * 2 ^ 33 - 1) * pow2 (-33) ->
  inject_Z 100000 <= round (inject_Z 100000 + x)
  /\ round (inject_Z 100000 + x) <= inject_Z (1000000 * 2 ^ 33 - 1) * pow2 (-33).
Proof.
  intros H0 H1. set (s := inject_Z 100000 + x).
  assert (Hlo : inject_Z 100000 <= s) by (unfold s; lra).
  assert (Hhi : s <= inject_Z (1000000 * 2 ^ 33 - 1) * pow2 (-33)).
  { unfold s. apply Qle_trans
      with (inject_Z 100000 + inject_Z (900000 * 2 ^ 33 - 1) * pow2 (-33));
      [lra|qcompute]. }
  assert (Hs : 0 < s) by (eapply Qlt_le_trans; [|exact Hlo]; reflexivity).
  split.
  - assert (E : inject_Z 100000 == inject_Z 100000 * pow2 0) by qcompute.
    rewrite E. apply round_above; [assumption|now rewrite <- E| |lia].
    eapply Qle_lt_trans; [exact Hhi|qcompute].
  - apply round_below; [assumption|assumption|qcompute|lia].
Qed.

(** [Math.floor(100000 + r * 900000)] for a double [r] in [0, 1). *)
Lemma scaled_range (r : Q) :
  finite r -> 0 <= r -> r < 1 ->
  (100000 <= Qfloor (round (inject_Z 100000 + round (r * inject_Z 900000)))
   <= 999999)%Z.
Proof.
  intros Hf H0 H1.
  destruct (product_range r H0 (finite_below_one r Hf H1)) as [P0 P1].
  destruct (sum_range _ P0 P1) as [S0 S1]. split.
  - rewrite <- (Qfloor_Z 100000). now apply Qfloor_resp_le.
  - apply Z.le_trans
      with (Qfloor (inject_Z (1000000 * 2 ^ 33 - 1) * pow2 (-33))).
    + now apply Qfloor_resp_le.
    + vm_compute. discriminate.
Qed.

(** *** How far rounding moves the result *)

Lemma scale_bounds (q u : Q) (n : Z) :
  0 < u ->
  q / u - (1 # 2) <= inject_Z n -> inject_Z n <= q / u + (1 # 2) ->
  q - u * (1 # 2) <= inject_Z n * u /\ inject_Z n * u <= q + u * (1 # 2).
Proof.
  intros Hu E1 E2.
  assert (Hz : ~ u == 0) by (intros H; rewrite H in Hu; now apply Qlt_irrefl in Hu).
  split.
  - apply Qle_trans with ((q / u - (1 # 2)) * u).
    + apply Qle_lteq. right. field. exact Hz.
    + apply Qmult_le_compat_r; [assumption|now apply Qlt_le_weak].
  - apply Qle_trans with ((q / u + (1 # 2)) * u).
    + apply Qmult_le_compat_r; [assumption|now apply Qlt_le_weak].
    + apply Qle_lteq. right. field. exact Hz.
Qed.

Lemma round_error (q : Q) :
  0 < q -> q - ulp q * (1 # 2) <= round q /\ round q <= q + ulp q * (1 # 2).
Proof.
  intros Hq. rewrite (round_pos_eq q Hq).
  destruct (nearest_even_error (q / ulp q)) as [E1 E2].
  apply scale_bounds; [apply ulp_pos|assumption|assumption].
Qed.

Lemma round_near (q : Q) (a : Z) :
  0 <= q -> q < pow2 (a + 53) -> (-1074 <= a)%Z ->
  q - pow2 a * (1 # 2) <= round q /\ round q <= q + pow2 a * (1 # 2).
Proof.
  intros H0 Hhi Ha. pose proof (pow2_pos a) as Hp.
  destruct (Qle_lt_or_eq _ _ H0) as [Hq|Hq].
  - destruct (ulp_exponent q a Hq Hhi Ha) as [j [Hu Hj]].
    destruct (round_error q Hq) as [E1 E2]. rewrite Hu in E1, E2.
    pose proof (pow2_le j a Hj) as Hle. split; lra.
  - assert (R : round q = 0).
    { unfold round. destruct q as [[|n|n] d]; try reflexivity;
        unfold Qeq in Hq; simpl in Hq; lia. }
    rewrite R, <- Hq. split; lra.
Qed.

(** The rounded result lies within 2^-33 of the exact one. *)
Lemma scaled_near (r : Q) :
  0 <= r -> r <= 1 - pow2 (-53) ->
  inject_Z 100000 + r * inject_Z 900000 - pow2 (-33)
  <= round (inject_Z 100000 + round (r * inject_Z 900000))
  /\ round (inject_Z 100000 + round (r * inject_Z 900000))
     <= inject_Z 100000 + r * inject_Z 900000 + pow2 (-33).
Proof.
  intros H0 H1. destruct (product_range r H0 H1) as [P0 P1].
  set (p := r * inject_Z 900000) in *.
  assert (Hp0 : 0 <= p).
  { unfold p. apply Qmult_le_0_compat; [assumption|discriminate]. }
  assert (HpP : p <= (1 - pow2 (-53)) * inject_Z 900000).
  { unfold p. apply Qmult_le_compat_r; [assumption|discriminate]. }
  assert (Hp : p < pow2 (-33 + 53)) by (eapply Qle_lt_trans; [exact HpP|qcompute]).
  destruct (round_near p (-33) Hp0 Hp) as [X1 X2]; [lia|].
  set (x := round p) in *.
  assert (Hs0 : 0 <= inject_Z 100000 + x).
  { apply Qle_trans with (inject_Z 100000); [discriminate|lra]. }
  assert (Hs : inject_Z 100000 + x < pow2 (-33 + 53)).
  { apply Qle_lt_trans
      with (inject_Z 100000 + inject_Z (900000 * 2 ^ 33 - 1) * pow2 (-33));
      [lra|qcompute]. }
  destruct (round_near _ (-33) Hs0 Hs) as [S1 S2]; [lia|].
  assert (Hh : pow2 (-33) * (1 # 2) + pow2 (-33) * (1 # 2) == pow2 (-33)) by ring.
  split; lra.
Qed.

Lemma floor_near (x y : Q) :
  y - 1 <= x -> x <= y + 1 -> (Z.abs (Qfloor x - Qfloor y) <= 1)%Z.
Proof.
  intros H1 H2.
  destruct (floor_cases x) as [X1 X2]. destruct (floor_cases y) as [Y1 Y2].
  assert (A : (Qfloor x <= Qfloor y + 1)%Z).
  { apply inject_Z_lt_le. rewrite inject_Z_plus. change (inject_Z 1) with 1. lra. }
  assert (B : (Qfloor y <= Qfloor x + 1)%Z).
  { apply inject_Z_lt_le. rewrite inject_Z_plus. change (inject_Z 1) with 1. lra. }
  lia.
Qed.

(** The number printed differs by at most one from the floor of the exact
    value. *)
Lemma scaled_floor_near (r : Q) :
  finite r -> 0 <= r -> r < 1 ->
  (Z.abs (Qfloor (round (inject_Z 100000 + round (r * inject_Z 900000)))
          - Qfloor (inject_Z 100000 + r * inject_Z 900000)) <= 1)%Z.
Proof.
  intros Hf H0 H1.
  destruct (scaled_near r H0 (finite_below_one r Hf H1)) as [N1 N2].
  assert (Hs : pow2 (-33) <= 1) by qcompute.
  apply floor_near; lra.
Qed.

(** *** [round] and the Standard Library's specification of binary64

    On the draws of the scenarios, the product and the sum as [SpecFloat]
    computes them are the rounded product and sum of this model. *)

Example round_agrees_with_spec_0_3 :
  Qeq_bool
    (of_spec (spec_mul (SpecFloat.S754_finite false 5404319552844595 (-54))
                (SpecFloat.S754_finite false 900000 0)))
    (round ((5404319552844595 # 18014398509481984) * inject_Z 900000))
  = true
  /\ Qeq_bool
       (of_spec (spec_add (SpecFloat.S754_finite false 100000 0)
                   (spec_mul (SpecFloat.S754_finite false 5404319552844595 (-54))
                      (SpecFloat.S754_finite false 900000 0))))
       (round (inject_Z 100000
               + round ((5404319552844595 # 18014398509481984) * inject_Z 900000)))
     = true.
Proof. split; vm_compute; reflexivity. Qed.

Example round_agrees_with_spec_482913 :
  Qeq_bool
    (of_spec (spec_add (SpecFloat.S754_finite false 100000 0)
                (spec_mul (SpecFloat.S754_finite false 7664385973845861 (-54))
                   (SpecFloat.S754_finite false 900000 0))))
    (round (inject_Z 100000
            + round ((7664385973845861 # 18014398509481984) * inject_Z 900000)))
  = true.
Proof. vm_compute. reflexivity. Qed.

(** The largest double below 1, and the smallest above 0. *)
Example round_agrees_with_spec_extremes :
  Qeq_bool
    (of_spec (spec_add (SpecFloat.S754_finite false 100000 0)
                (spec_mul (SpecFloat.S754_finite false 9007199254740991 (-53))
                   (SpecFloat.S754_finite false 900000 0))))
    (round (inject_Z 100000
            + round ((9007199254740991 # 9007199254740992) * inject_Z 900000)))
  = true
  /\ Qeq_bool
       (of_spec (spec_mul (SpecFloat.S754_finite false 1 (-1074))
                   (SpecFloat.S754_finite false 900000 0)))
       (round (pow2 (-1074) * inject_Z 900000))
     = true.
Proof. split; vm_compute; reflexivity. Qed.

(** A tie goes to the even significand: 2^53 + 1 rounds to 2^53, and
    2^53 + 3 to 2^53 + 4. *)
Example round_ties_to_even :
  Qeq_bool (round (inject_Z (2 ^ 53 + 1))) (inject_Z (2 ^ 53)) = true
  /\ Qeq_bool (round (inject_Z (2 ^ 53 + 3))) (inject_Z (2 ^ 53 + 4)) = true
  /\ Qeq_bool (round (1 # 10)) (3602879701896397 # 36028797018963968) = true.
Proof. repeat split; vm_compute; reflexivity. Qed.

End DoubleFacts.

(** ** The generator *)

Module CodeFacts.
Import JsString JsStringFacts.

Lemma digit_range (d : Z) : 0 <= d <= 9 -> (48 <= digit d <= 57)%N.
Proof. unfold digit. lia. Qed.

(** The numeral of a six-digit number, digit by digit. *)
Lemma decimal_six (n : Z) :
  100000 <= n <= 999999 ->
  decimal n =
    [digit (n / 100000); digit (n / 10000 mod 10); digit (n / 1000 mod 10);
     digit (n / 100 mod 10); digit (n / 10 mod 10); digit (n mod 10)].
Proof.
  intros Hn. unfold decimal.
  assert (Hlog : 16 <= Z.log2 n).
  { change 16 with (Z.log2 65536). apply Z.log2_le_mono. lia. }
  destruct (Z.to_nat (Z.log2 n)) as [|[|[|[|[|f]]]]] eqn:Ef; try lia.
  cbn [digits_of].
  replace (n / 10 / 10) with (n / 100) by (now rewrite Z.div_div by lia).
  replace (n / 100 / 10) with (n / 1000) by (now rewrite Z.div_div by lia).
  replace (n / 1000 / 10) with (n / 10000) by (now rewrite Z.div_div by lia).
  replace (n / 10000 / 10) with (n / 100000) by (now rewrite Z.div_div by lia).
  replace (n / 100000 / 10) with (n / 1000000) by (now rewrite Z.div_div by lia).
  replace (n / 10 =? 0) with false by (symmetry; apply Z.eqb_neq; Z.div_mod_to_equations; lia).
  replace (n / 100 =? 0) with false by (symmetry; apply Z.eqb_neq; Z.div_mod_to_equations; lia).
  replace (n / 1000 =? 0) with false by (symmetry; apply Z.eqb_neq; Z.div_mod_to_equations; lia).
  replace (n / 10000 =? 0) with false by (symmetry; apply Z.eqb_neq; Z.div_mod_to_equations; lia).
  replace (n / 100000 =? 0) with false by (symmetry; apply Z.eqb_neq; Z.div_mod_to_equations; lia).
  replace (n / 1000000 =? 0) with true by (symmetry; apply Z.eqb_eq; Z.div_mod_to_equations; lia).
  replace (n / 100000 mod 10) with (n / 100000) by (Z.div_mod_to_equations; lia).
  reflexivity.
Qed.

Lemma floor_range (r : Q) :
  random_result r ->
  100000
  <= Qfloor (Double.round (inject_Z 100000 + Double.round (r * inject_Z 900000)))
  <= 999999.
Proof. intros [Hf [H0 H1]]. now apply DoubleFacts.scaled_range. Qed.

Lemma digits_of_app (fuel : nat) (n : Z) (acc : jsstring) :
  digits_of fuel n acc = digits_of fuel n [] ++ acc.
Proof.
  revert n acc; induction fuel as [|fuel IH]; intros n acc; simpl; auto.
  destruct (n / 10 =? 0); auto.
  rewrite (IH _ (digit (n mod 10) :: acc)), (IH _ [digit (n mod 10)]).
  now rewrite <- app_assoc.
Qed.

Lemma value_of_snoc (s : jsstring) (c : N) :
  value_of (s ++ [c]) = 10 * value_of s + (Z.of_N c - 48).
Proof. unfold value_of. now rewrite fold_left_app. Qed.

Lemma digits_of_value (fuel : nat) (n : Z) :
  0 <= n < 10 ^ Z.of_nat fuel -> value_of (digits_of fuel n []) = n.
Proof.
  revert n; induction fuel as [|fuel IH]; intros n Hn.
  - simpl in *. assert (n = 0) by lia. now subst.
  - cbn [digits_of].
    assert (Hd : Z.of_N (digit (n mod 10)) - 48 = n mod 10).
    { unfold digit. Z.div_mod_to_equations; lia. }
    destruct (Z.eqb_spec (n / 10) 0) as [E|E].
    + unfold value_of; simpl fold_left. rewrite Hd.
      Z.div_mod_to_equations; lia.
    + rewrite digits_of_app, value_of_snoc, Hd, IH.
      * Z.div_mod_to_equations; lia.
      * rewrite Nat2Z.inj_succ, Z.pow_succ_r in Hn by lia.
        Z.div_mod_to_equations; lia.
Qed.

(** The fuel of [decimal] is enough: the numeral denotes the number. *)
Lemma decimal_value (n : Z) : 0 <= n -> value_of (decimal n) = n.
Proof.
  intros Hn. unfold decimal. apply digits_of_value.
  split; [assumption|].
  rewrite Nat2Z.inj_succ, Z2Nat.id by apply Z.log2_nonneg.
  destruct (Z.eq_dec n 0) as [->|Hz]; [reflexivity|].
  apply Z.lt_le_trans with (2 ^ Z.succ (Z.log2 n)).
  - apply Z.log2_spec. lia.
  - apply Z.pow_le_mono_l. split; [lia|lia].
Qed.

(** A number of the generator's range prints as six digits, the first not 0. *)
Lemma six_digit_numeral (n : Z) :
  100000 <= n <= 999999 ->
  six_ascii_digits (of_number n)
  /\ exists d rest, of_number n = d :: rest /\ (49 <= d <= 57)%N.
Proof.
  intros Hn. unfold of_number.
  replace (n <? 0) with false by (symmetry; apply Z.ltb_ge; lia).
  rewrite (decimal_six n Hn). split.
  - split; [reflexivity|].
    repeat constructor; apply digit_range; Z.div_mod_to_equations; lia.
  - eexists _, _. split; [reflexivity|].
    unfold digit. Z.div_mod_to_equations; lia.
Qed.

Lemma generateCode_format (r : Q) :
  random_result r ->
  exists n,
    100000 <= n <= 999999 /\ generateCode r = of_number n
    /\ six_ascii_digits (generateCode r)
    /\ exists d rest, generateCode r = d :: rest /\ (49 <= d <= 57)%N.
Proof.
  intros Hr. pose proof (floor_range r Hr) as Hn.
  exists (Qfloor (Double.round (inject_Z 100000
                                + Double.round (r * inject_Z 900000)))).
  split; [exact Hn|]. split; [reflexivity|].
  exact (six_digit_numeral _ Hn).
Qed.

End CodeFacts.

(** ** What a call does to the map *)

Module CallFacts.
Import JsStringFacts JsMapFacts SweepFacts.

Ltac break_match_hyp H :=
  match type of H with
  | context [match ?x with _ => _ end] => destruct x eqn:?
  end.

Ltac break_match_goal :=
  match goal with
  | |- context [match ?x with _ => _ end] => destruct x eqn:?
  end.

Lemma has_false_get (code : jsstring) (st : store) :
  JsMap.has code st = false -> JsMap.get code st = None.
Proof. unfold JsMap.has. now destruct (JsMap.get code st). Qed.

(** The loop ends on a code the map does not hold. *)
Lemma pick_code_fresh (draws : list Q) (st : store) (code : jsstring) :
  pick_code draws st = Some code -> JsMap.get code st = None.
Proof.
  induction draws as [|r later IH]; simpl; [discriminate|].
  destruct (JsMap.has (generateCode r) st) eqn:E; auto.
  intros [= <-]. now apply has_false_get.
Qed.

Lemma run_effect (c : call) (st : store) (r : response) (st' : store) :
  run c st = Some (r, st') -> effect c st st'.
Proof.
  unfold effect. destruct c as [req e|req e|req e|req e|req e|req e]; simpl.
  - unfold Webhook.handler. destruct (Webhook.preamble req) as [r0|u] eqn:Ep.
    + intros [= <- <-]. exists st. auto.
    + intros H. exists (cleanExpiredCodes (Webhook.now_sweep e) st).
      split; [right; eauto|].
      unfold Webhook.dispatch in H. cbv zeta in H.
      destruct (eqb_spec (Webhook.u_text u) (str "/start")) as [Es|Es].
      { rewrite Es. simpl.
        repeat break_match_hyp H; inversion H; subst; auto. }
      destruct (JsString.eqb (Webhook.u_text u) (str "/connect")).
      { destruct (pick_code _ _) as [code|] eqn:Epick; [|discriminate].
        right; right. exists code, (Webhook.new_record u e).
        split; [reflexivity|]. split; [eapply pick_code_fresh; eauto|].
        repeat break_match_hyp H; inversion H; subst; auto. }
      repeat break_match_hyp H; inversion H; subst; auto.
  - unfold Verify.handler. destruct (Verify.preamble req) as [r0|code] eqn:Ep.
    + intros [= <- <-]. exists st. auto.
    + intros H. exists st. split; [auto|].
      unfold Verify.redeem in H. cbv zeta in H.
      repeat break_match_hyp H; inversion H; subst; eauto.
  - unfold Index.handleWebhook. destruct (Index.preamble req) as [r0|u] eqn:Ep.
    + intros [= <- <-]. exists st. auto.
    + intros H. exists (cleanExpiredCodes (Index.w_now_sweep e) st).
      split; [right; eauto|].
      unfold Index.dispatch in H. cbv zeta in H.
      destruct (eqb_spec (Index.u_text u) (str "/start")) as [Es|Es].
      { rewrite Es. simpl.
        repeat break_match_hyp H; inversion H; subst; auto. }
      destruct (JsString.eqb (Index.u_text u) (str "/connect")).
      { destruct (pick_code _ _) as [code|] eqn:Epick; [|discriminate].
        right; right. exists code, (Index.new_record u e).
        split; [reflexivity|]. split; [eapply pick_code_fresh; eauto|].
        repeat break_match_hyp H; inversion H; subst; auto. }
      repeat break_match_hyp H; inversion H; subst; auto.
  - unfold Index.handleVerify.
    destruct (Index.verify_preamble req) as [r0|code] eqn:Ep.
    + intros [= <- <-]. exists st. auto.
    + intros H. exists (cleanExpiredCodes (Index.v_now_sweep e) st).
      split; [right; eauto|].
      unfold Index.redeem in H. cbv zeta in H.
      repeat break_match_hyp H; inversion H; subst; eauto.
  - unfold Combined.handleWebhook.
    destruct (Webhook.read_body (body req)) as [r0|u] eqn:Ep.
    + intros [= <- <-]. exists st. auto.
    + intros H. exists (cleanExpiredCodes (Webhook.now_sweep e) st).
      split; [right; eauto|].
      unfold Combined.dispatch in H. cbv zeta in H.
      destruct (eqb_spec (Webhook.u_text u) (str "/start")) as [Es|Es].
      { rewrite Es. simpl.
        repeat break_match_hyp H; inversion H; subst; auto. }
      destruct (JsString.eqb (Webhook.u_text u) (str "/connect")).
      { destruct (pick_code _ _) as [code|] eqn:Epick; [|discriminate].
        right; right. exists code, (Webhook.new_record u e).
        split; [reflexivity|]. split; [eapply pick_code_fresh; eauto|].
        repeat break_match_hyp H; inversion H; subst; auto. }
      repeat break_match_hyp H; inversion H; subst; auto.
  - unfold Combined.handleVerify.
    destruct (Combined.verify_preamble req) as [r0|code] eqn:Ep.
    + intros [= <- <-]. exists st. auto.
    + intros H. exists (cleanExpiredCodes (Combined.v_now_sweep e) st).
      split; [right; eauto|].
      unfold Combined.redeem in H. cbv zeta in H.
      repeat break_match_hyp H; inversion H; subst; eauto.
Qed.

Lemma effect_wf (c : call) (st st' : store) :
  effect c st st' -> JsMap.wf st -> JsMap.wf st'.
Proof.
  intros [base [Hb Hs]] Hwf.
  assert (Hwb : JsMap.wf base).
  { destruct Hb as [->|[now [_ ->]]]; [assumption|now apply wf_clean]. }
  destruct Hs as [->|[[code [_ ->]]|[code [d [_ [_ ->]]]]]]; auto.
  - now apply wf_delete.
  - now apply wf_set.
Qed.

(** The map holds one entry per code, whatever calls came before. *)
Lemma reachable_wf (st : store) : reachable st -> JsMap.wf st.
Proof.
  induction 1 as [|st c r st' _ IH Hrun|st code _ IH].
  - constructor.
  - eapply effect_wf; [eapply run_effect; eauto|assumption].
  - now apply wf_delete.
Qed.

(** Only an issuance of [code] makes [code] appear. *)
Lemma effect_absent (c : call) (st st' : store) (code : jsstring) :
  effect c st st' -> issued c st <> Some code ->
  JsMap.get code st = None -> JsMap.get code st' = None.
Proof.
  intros [base [Hb Hs]] Hi Hn.
  assert (Hnb : JsMap.get code base = None).
  { destruct Hb as [->|[now [_ ->]]]; [assumption|now apply get_clean_none]. }
  destruct Hs as [->|[[k [_ ->]]|[k [d [Hk [_ ->]]]]]]; auto.
  - now apply get_filter_none.
  - rewrite get_set_other; [assumption|]. intros ->. now apply Hi.
Qed.

Lemma quiet_absent (code : jsstring) (st st' : store) :
  quiet code st st' -> JsMap.get code st = None -> JsMap.get code st' = None.
Proof.
  induction 1 as [|st c r st1 st' Hrun Hi _ IH|st k st' _ IH]; auto.
  - intros Hn. apply IH. eapply effect_absent; eauto. eapply run_effect; eauto.
  - intros Hn. apply IH. now apply get_filter_none.
Qed.

(** A redeeming call for a code the map does not hold is answered 404. *)
Lemma redeem_missing (c : call) (code : jsstring) (st : store) :
  submitted c = Some code -> JsMap.get code st = None ->
  exists r st', run c st = Some (r, st') /\ status r = 404
                /\ JsMap.get code st' = None.
Proof.
  destruct c as [req e|req e|req e|req e|req e|req e]; simpl; try discriminate.
  - unfold Verify.handler. destruct (Verify.preamble req); [discriminate|].
    intros [= ->] Hn. unfold Verify.redeem. rewrite Hn. eauto.
  - unfold Index.handleVerify. destruct (Index.verify_preamble req); [discriminate|].
    intros [= ->] Hn. unfold Index.redeem. cbv zeta.
    rewrite (get_clean_none _ _ _ Hn).
    eexists _, _. split; [reflexivity|]. split; [reflexivity|].
    apply get_delete_same.
  - unfold Combined.handleVerify.
    destruct (Combined.verify_preamble req); [discriminate|].
    intros [= ->] Hn. unfold Combined.redeem. cbv zeta.
    rewrite (get_clean_none _ _ _ Hn).
    eexists _, _. split; [reflexivity|]. split; [reflexivity|].
    now apply get_clean_none.
Qed.

(** A redeeming call answered 200 found the code and left the map without it. *)
Lemma redeem_success (c : call) (code : jsstring) (st : store)
      (r : response) (st' : store) :
  submitted c = Some code -> run c st = Some (r, st') -> status r = 200 ->
  (exists d, JsMap.get code st = Some d) /\ JsMap.get code st' = None.
Proof.
  destruct c as [req e|req e|req e|req e|req e|req e]; simpl; try discriminate.
  - unfold Verify.handler. destruct (Verify.preamble req); [discriminate|].
    intros [= ->]. unfold Verify.redeem. cbv zeta.
    destruct (JsMap.get code st) as [d|] eqn:Eg; [|intros [= <- <-]; discriminate].
    intros H Hs. split; [eauto|].
    repeat break_match_hyp H; inversion H; subst; try discriminate;
      apply get_delete_same.
  - unfold Index.handleVerify. destruct (Index.verify_preamble req); [discriminate|].
    intros [= ->]. unfold Index.redeem. cbv zeta.
    destruct (JsMap.get code (cleanExpiredCodes _ st)) as [d|] eqn:Eg;
      [|intros [= <- <-]; discriminate].
    intros H Hs. split.
    + destruct (JsMap.get code st) as [d'|] eqn:Eg'; [eauto|].
      rewrite (get_clean_none _ _ _ Eg') in Eg. discriminate.
    + repeat break_match_hyp H; inversion H; subst; try discriminate;
        apply get_delete_same.
  - unfold Combined.handleVerify.
    destruct (Combined.verify_preamble req); [discriminate|].
    intros [= ->]. unfold Combined.redeem. cbv zeta.
    destruct (JsMap.get code (cleanExpiredCodes _ st)) as [d|] eqn:Eg;
      [|intros [= <- <-]; discriminate].
    intros H Hs. split.
    + destruct (JsMap.get code st) as [d'|] eqn:Eg'; [eauto|].
      rewrite (get_clean_none _ _ _ Eg') in Eg. discriminate.
    + repeat break_match_hyp H; inversion H; subst; try discriminate;
        apply get_delete_same.
Qed.

(** On a truthy value the method call and ToString agree. *)
Lemma call_toString_truthy (v : value) :
  Js.truthy v = true -> Js.call_toString v = Js.to_string v.
Proof. destruct v; simpl; congruence. Qed.

(** No falsy value reads as six digits. *)
(** Only an object or an array can fail to convert to a string, and
    [toString()] called on it fails as well. *)
Lemma to_string_none (v : value) :
  Js.to_string v = None -> Js.truthy v = true /\ Js.call_toString v = None.
Proof.
  destruct v as [| |b|n|s|l|props]; try discriminate.
  - destruct b; discriminate.
  - intros H. split; [reflexivity|exact H].
  - intros H. split; [reflexivity|exact H].
Qed.

Lemma falsy_not_six_digits (v : value) (s : jsstring) :
  Js.truthy v = false -> Js.to_string v = Some s ->
  JsString.test_six_digits (JsString.trim s) = false.
Proof.
  destruct v as [| |[|]|n|[|x t]|l|l]; simpl; try discriminate;
    try (intros _ [= <-]; reflexivity).
  rewrite negb_false_iff, Z.eqb_eq. intros -> [= <-]. reflexivity.
Qed.

(** The loop, by what it leaves behind: the draws it skipped all collide, the
    one it stops at does not. *)
Lemma pick_code_spec (draws : list Q) (st : store) (code : jsstring) :
  pick_code draws st = Some code <->
  exists skipped r later,
    draws = skipped ++ r :: later /\ code = generateCode r
    /\ JsMap.has code st = false
    /\ Forall (fun x => JsMap.has (generateCode x) st = true) skipped.
Proof.
  induction draws as [|x draws IH]; simpl.
  - split; [discriminate|]. intros [[|? ?] [r [later [H _]]]]; discriminate.
  - destruct (JsMap.has (generateCode x) st) eqn:E.
    + rewrite IH. split.
      * intros [sk [r [later [-> [Hc [Hf Hall]]]]]].
        exists (x :: sk), r, later. repeat split; auto.
      * intros [[|y sk] [r [later [Hd [Hc [Hf Hall]]]]]]; simpl in Hd;
          injection Hd as -> ->.
        -- subst code. congruence.
        -- inversion Hall; subst. exists sk, r, later. repeat split; auto.
    + split.
      * intros [= <-]. exists [], x, draws. repeat split; auto.
      * intros [[|y sk] [r [later [Hd [Hc [Hf Hall]]]]]]; simpl in Hd;
          injection Hd as -> ->.
        -- now subst code.
        -- inversion Hall; subst. congruence.
Qed.

(** With one entry per key, a code has at most one entry. *)
Lemma wf_entries_for (code : jsstring) (st : store) :
  JsMap.wf st -> (entries_for code st <= 1)%nat.
Proof.
  unfold entries_for, JsMap.entries, JsMap.wf.
  induction st as [|[k d] st IH]; simpl; [lia|].
  intros H. inversion H as [|? ? Hn Hd]; subst.
  destruct (eqb_spec code k) as [->|Hk]; simpl; auto.
  rewrite filter_none; [simpl; lia|].
  intros [k' d'] Hin. simpl. destruct (eqb_spec k k') as [<-|]; auto.
  exfalso. apply Hn. unfold JsMap.keys. apply in_map_iff. now exists (k, d').
Qed.

(** An issuing call stores its record, last, under the code the loop ended on. *)
Lemma issue_effect (c : call) (st : store) (r : response) (st' : store)
      (code : jsstring) :
  run c st = Some (r, st') -> issued c st = Some code ->
  exists now d,
    sweep_time c = Some now
    /\ pick_code (draws c) (cleanExpiredCodes now st) = Some code
    /\ JsMap.get code (cleanExpiredCodes now st) = None
    /\ st' = cleanExpiredCodes now st ++ [(code, d)]
    /\ new_record c = Some d.
Proof.
  destruct c as [req e|req e|req e|req e|req e|req e]; simpl; try discriminate.
  - unfold Webhook.handler. destruct (Webhook.preamble req) as [r0|u]; [discriminate|].
    destruct (eqb_spec (Webhook.u_text u) (str "/connect")) as [Et|]; [|discriminate].
    intros H Hp. unfold Webhook.dispatch in H. cbv zeta in H.
    rewrite Et in H. simpl in H. rewrite Hp in H.
    pose proof (pick_code_fresh _ _ _ Hp) as Hf.
    exists (Webhook.now_sweep e), (Webhook.new_record u e).
    rewrite <- (set_fresh _ (Webhook.new_record u e) _ Hf).
    repeat split; auto.
    repeat break_match_hyp H; inversion H; subst; auto.
  - unfold Index.handleWebhook. destruct (Index.preamble req) as [r0|u]; [discriminate|].
    destruct (eqb_spec (Index.u_text u) (str "/connect")) as [Et|]; [|discriminate].
    intros H Hp. unfold Index.dispatch in H. cbv zeta in H.
    rewrite Et in H. simpl in H. rewrite Hp in H.
    pose proof (pick_code_fresh _ _ _ Hp) as Hf.
    exists (Index.w_now_sweep e), (Index.new_record u e).
    rewrite <- (set_fresh _ (Index.new_record u e) _ Hf).
    repeat split; auto.
    repeat break_match_hyp H; inversion H; subst; auto.
  - unfold Combined.handleWebhook.
    destruct (Webhook.read_body (body req)) as [r0|u]; [discriminate|].
    destruct (eqb_spec (Webhook.u_text u) (str "/connect")) as [Et|]; [|discriminate].
    intros H Hp. unfold Combined.dispatch in H. cbv zeta in H.
    rewrite Et in H. simpl in H. rewrite Hp in H.
    pose proof (pick_code_fresh _ _ _ Hp) as Hf.
    exists (Webhook.now_sweep e), (Webhook.new_record u e).
    rewrite <- (set_fresh _ (Webhook.new_record u e) _ Hf).
    repeat split; auto.
    repeat break_match_hyp H; inversion H; subst; auto.
Qed.

(** A call changes no record: what the map holds for a code afterwards it held
    before, unless the call issued that code. *)
Lemma effect_subset (c : call) (st st' : store) (k : jsstring) (d : codeData) :
  effect c st st' -> JsMap.wf st -> JsMap.get k st' = Some d ->
  JsMap.get k st = Some d \/ issued c st = Some k.
Proof.
  intros [base [Hb Hs]] Hwf Hg.
  assert (Hwb : JsMap.wf base).
  { destruct Hb as [->|[now [_ ->]]]; [assumption|now apply wf_clean]. }
  assert (G : forall x, JsMap.get k base = Some x -> JsMap.get k st = Some x).
  { destruct Hb as [->|[now [_ ->]]]; [auto|].
    intros x. rewrite (get_clean _ _ _ Hwf).
    destruct (JsMap.get k st) as [y|]; [|discriminate].
    destruct (now >? expiresAt y); congruence. }
  destruct Hs as [->|[[code [_ ->]]|[code [nd [Hi [_ ->]]]]]].
  - left. auto.
  - left. apply G. unfold JsMap.delete in Hg.
    rewrite (get_filter _ _ _ Hwb) in Hg.
    destruct (JsMap.get k base) as [y|]; [|discriminate].
    destruct (negb _); congruence.
  - destruct (eqb_spec code k) as [->|Hk]; [now right|].
    left. apply G. now rewrite get_set_other in Hg.
Qed.

(** A redeeming call issues nothing. *)
Lemma submitted_not_issued (c : call) (code : jsstring) (st : store) :
  submitted c = Some code -> issued c st = None.
Proof. destruct c; simpl; congruence. Qed.

(** Before the map is looked at, only [OPTIONS] is answered 200 by a
    redeeming handler. *)
Lemma verify_preamble_200 (req : request) (r : response) :
  Verify.preamble req = inl r -> status r = 200 -> method req = str "OPTIONS".
Proof.
  unfold Verify.preamble. destruct (eqb_spec (method req) (str "OPTIONS")); auto.
  intros H. repeat break_match_hyp H; inversion H; subst; discriminate.
Qed.

Lemma index_verify_preamble_200 (req : request) (r : response) :
  Index.verify_preamble req = inl r -> status r = 200 -> method req = str "OPTIONS".
Proof.
  unfold Index.verify_preamble.
  destruct (eqb_spec (method req) (str "OPTIONS")); auto.
  intros H. repeat break_match_hyp H; inversion H; subst; discriminate.
Qed.

Lemma combined_verify_preamble_200 (req : request) (r : response) :
  Combined.verify_preamble req = inl r -> status r = 200 ->
  method req = str "OPTIONS".
Proof.
  unfold Combined.verify_preamble.
  destruct (eqb_spec (method req) (str "OPTIONS")); auto.
  intros H. repeat break_match_hyp H; inversion H; subst; discriminate.
Qed.

(** What the swept map holds, the map held. *)
Lemma get_clean_some (now : Z) (code : jsstring) (d : codeData) (st : store) :
  JsMap.wf st -> JsMap.get code (cleanExpiredCodes now st) = Some d ->
  JsMap.get code st = Some d /\ now <= expiresAt d.
Proof.
  intros Hwf. rewrite (get_clean _ _ _ Hwf).
  destruct (JsMap.get code st) as [y|]; [|discriminate].
  destruct (now >? expiresAt y) eqn:E; [discriminate|].
  intros [= ->]. split; auto.
  rewrite Z.gtb_ltb in E. apply Z.ltb_ge in E. lia.
Qed.

End CallFacts.

(* ================================================================== *)
(** * The claims *)

Import JsStringFacts JsMapFacts SweepFacts CodeFacts CallFacts.

(** C1 (one-time consumption).  When a redeeming call for [code] is answered
    200, the map held an entry for [code] before the call and holds none after
    it; and after any further calls none of which issues [code] again, every
    redeeming call for [code] is answered 404 and still leaves no entry for it.
    This holds for the handlers of all three files, called in any order. *)
Theorem one_time_consumption
    (c : call) (code : jsstring) (st : store) (r : response) (st' : store) :
  submitted c = Some code ->
  run c st = Some (r, st') ->
  status r = 200 ->
  (exists d, JsMap.get code st = Some d) /\
  JsMap.get code st' = None /\
  forall st'', quiet code st' st'' ->
    forall c2, submitted c2 = Some code ->
      exists r2 st3,
        run c2 st'' = Some (r2, st3) /\ status r2 = 404
        /\ JsMap.get code st3 = None.
Proof.
  intros Hsub Hrun Hok.
  destruct (redeem_success c code st r st' Hsub Hrun Hok) as [Hin Hout].
  split; [exact Hin|]. split; [exact Hout|].
  intros st'' Hq c2 Hsub2.
  apply redeem_missing; [exact Hsub2|].
  eapply quiet_absent; eauto.
Qed.

(** The scenario of the specification: "482913" is redeemed at 10 s; then
    another user is issued "100000"; a second redeem of "482913", through
    either file, is answered 404. *)
Lemma one_time_consumption_witness :
  Verify.handler (Scenario.post (Scenario.code_body "482913"))
    (Verify.mkEnv 10000 10000 VUndefined) Scenario.one_code
  = (send 200
       (VObj [(str "success", VBool true);
              (str "config",
                Verify.config (Scenario.record_42 0) (str "42")
                  (Verify.mkEnv 10000 10000 VUndefined))]),
     JsMap.empty)
  /\ exists r2 st3,
       run (CallIndexVerify (Scenario.post (Scenario.code_body " 482913"))
              (Index.mkVerifyEnv 20000 20000 true))
           [(str "100000", Scenario.record_42 15000)]
       = Some (r2, st3)
       /\ status r2 = 404 /\ JsMap.get (str "482913") st3 = None.
Proof.
  split; [reflexivity|].
  apply (proj2 (proj2 (one_time_consumption
            (CallVerify (Scenario.post (Scenario.code_body "482913"))
               (Verify.mkEnv 10000 10000 VUndefined))
            (str "482913") Scenario.one_code _ JsMap.empty
            eq_refl eq_refl eq_refl))).
  - apply (quiet_call (str "482913") JsMap.empty
             (CallWebhook (Scenario.post (Scenario.update_from 42 "/connect"))
                (Webhook.mkEnv 15000 15000 15000 [Scenario.draw_100000] true))
             (send 200 ok_true)
             [(str "100000", Scenario.record_42 15000)]).
    + reflexivity.
    + vm_compute. discriminate.
    + apply quiet_here.
  - reflexivity.
Defined.

(** C2 (as amended).  A redeeming call for a stored code whose deadline lies
    before the clock read of the expiry test:
    - in [api/verify.js] deletes the record and is answered 410, where a code
      that is not stored is answered 404 and the map is left as it was;
    - in [api/index.js] (production) leaves no record for the code and is
      answered 404 with the message of a code that is not stored, whether the
      sweep or the test found the deadline passed;
    - in [api/index.js] (combined) is answered 404 when the sweep already
      found the deadline passed, and 410 only when it passed between the
      sweep's clock read and the test's; either way no record is left. *)
Theorem expired_versus_not_found :
  (forall req e st code d,
      Verify.preamble req = inr code -> JsMap.get code st = Some d ->
      expiresAt d < Verify.now_check e ->
      Verify.handler req e st
      = (send 410 (failure "Code has expired. Please request a new one."),
         JsMap.delete code st)
      /\ JsMap.get code (JsMap.delete code st) = None)
  /\ (forall req e st code,
      Verify.preamble req = inr code -> JsMap.get code st = None ->
      Verify.handler req e st = (send 404 (failure "Invalid or expired code"), st))
  /\ (forall req e st code d,
      JsMap.wf st ->
      Index.verify_preamble req = inr code -> JsMap.get code st = Some d ->
      expiresAt d < Index.v_now_sweep e \/ expiresAt d < Index.v_now_check e ->
      exists st',
        Index.handleVerify req e st
        = (send 404 (failure "Invalid or expired code"), st')
        /\ JsMap.get code st' = None)
  /\ (forall req e st code d,
      JsMap.wf st ->
      Combined.verify_preamble req = inr code -> JsMap.get code st = Some d ->
      (expiresAt d < Combined.v_now_sweep e ->
       exists st',
         Combined.handleVerify req e st
         = (send 404 (failure "Invalid or expired code"), st')
         /\ JsMap.get code st' = None)
      /\ (Combined.v_now_sweep e <= expiresAt d < Combined.v_now_check e ->
          exists st',
            Combined.handleVerify req e st
            = (send 410 (failure "Code has expired"), st')
            /\ JsMap.get code st' = None)).
Proof.
  split; [|split; [|split]].
  - intros req e st code d Hp Hg Hex. split; [|apply get_delete_same].
    unfold Verify.handler. rewrite Hp. unfold Verify.redeem. rewrite Hg.
    now replace (Verify.now_check e >? expiresAt d) with true
      by (symmetry; apply Z.gtb_lt; lia).
  - intros req e st code Hp Hg.
    unfold Verify.handler. rewrite Hp. unfold Verify.redeem. now rewrite Hg.
  - intros req e st code d Hwf Hp Hg Hex.
    unfold Index.handleVerify. rewrite Hp. unfold Index.redeem. cbv zeta.
    rewrite (get_clean _ _ _ Hwf), Hg.
    destruct (Index.v_now_sweep e >? expiresAt d) eqn:Es.
    + eexists. split; [reflexivity|]. apply get_delete_same.
    + replace (Index.v_now_check e >? expiresAt d) with true
        by (symmetry; apply Z.gtb_lt; rewrite Z.gtb_ltb in Es;
            apply Z.ltb_ge in Es; lia).
      eexists. split; [reflexivity|]. apply get_delete_same.
  - intros req e st code d Hwf Hp Hg. split; intros Hex.
    + unfold Combined.handleVerify. rewrite Hp. unfold Combined.redeem. cbv zeta.
      rewrite (get_clean _ _ _ Hwf), Hg.
      replace (Combined.v_now_sweep e >? expiresAt d) with true
        by (symmetry; apply Z.gtb_lt; lia).
      eexists. split; [reflexivity|].
      rewrite (get_clean _ _ _ Hwf), Hg.
      now replace (Combined.v_now_sweep e >? expiresAt d) with true
        by (symmetry; apply Z.gtb_lt; lia).
    + unfold Combined.handleVerify. rewrite Hp. unfold Combined.redeem. cbv zeta.
      rewrite (get_clean _ _ _ Hwf), Hg.
      replace (Combined.v_now_sweep e >? expiresAt d) with false
        by (symmetry; rewrite Z.gtb_ltb; apply Z.ltb_ge; lia).
      replace (Combined.v_now_check e >? expiresAt d) with true
        by (symmetry; apply Z.gtb_lt; lia).
      eexists. split; [reflexivity|]. apply get_delete_same.
Qed.

(** C2, as stated, fails on [api/index.js]: the code "482913" is stored with
    deadline 300000, the call comes at 300001, and the answer is 404, not 410. *)
Lemma index_answers_expired_code_404 :
  JsMap.get (str "482913") Scenario.one_code = Some (Scenario.record_42 0)
  /\ expiresAt (Scenario.record_42 0) < 300001
  /\ Index.handleVerify (Scenario.post (Scenario.code_body "482913"))
       (Index.mkVerifyEnv 300001 300001 true) Scenario.one_code
     = (send 404 (failure "Invalid or expired code"), JsMap.empty).
Proof. repeat split. Qed.

Lemma expired_versus_not_found_witness :
  (Verify.handler (Scenario.post (Scenario.code_body "482913"))
     (Verify.mkEnv 300001 300001 VUndefined) Scenario.one_code
   = (send 410 (failure "Code has expired. Please request a new one."),
      JsMap.delete (str "482913") Scenario.one_code)
   /\ JsMap.get (str "482913") (JsMap.delete (str "482913") Scenario.one_code) = None)
  /\ exists st',
       Index.handleVerify (Scenario.post (Scenario.code_body "482913"))
         (Index.mkVerifyEnv 300000 300001 true) Scenario.one_code
       = (send 404 (failure "Invalid or expired code"), st')
       /\ JsMap.get (str "482913") st' = None.
Proof.
  split.
  - apply (proj1 expired_versus_not_found _ _ _ _ (Scenario.record_42 0));
      reflexivity.
  - apply (proj1 (proj2 (proj2 expired_versus_not_found))
             _ _ _ _ (Scenario.record_42 0)).
    + repeat constructor. simpl. tauto.
    + reflexivity.
    + reflexivity.
    + right. reflexivity.
Defined.

(** C3 (as amended).  The record an issuing call stores has [expiresAt] equal
    to the clock read taken for that field plus exactly five minutes
    (300000 ms).  In [api/webhook.js] and the combined [api/index.js],
    [createdAt] is a separate clock read, so [expiresAt] is [createdAt] plus
    five minutes when the two reads agree; the production [api/index.js]
    stores no [createdAt].  No later call changes a stored record.  A
    redeeming call of [api/verify.js] for a stored code is answered 200 when
    the clock read of its test is at or before [expiresAt] (the stored
    [userId] being printable into the session token), and 410 when it is
    after: the test is [now > expiresAt]. *)
Theorem expiry_semantics :
  (forall c st r st' code,
      run c st = Some (r, st') -> issued c st = Some code ->
      exists d,
        JsMap.get code st' = Some d
        /\ match c with
           | CallWebhook _ e | CallCombinedWebhook _ e =>
               expiresAt d = Webhook.now_expires e + 5 * 60 * 1000
               /\ createdAt d = Some (Webhook.now_created e)
               /\ (Webhook.now_created e = Webhook.now_expires e ->
                   createdAt d = Some (expiresAt d - 5 * 60 * 1000))
           | CallIndexWebhook _ e =>
               expiresAt d = Index.w_now_expires e + 5 * 60 * 1000
               /\ createdAt d = None
           | _ => False
           end)
  /\ (forall c st r st' code d d',
      JsMap.wf st -> run c st = Some (r, st') -> issued c st <> Some code ->
      JsMap.get code st = Some d -> JsMap.get code st' = Some d' -> d' = d)
  /\ (forall req e st code d,
      Verify.preamble req = inr code -> JsMap.get code st = Some d ->
      (Verify.now_check e <= expiresAt d ->
       forall uid, Js.to_string (userId d) = Some uid ->
       Verify.handler req e st
       = (send 200 (VObj [(str "success", VBool true);
                          (str "config", Verify.config d uid e)]),
          JsMap.delete code st))
      /\ (expiresAt d < Verify.now_check e ->
          Verify.handler req e st
          = (send 410 (failure "Code has expired. Please request a new one."),
             JsMap.delete code st))).
Proof.
  split; [|split].
  - intros c st r st' code Hrun Hi.
    destruct (issue_effect c st r st' code Hrun Hi)
      as [now [d [_ [_ [Hf [-> Hd]]]]]].
    exists d. split.
    { rewrite <- (set_fresh _ d _ Hf). apply get_set_same. }
    destruct c as [req e|req e|req e|req e|req e|req e]; simpl in Hd;
      try discriminate.
    + destruct (Webhook.preamble req) as [|u]; [discriminate|].
      injection Hd as <-. simpl. unfold CODE_EXPIRY_MS.
      repeat split. intros ->. f_equal. lia.
    + destruct (Index.preamble req) as [|u]; [discriminate|].
      injection Hd as <-. simpl. unfold CODE_EXPIRY_MS. now split.
    + destruct (Webhook.read_body (body req)) as [|u]; [discriminate|].
      injection Hd as <-. simpl. unfold CODE_EXPIRY_MS.
      repeat split. intros ->. f_equal. lia.
  - intros c st r st' code d d' Hwf Hrun Hi Hg Hg'.
    destruct (effect_subset c st st' code d' (run_effect _ _ _ _ Hrun) Hwf Hg')
      as [H|H]; congruence.
  - intros req e st code d Hp Hg. split.
    + intros Hle uid Hu.
      unfold Verify.handler. rewrite Hp. unfold Verify.redeem. rewrite Hg.
      replace (Verify.now_check e >? expiresAt d) with false
        by (symmetry; rewrite Z.gtb_ltb; apply Z.ltb_ge; lia).
      cbv zeta. now rewrite Hu.
    + intros Hlt.
      unfold Verify.handler. rewrite Hp. unfold Verify.redeem. rewrite Hg.
      now replace (Verify.now_check e >? expiresAt d) with true
        by (symmetry; apply Z.gtb_lt; lia).
Qed.

(** C3, as stated, fails: in [api/webhook.js] the clock moves from 0 to 1
    between the two reads and the record holds [createdAt] 0 with [expiresAt]
    300001; in [api/index.js] the record has no [createdAt] at all. *)
Lemma expiry_is_not_created_plus_five_minutes :
  Webhook.handler (Scenario.post (Scenario.update_from 42 "/connect"))
    (Webhook.mkEnv 0 0 1 [Scenario.draw_482913] true) JsMap.empty
  = Some (send 200 ok_true,
          [(str "482913",
            mkCodeData (VNum 42) (VNum 42) (VStr (str "")) (VStr (str "Ann"))
              (Some 0) 300001)])
  /\ 300001 <> 0 + 5 * 60 * 1000
  /\ Index.handleWebhook (Scenario.post (Scenario.update_from 42 "/connect"))
       (Index.mkWebhookEnv 0 0 [Scenario.draw_482913] true) JsMap.empty
     = Some (send 200 ok_true,
             [(str "482913",
               mkCodeData (VNum 42) (VNum 42) VUndefined (VStr (str "Ann"))
                 None 300000)]).
Proof. repeat split. discriminate. Qed.

(** "482913" issued at time 0 is redeemed at 299999 and at 300000, and
    refused at 300001. *)
Lemma expiry_semantics_witness :
  (exists d,
      JsMap.get (str "482913") Scenario.one_code = Some d
      /\ expiresAt d = 0 + 5 * 60 * 1000
      /\ createdAt d = Some 0
      /\ (0 = 0 -> createdAt d = Some (expiresAt d - 5 * 60 * 1000)))
  /\ status (fst (Verify.handler (Scenario.post (Scenario.code_body "482913"))
                    (Verify.mkEnv 299999 299999 VUndefined) Scenario.one_code)) = 200
  /\ status (fst (Verify.handler (Scenario.post (Scenario.code_body "482913"))
                    (Verify.mkEnv 300000 300000 VUndefined) Scenario.one_code)) = 200
  /\ status (fst (Verify.handler (Scenario.post (Scenario.code_body "482913"))
                    (Verify.mkEnv 300001 300001 VUndefined) Scenario.one_code)) = 410.
Proof.
  split; [|split; [|split]].
  - apply (proj1 expiry_semantics
             (CallWebhook (Scenario.post (Scenario.update_from 42 "/connect"))
                (Webhook.mkEnv 0 0 0 [Scenario.draw_482913] true))
             JsMap.empty (send 200 ok_true) Scenario.one_code (str "482913"));
      reflexivity.
  - rewrite (proj1 (proj2 (proj2 expiry_semantics)
               (Scenario.post (Scenario.code_body "482913"))
               (Verify.mkEnv 299999 299999 VUndefined) Scenario.one_code
               (str "482913") (Scenario.record_42 0) eq_refl eq_refl)
             ltac:(vm_compute; discriminate) (str "42") eq_refl).
    reflexivity.
  - rewrite (proj1 (proj2 (proj2 expiry_semantics)
               (Scenario.post (Scenario.code_body "482913"))
               (Verify.mkEnv 300000 300000 VUndefined) Scenario.one_code
               (str "482913") (Scenario.record_42 0) eq_refl eq_refl)
             ltac:(vm_compute; discriminate) (str "42") eq_refl).
    reflexivity.
  - rewrite (proj2 (proj2 (proj2 expiry_semantics)
               (Scenario.post (Scenario.code_body "482913"))
               (Verify.mkEnv 300001 300001 VUndefined) Scenario.one_code
               (str "482913") (Scenario.record_42 0) eq_refl eq_refl)
             eq_refl).
    reflexivity.
Defined.

(** C4 (as amended).  A POST whose [code] can be read from the body and
    converted to a string that, trimmed, is not exactly six ASCII digits is
    answered 400 by each of the three redeeming handlers; the answer is fixed
    before the map is looked at (it is the same whatever the map and the
    clock) and the map is left exactly as it was.  A POST whose body is
    absent or [null], or whose [code] cannot be converted to a string, is
    answered 500 by the [catch] block, the map left as it was, too. *)
Theorem format_validation (req : request) :
  method req = str "POST" ->
  (forall code s,
      Js.get (body req) (str "code") = Some code ->
      Js.to_string code = Some s ->
      ~ six_ascii_digits (JsString.trim s) ->
      exists r1 r2 r3,
        (status r1 = 400 /\ Verify.preamble req = inl r1
         /\ forall e st, Verify.handler req e st = (r1, st))
        /\ (status r2 = 400 /\ Index.verify_preamble req = inl r2
            /\ forall e st, Index.handleVerify req e st = (r2, st))
        /\ (status r3 = 400 /\ Combined.verify_preamble req = inl r3
            /\ forall e st, Combined.handleVerify req e st = (r3, st)))
  /\ (Js.get (body req) (str "code") = None
      \/ (exists code,
             Js.get (body req) (str "code") = Some code
             /\ Js.to_string code = None) ->
      (Verify.preamble req = inl (send 500 (failure "Server error"))
       /\ forall e st,
           Verify.handler req e st = (send 500 (failure "Server error"), st))
      /\ (Index.verify_preamble req = inl (send 500 (failure "Server error"))
          /\ forall e st,
              Index.handleVerify req e st
              = (send 500 (failure "Server error"), st))
      /\ (Combined.verify_preamble req = inl (send 500 (failure "Server error"))
          /\ forall e st,
              Combined.handleVerify req e st
              = (send 500 (failure "Server error"), st))).
Proof.
  intros Hm. split.
  - intros code s Hc Hs Hbad.
    assert (Ht : Js.truthy code = true ->
                 JsString.test_six_digits (JsString.trim s) = false).
    { intros _. destruct (JsString.test_six_digits _) eqn:E; auto.
      exfalso. apply Hbad. now apply test_six_digits_iff. }
    exists (send 400 (failure (if Js.truthy code then "Invalid code format"
                               else "Code is required"))),
           (send 400 (failure (if Js.truthy code then "Invalid code format"
                               else "Code required"))),
           (send 400 (failure (if Js.truthy code then "Invalid code format"
                               else "Code is required"))).
    assert (P1 : Verify.preamble req
                 = inl (send 400 (failure (if Js.truthy code
                                           then "Invalid code format"
                                           else "Code is required")))).
    { unfold Verify.preamble. rewrite Hm, Hc. simpl.
      destruct (Js.truthy code) eqn:E; simpl; auto.
      rewrite (call_toString_truthy _ E), Hs. now rewrite Ht. }
    assert (P2 : Index.verify_preamble req
                 = inl (send 400 (failure (if Js.truthy code
                                           then "Invalid code format"
                                           else "Code required")))).
    { unfold Index.verify_preamble. rewrite Hm, Hc. simpl.
      destruct (Js.truthy code) eqn:E; simpl; auto.
      rewrite (call_toString_truthy _ E), Hs. now rewrite Ht. }
    assert (P3 : Combined.verify_preamble req
                 = inl (send 400 (failure (if Js.truthy code
                                           then "Invalid code format"
                                           else "Code is required")))).
    { unfold Combined.verify_preamble. rewrite Hm, Hc, Hs. simpl.
      destruct (Js.truthy code) eqn:E; simpl; auto.
      rewrite (call_toString_truthy _ E), Hs. now rewrite Ht. }
    repeat split; auto; intros e st.
    + unfold Verify.handler. now rewrite P1.
    + unfold Index.handleVerify. now rewrite P2.
    + unfold Combined.handleVerify. now rewrite P3.
  - intros Hthrow.
    assert (P1 : Verify.preamble req = inl (send 500 (failure "Server error"))).
    { unfold Verify.preamble. rewrite Hm. simpl.
      destruct Hthrow as [->|[code [-> Hn]]]; [reflexivity|].
      destruct (to_string_none _ Hn) as [-> ->]. reflexivity. }
    assert (P2 : Index.verify_preamble req
                 = inl (send 500 (failure "Server error"))).
    { unfold Index.verify_preamble. rewrite Hm. simpl.
      destruct Hthrow as [->|[code [-> Hn]]]; [reflexivity|].
      destruct (to_string_none _ Hn) as [-> ->]. reflexivity. }
    assert (P3 : Combined.verify_preamble req
                 = inl (send 500 (failure "Server error"))).
    { unfold Combined.verify_preamble. rewrite Hm. simpl.
      destruct Hthrow as [->|[code [-> Hn]]]; [reflexivity|].
      now rewrite Hn. }
    repeat split; auto; intros e st.
    + unfold Verify.handler. now rewrite P1.
    + unfold Index.handleVerify. now rewrite P2.
    + unfold Combined.handleVerify. now rewrite P3.
Qed.

(** C4, as stated, fails for a redeem call that carries no string: a POST
    without a body, and a POST whose [code] is an object with a property
    named [toString], are answered 500, not 400.  The [try] block's [catch]
    answers every exception so. *)
Lemma unreadable_code_is_answered_500 :
  Verify.handler (Scenario.post VUndefined)
    (Verify.mkEnv 0 0 VUndefined) Scenario.one_code
  = (send 500 (failure "Server error"), Scenario.one_code)
  /\ Index.handleVerify (Scenario.post VUndefined)
       (Index.mkVerifyEnv 0 0 true) Scenario.one_code
     = (send 500 (failure "Server error"), Scenario.one_code)
  /\ Combined.handleVerify (Scenario.post VUndefined)
       (Combined.mkVerifyEnv 0 0 0 VUndefined) Scenario.one_code
     = (send 500 (failure "Server error"), Scenario.one_code)
  /\ Verify.handler
       (Scenario.post
          (VObj [(str "code", VObj [(str "toString", VStr (str "12a456"))])]))
       (Verify.mkEnv 0 0 VUndefined) Scenario.one_code
     = (send 500 (failure "Server error"), Scenario.one_code)
  /\ Index.handleVerify
       (Scenario.post
          (VObj [(str "code", VObj [(str "toString", VStr (str "12a456"))])]))
       (Index.mkVerifyEnv 0 0 true) Scenario.one_code
     = (send 500 (failure "Server error"), Scenario.one_code)
  /\ status (send 500 (failure "Server error")) <> 400.
Proof. repeat split. discriminate. Qed.

(** The scenario of the specification: [redeem("12a456")] is refused with 400
    whatever the map holds. *)
Lemma format_validation_witness :
  exists r1 r2 r3,
    (status r1 = 400
     /\ Verify.preamble (Scenario.post (Scenario.code_body "12a456")) = inl r1
     /\ forall e st,
         Verify.handler (Scenario.post (Scenario.code_body "12a456")) e st = (r1, st))
    /\ (status r2 = 400
        /\ Index.verify_preamble (Scenario.post (Scenario.code_body "12a456")) = inl r2
        /\ forall e st,
            Index.handleVerify (Scenario.post (Scenario.code_body "12a456")) e st
            = (r2, st))
    /\ (status r3 = 400
        /\ Combined.verify_preamble (Scenario.post (Scenario.code_body "12a456")) = inl r3
        /\ forall e st,
            Combined.handleVerify (Scenario.post (Scenario.code_body "12a456")) e st
            = (r3, st)).
Proof.
  apply (proj1 (format_validation (Scenario.post (Scenario.code_body "12a456"))
                  eq_refl)
           (VStr (str "12a456")) (str "12a456")); try reflexivity.
  intros H. apply test_six_digits_iff in H. vm_compute in H. discriminate.
Defined.

(** C5 (code uniqueness).  The resampling loop returns the first draw whose
    code the map does not hold and skips every draw whose code it holds,
    whatever the deadline of the stored record; it returns as soon as a draw
    is free.  An issuing call appends its record under that code and keeps
    every entry of the swept map.  Hence every map a process can reach holds
    at most one record per code. *)
Theorem code_uniqueness :
  (forall draws st code,
      pick_code draws st = Some code <->
      exists skipped r later,
        draws = skipped ++ r :: later /\ code = generateCode r
        /\ JsMap.has code st = false
        /\ Forall (fun x => JsMap.has (generateCode x) st = true) skipped)
  /\ (forall r later st d,
      JsMap.get (generateCode r) st = Some d ->
      pick_code (r :: later) st = pick_code later st)
  /\ (forall c st r st' code,
      run c st = Some (r, st') -> issued c st = Some code ->
      exists now d,
        sweep_time c = Some now
        /\ pick_code (draws c) (cleanExpiredCodes now st) = Some code
        /\ JsMap.get code (cleanExpiredCodes now st) = None
        /\ st' = cleanExpiredCodes now st ++ [(code, d)])
  /\ (forall st, reachable st -> forall code, (entries_for code st <= 1)%nat).
Proof.
  repeat split.
  - apply pick_code_spec.
  - apply pick_code_spec.
  - intros r later st d Hg. simpl. unfold JsMap.has. now rewrite Hg.
  - intros c st r st' code Hrun Hi.
    destruct (issue_effect c st r st' code Hrun Hi)
      as [now [d [Ht [Hp [Hf [Hs _]]]]]].
    exists now, d. auto.
  - intros st Hr code. apply wf_entries_for. now apply reachable_wf.
Qed.

(** A third user asks for a code while "482913" (expired at 300000, not yet
    swept by any call) and "100000" are stored: at 300000 the draw for
    "482913" is skipped and the loop settles on the next free code. *)
Lemma code_uniqueness_witness :
  pick_code [Scenario.draw_482913; Scenario.draw_100000; 1 # 2] Scenario.two_codes
  = Some (str "550000")
  /\ (entries_for (str "482913") Scenario.two_codes <= 1)%nat.
Proof.
  split.
  - apply (proj1 code_uniqueness).
    exists [Scenario.draw_482913; Scenario.draw_100000], (1 # 2), [].
    repeat split; repeat constructor.
  - apply (proj2 (proj2 (proj2 code_uniqueness))).
    apply (reachable_call [(str "482913", Scenario.record_42 0)]
             (CallWebhook (Scenario.post (Scenario.update_from 42 "/connect"))
                (Webhook.mkEnv 300000 400000 400000 [Scenario.draw_100000] true))
             (send 200 ok_true)); [|reflexivity].
    apply (reachable_call JsMap.empty
             (CallWebhook (Scenario.post (Scenario.update_from 42 "/connect"))
                (Webhook.mkEnv 0 0 0 [Scenario.draw_482913] true))
             (send 200 ok_true)); [|reflexivity].
    apply reachable_start.
Defined.

(** C6 (issued-code format).  For every result [r] of [Math.random()] (a
    double with 0 <= r < 1) the generator, computing in binary64, returns the
    decimal numeral of an integer between 100000 and 999999: six ASCII
    digits, accepted by the format test, the first of them not 0.  So is
    every code an issuing call settles on. *)
Theorem issued_code_format :
  (forall r, random_result r ->
      exists n,
        100000 <= n <= 999999
        /\ generateCode r = JsString.of_number n
        /\ six_ascii_digits (generateCode r)
        /\ JsString.test_six_digits (generateCode r) = true
        /\ exists d rest, generateCode r = d :: rest /\ (49 <= d <= 57)%N)
  /\ (forall c st code,
      Forall random_result (draws c) ->
      issued c st = Some code ->
      six_ascii_digits code
      /\ exists d rest, code = d :: rest /\ (49 <= d <= 57)%N).
Proof.
  split.
  - intros r Hr.
    destruct (generateCode_format r Hr) as [n [Hn [He [H6 Hd]]]].
    exists n. split; [exact Hn|]. split; [exact He|]. split; [exact H6|].
    split; [now apply test_six_digits_iff|exact Hd].
  - intros c st code Hall Hi.
    assert (Hp : exists m, pick_code (draws c) m = Some code).
    { destruct c as [req e|req e|req e|req e|req e|req e]; simpl in *;
        try discriminate.
      - destruct (Webhook.preamble req); [discriminate|].
        destruct (JsString.eqb _ _); [eauto|discriminate].
      - destruct (Index.preamble req); [discriminate|].
        destruct (JsString.eqb _ _); [eauto|discriminate].
      - destruct (Webhook.read_body _); [discriminate|].
        destruct (JsString.eqb _ _); [eauto|discriminate]. }
    destruct Hp as [m Hp].
    apply pick_code_spec in Hp.
    destruct Hp as [sk [r [later [Hd [-> _]]]]].
    rewrite Hd in Hall. apply Forall_app in Hall. destruct Hall as [_ Hall].
    inversion Hall as [|? ? Hr _]; subst.
    destruct (generateCode_format r Hr) as [n [_ [_ [H6 Hx]]]].
    now split.
Qed.

(** The double nearest to 0.3 gives "370000" (in exact arithmetic the sum
    would lie below 370000), and the largest double below 1 gives "999999". *)
Lemma issued_code_format_witness :
  (exists n,
      100000 <= n <= 999999
      /\ generateCode Scenario.draw_370000 = JsString.of_number n
      /\ six_ascii_digits (generateCode Scenario.draw_370000)
      /\ JsString.test_six_digits (generateCode Scenario.draw_370000) = true
      /\ exists d rest,
           generateCode Scenario.draw_370000 = d :: rest /\ (49 <= d <= 57)%N)
  /\ generateCode Scenario.draw_370000 = str "370000"
  /\ generateCode (9007199254740991 # 9007199254740992) = str "999999".
Proof.
  split; [|split; vm_compute; reflexivity].
  apply (proj1 issued_code_format Scenario.draw_370000).
  split; [|split; [discriminate|reflexivity]].
  exists 5404319552844595, (-54). repeat split; try lia; reflexivity.
Defined.

(** C7 (as amended).  The sweep removes exactly the records whose [expiresAt]
    lies strictly before its clock read and keeps every other record, in
    place and unchanged.  It runs before every issue: the resampling loop and
    the store work on the swept map.  It runs before the lookup of the
    redeeming handlers of [api/index.js] (both versions): they answer from the
    swept map and leave it, with or without the code asked for.  The handler
    of [api/verify.js] does not sweep: it leaves the map as it found it, with
    or without the code asked for. *)
Theorem sweep_correctness_and_placement :
  (forall now st,
      JsMap.wf st ->
      cleanExpiredCodes now st
      = filter (fun e => negb (expiresAt (snd e) <? now)) (JsMap.entries st)
      /\ (forall code d,
             JsMap.get code st = Some d -> expiresAt d < now ->
             JsMap.get code (cleanExpiredCodes now st) = None)
      /\ (forall code d,
             JsMap.get code st = Some d -> now <= expiresAt d ->
             JsMap.get code (cleanExpiredCodes now st) = Some d)
      /\ (forall code,
             JsMap.get code st = None ->
             JsMap.get code (cleanExpiredCodes now st) = None))
  /\ (forall c st r st' code,
      run c st = Some (r, st') -> issued c st = Some code ->
      exists now d,
        sweep_time c = Some now
        /\ pick_code (draws c) (cleanExpiredCodes now st) = Some code
        /\ st' = JsMap.set code d (cleanExpiredCodes now st))
  /\ (forall c st r st' code now,
      submitted c = Some code -> sweep_time c = Some now ->
      run c st = Some (r, st') ->
      (st' = cleanExpiredCodes now st
       \/ st' = JsMap.delete code (cleanExpiredCodes now st))
      /\ (JsMap.get code (cleanExpiredCodes now st) = None -> status r = 404))
  /\ (forall req e st code,
      Verify.preamble req = inr code ->
      snd (Verify.handler req e st) = st
      \/ snd (Verify.handler req e st) = JsMap.delete code st).
Proof.
  split; [|split; [|split]].
  - intros now st Hwf. split; [|split; [|split]].
    + rewrite (cleanExpiredCodes_filter _ _ Hwf). apply filter_ext.
      intros e. now rewrite Z.gtb_ltb.
    + intros code d Hg Hlt. rewrite (get_clean _ _ _ Hwf), Hg.
      now replace (now >? expiresAt d) with true
        by (symmetry; apply Z.gtb_lt; lia).
    + intros code d Hg Hle. rewrite (get_clean _ _ _ Hwf), Hg.
      now replace (now >? expiresAt d) with false
        by (symmetry; rewrite Z.gtb_ltb; apply Z.ltb_ge; lia).
    + intros code Hg. now apply get_clean_none.
  - intros c st r st' code Hrun Hi.
    destruct (issue_effect c st r st' code Hrun Hi)
      as [now [d [Ht [Hp [Hf [Hs _]]]]]].
    exists now, d. rewrite (set_fresh _ d _ Hf). auto.
  - intros c st r st' code now Hsub Ht Hrun.
    destruct c as [req e|req e|req e|req e|req e|req e]; simpl in *;
      try discriminate; injection Ht as <-.
    + unfold Index.handleVerify in Hrun.
      destruct (Index.verify_preamble req); [discriminate|].
      injection Hsub as ->. unfold Index.redeem in Hrun. cbv zeta in Hrun.
      split.
      * repeat break_match_hyp Hrun; inversion Hrun; subst; auto.
      * intros Hn. rewrite Hn in Hrun. now inversion Hrun.
    + unfold Combined.handleVerify in Hrun.
      destruct (Combined.verify_preamble req); [discriminate|].
      injection Hsub as ->. unfold Combined.redeem in Hrun. cbv zeta in Hrun.
      split.
      * repeat break_match_hyp Hrun; inversion Hrun; subst; auto.
      * intros Hn. rewrite Hn in Hrun. now inversion Hrun.
  - intros req e st code Hp.
    unfold Verify.handler. rewrite Hp. unfold Verify.redeem.
    repeat break_match_goal; simpl; auto.
Qed.

(** C7, as stated, fails on [api/verify.js]: "100000" expired at 700000 and
    is still stored after a redeeming call at 700001 (which found "482913"
    expired and deleted it alone). *)
Lemma verify_js_does_not_sweep :
  Verify.handler (Scenario.post (Scenario.code_body "482913"))
    (Verify.mkEnv 700001 700001 VUndefined) Scenario.two_codes
  = (send 410 (failure "Code has expired. Please request a new one."),
     [(str "100000", Scenario.record_42 400000)])
  /\ expiresAt (Scenario.record_42 400000) < 700001.
Proof. split; reflexivity. Qed.

(** At 700001 the sweep empties the map of the two scenario codes, and the
    redeeming handler of [api/index.js] answers from the swept map. *)
Lemma sweep_correctness_and_placement_witness :
  (cleanExpiredCodes 700001 Scenario.two_codes
   = filter (fun e => negb (expiresAt (snd e) <? 700001))
       (JsMap.entries Scenario.two_codes)
   /\ (forall code d,
          JsMap.get code Scenario.two_codes = Some d -> expiresAt d < 700001 ->
          JsMap.get code (cleanExpiredCodes 700001 Scenario.two_codes) = None)
   /\ (forall code d,
          JsMap.get code Scenario.two_codes = Some d -> 700001 <= expiresAt d ->
          JsMap.get code (cleanExpiredCodes 700001 Scenario.two_codes) = Some d)
   /\ (forall code,
          JsMap.get code Scenario.two_codes = None ->
          JsMap.get code (cleanExpiredCodes 700001 Scenario.two_codes) = None))
  /\ ((JsMap.empty = cleanExpiredCodes 700001 Scenario.two_codes
       \/ JsMap.empty
          = JsMap.delete (str "482913") (cleanExpiredCodes 700001 Scenario.two_codes))
      /\ (JsMap.get (str "482913") (cleanExpiredCodes 700001 Scenario.two_codes) = None ->
          status (send 404 (failure "Invalid or expired code")) = 404)).
Proof.
  split.
  - apply (proj1 sweep_correctness_and_placement).
    repeat constructor; simpl; intuition discriminate.
  - apply (proj1 (proj2 (proj2 sweep_correctness_and_placement))
             (CallIndexVerify (Scenario.post (Scenario.code_body "482913"))
                (Index.mkVerifyEnv 700001 700001 true))
             Scenario.two_codes); reflexivity.
Defined.

(** C8 (as amended).  A redeeming call (not an [OPTIONS] request) answered 200
    found a record [d] under the code asked for, and its body is
    [{ success: true, config }] where [config] holds [d]'s [userId] and
    [chatId], its [username] and [firstName] or [null];
    - in [api/verify.js] and in the combined [api/index.js], also
      [apiEndpoint] and a [sessionToken] made of "cw_", the [userId] and the
      clock read of that moment;
    - in the production [api/index.js], nothing else: no [sessionToken]. *)
Theorem success_response_shape :
  (forall req e st r st',
      method req <> str "OPTIONS" ->
      Verify.handler req e st = (r, st') -> status r = 200 ->
      exists code d uid,
        Verify.preamble req = inr code /\ JsMap.get code st = Some d
        /\ Js.to_string (userId d) = Some uid
        /\ json r
           = Some (VObj
               [(str "success", VBool true);
                (str "config",
                 VObj [(str "userId", userId d);
                       (str "chatId", chatId d);
                       (str "username", Js.or (username d) VNull);
                       (str "firstName", Js.or (firstName d) VNull);
                       (str "apiEndpoint",
                        Js.or (Verify.OPENCLAW_API_URL e)
                          (VStr (str "https://api.openclaw.ai/v1")));
                       (str "sessionToken",
                        VStr (str "cw_" ++ uid ++ str "_"
                              ++ JsString.of_number (Verify.now_token e)))])]))
  /\ (forall req e st r st',
      JsMap.wf st -> method req <> str "OPTIONS" ->
      Index.handleVerify req e st = (r, st') -> status r = 200 ->
      exists code d,
        Index.verify_preamble req = inr code /\ JsMap.get code st = Some d
        /\ json r
           = Some (VObj
               [(str "success", VBool true);
                (str "config",
                 VObj [(str "userId", userId d);
                       (str "chatId", chatId d);
                       (str "username", Js.or (username d) VNull);
                       (str "firstName", Js.or (firstName d) VNull)])]))
  /\ (forall req e st r st',
      JsMap.wf st -> method req <> str "OPTIONS" ->
      Combined.handleVerify req e st = (r, st') -> status r = 200 ->
      exists code d uid,
        Combined.verify_preamble req = inr code /\ JsMap.get code st = Some d
        /\ Js.to_string (userId d) = Some uid
        /\ json r
           = Some (VObj
               [(str "success", VBool true);
                (str "config",
                 VObj [(str "userId", userId d);
                       (str "chatId", chatId d);
                       (str "username", Js.or (username d) VNull);
                       (str "firstName", Js.or (firstName d) VNull);
                       (str "apiEndpoint",
                        Js.or (Combined.v_OPENCLAW_API_URL e)
                          (VStr (str "https://api.openclaw.ai/v1")));
                       (str "sessionToken",
                        VStr (str "cw_" ++ uid ++ str "_"
                              ++ JsString.of_number (Combined.v_now_token e)))])])).
Proof.
  split; [|split].
  - intros req e st r st' Hm H Hs. unfold Verify.handler in H.
    destruct (Verify.preamble req) as [r0|code] eqn:Ep.
    { injection H as <- <-. elim Hm. eapply verify_preamble_200; eauto. }
    unfold Verify.redeem in H. cbv zeta in H.
    destruct (JsMap.get code st) as [d|] eqn:Eg;
      [|injection H as <- <-; discriminate].
    destruct (Verify.now_check e >? expiresAt d);
      [injection H as <- <-; discriminate|].
    destruct (Js.to_string (userId d)) as [uid|] eqn:Eu;
      [|injection H as <- <-; discriminate].
    injection H as <- <-. exists code, d, uid. auto.
  - intros req e st r st' Hwf Hm H Hs. unfold Index.handleVerify in H.
    destruct (Index.verify_preamble req) as [r0|code] eqn:Ep.
    { injection H as <- <-. elim Hm. eapply index_verify_preamble_200; eauto. }
    unfold Index.redeem in H. cbv zeta in H.
    destruct (JsMap.get code (cleanExpiredCodes _ st)) as [d|] eqn:Eg;
      [|injection H as <- <-; discriminate].
    apply (get_clean_some _ _ _ _ Hwf) in Eg. destruct Eg as [Eg _].
    repeat break_match_hyp H; injection H as <- <-; try discriminate.
    exists code, d. auto.
  - intros req e st r st' Hwf Hm H Hs. unfold Combined.handleVerify in H.
    destruct (Combined.verify_preamble req) as [r0|code] eqn:Ep.
    { injection H as <- <-. elim Hm. eapply combined_verify_preamble_200; eauto. }
    unfold Combined.redeem in H. cbv zeta in H.
    destruct (JsMap.get code (cleanExpiredCodes _ st)) as [d|] eqn:Eg;
      [|injection H as <- <-; discriminate].
    apply (get_clean_some _ _ _ _ Hwf) in Eg. destruct Eg as [Eg _].
    destruct (Combined.v_now_check e >? expiresAt d);
      [injection H as <- <-; discriminate|].
    destruct (Js.to_string (userId d)) as [uid|] eqn:Eu;
      [|injection H as <- <-; discriminate].
    injection H as <- <-. exists code, d, uid. auto.
Qed.

(** C8, as stated, fails on the production [api/index.js]: the body of its
    200 answer has a [config] of four fields, none of them [sessionToken]. *)
Lemma index_success_has_no_session_token :
  Index.handleVerify (Scenario.post (Scenario.code_body "482913"))
    (Index.mkVerifyEnv 10000 10000 true) Scenario.one_code
  = (send 200
       (VObj [(str "success", VBool true);
              (str "config",
               VObj [(str "userId", VNum 42);
                     (str "chatId", VNum 42);
                     (str "username", VNull);
                     (str "firstName", VStr (str "Ann"))])]),
     JsMap.empty).
Proof. reflexivity. Qed.

(** The scenario of the specification: "482913" issued for user 42 is
    redeemed at 10 s through [api/verify.js]; the token is "cw_42_10000". *)
Lemma success_response_shape_witness :
  exists code d uid,
    Verify.preamble (Scenario.post (Scenario.code_body "482913")) = inr code
    /\ JsMap.get code Scenario.one_code = Some d
    /\ Js.to_string (userId d) = Some uid
    /\ Some (VObj
         [(str "success", VBool true);
          (str "config",
           VObj [(str "userId", VNum 42);
                 (str "chatId", VNum 42);
                 (str "username", VNull);
                 (str "firstName", VStr (str "Ann"));
                 (str "apiEndpoint", VStr (str "https://api.openclaw.ai/v1"));
                 (str "sessionToken", VStr (str "cw_42_10000"))])])
       = Some (VObj
           [(str "success", VBool true);
            (str "config",
             VObj [(str "userId", userId d);
                   (str "chatId", chatId d);
                   (str "username", Js.or (username d) VNull);
                   (str "firstName", Js.or (firstName d) VNull);
                   (str "apiEndpoint",
                    Js.or VUndefined (VStr (str "https://api.openclaw.ai/v1")));
                   (str "sessionToken",
                    VStr (str "cw_" ++ uid ++ str "_"
                          ++ JsString.of_number 10000))])]).
Proof.
  apply (proj1 success_response_shape
           (Scenario.post (Scenario.code_body "482913"))
           (Verify.mkEnv 10000 10000 VUndefined) Scenario.one_code
           (send 200
              (VObj
                 [(str "success", VBool true);
                  (str "config",
                   VObj [(str "userId", VNum 42);
                         (str "chatId", VNum 42);
                         (str "username", VNull);
                         (str "firstName", VStr (str "Ann"));
                         (str "apiEndpoint", VStr (str "https://api.openclaw.ai/v1"));
                         (str "sessionToken", VStr (str "cw_42_10000"))])]))
           JsMap.empty).
  - vm_compute. discriminate.
  - reflexivity.
  - reflexivity.
Defined.

(** C9 (as amended).  A POST whose body is neither [null] nor absent, and
    whose [message] is falsy (a body that is a string, a number, an array, or
    an object without [message]) or has a falsy [text], is answered
    [200 { ok: true }] by each of the three webhook handlers, and the map is
    left exactly as it was.  A call whose body is [null] or absent leaves the
    map as it was, too.  In [api/index.js] (both versions) the exported
    handler passes a request on to [handleWebhook] only when it is a POST
    whose body has a truthy [message]. *)
Theorem malformed_webhook_body_is_a_no_op :
  (forall req message,
      method req = str "POST" ->
      Js.get (body req) (str "message") = Some message ->
      Js.truthy message = false
      \/ (exists text, Js.get message (str "text") = Some text
                       /\ Js.truthy text = false) ->
      forall st,
        (forall e, Webhook.handler req e st = Some (send 200 ok_true, st))
        /\ (forall e, Index.handleWebhook req e st = Some (send 200 ok_true, st))
        /\ (forall e, Combined.handleWebhook req e st = Some (send 200 ok_true, st)))
  /\ (forall req,
      Js.get (body req) (str "message") = None ->
      forall st,
        (forall e, exists r, Webhook.handler req e st = Some (r, st))
        /\ (forall e, exists r, Index.handleWebhook req e st = Some (r, st))
        /\ (forall e, exists r, Combined.handleWebhook req e st = Some (r, st)))
  /\ (forall req,
      Index.route req = Index.ToWebhook \/ Combined.route req = Index.ToWebhook ->
      method req = str "POST"
      /\ exists message,
           Js.get (body req) (str "message") = Some message
           /\ Js.truthy message = true).
Proof.
  split; [|split].
  - intros req message Hm Hb Hbad st.
    assert (P : Webhook.read_body (body req) = inl (send 200 ok_true)).
    { unfold Webhook.read_body. rewrite Hb.
      destruct Hbad as [Hf|[text [Ht Hf]]].
      - now rewrite Hf.
      - destruct (Js.truthy message); simpl; auto. now rewrite Ht, Hf. }
    assert (Q : Index.preamble req = inl (send 200 ok_true)).
    { unfold Index.preamble. rewrite Hb.
      destruct Hbad as [Hf|[text [Ht Hf]]].
      - now rewrite Hf.
      - destruct (Js.truthy message); simpl; auto. now rewrite Ht, Hf. }
    repeat split; intros e.
    + unfold Webhook.handler, Webhook.preamble. rewrite Hm. simpl. now rewrite P.
    + unfold Index.handleWebhook. now rewrite Q.
    + unfold Combined.handleWebhook. now rewrite P.
  - intros req Hb st. repeat split; intros e.
    + unfold Webhook.handler, Webhook.preamble, Webhook.read_body. rewrite Hb.
      destruct (negb _); eauto.
    + unfold Index.handleWebhook, Index.preamble. rewrite Hb. eauto.
    + unfold Combined.handleWebhook, Webhook.read_body. rewrite Hb. eauto.
  - intros req H.
    assert (G : JsString.eqb (method req) (str "POST")
                && Js.truthy (Js.get_opt (body req) (str "message"))
                && negb (Js.truthy (Js.get_opt (body req) (str "chatId"))) = true).
    { destruct H as [H|H].
      - unfold Index.route in H. cbv zeta in H.
        repeat (destruct (JsString.includes _ _); [discriminate|]).
        destruct (_ && _ && _); [reflexivity|].
        destruct (_ || _); discriminate.
      - unfold Combined.route in H. cbv zeta in H.
        destruct (_ && _ && _); [reflexivity|].
        destruct (_ || _); [discriminate|].
        destruct (_ || _); discriminate. }
    apply andb_true_iff in G. destruct G as [G _].
    apply andb_true_iff in G. destruct G as [Gm Gt].
    split; [now apply eqb_eq|].
    unfold Js.get_opt in Gt.
    destruct (Js.get (body req) (str "message")) as [message|];
      [eauto|discriminate].
Qed.

(** C9, as stated, fails for a body that is [null] or absent: reading
    [message] from it throws and the answer is [500 { error: "Internal error" }].
    It fails on [api/index.js] for an object without [message] as well: the
    exported handler takes the request for a redeem and answers 400. *)
Lemma null_body_is_answered_500 :
  Webhook.handler (Scenario.post VNull)
    (Webhook.mkEnv 0 0 0 [] true) Scenario.one_code
  = Some (send 500 (error "Internal error"), Scenario.one_code)
  /\ Webhook.handler (Scenario.post VUndefined)
       (Webhook.mkEnv 0 0 0 [] true) Scenario.one_code
     = Some (send 500 (error "Internal error"), Scenario.one_code)
  /\ Index.handleWebhook (Scenario.post VNull)
       (Index.mkWebhookEnv 0 0 [] true) Scenario.one_code
     = Some (send 500 (error "Internal error"), Scenario.one_code)
  /\ Index.route (Scenario.post (VObj [(str "update_id", VNum 7)])) = Index.ToVerify
  /\ Index.handleVerify (Scenario.post (VObj [(str "update_id", VNum 7)]))
       (Index.mkVerifyEnv 0 0 true) Scenario.one_code
     = (send 400 (failure "Code required"), Scenario.one_code).
Proof. repeat split. Qed.

(** A body that is a string, and an update without [message] (an edited
    message, say), are answered 200 and change nothing. *)
Lemma malformed_webhook_body_is_a_no_op_witness :
  ((forall e, Webhook.handler (Scenario.post (VStr (str "hello"))) e Scenario.one_code
              = Some (send 200 ok_true, Scenario.one_code))
   /\ (forall e, Index.handleWebhook (Scenario.post (VStr (str "hello"))) e
                   Scenario.one_code
                 = Some (send 200 ok_true, Scenario.one_code))
   /\ (forall e, Combined.handleWebhook (Scenario.post (VStr (str "hello"))) e
                   Scenario.one_code
                 = Some (send 200 ok_true, Scenario.one_code)))
  /\ ((forall e,
          Webhook.handler
            (Scenario.post (VObj [(str "edited_message", VObj [])])) e JsMap.empty
          = Some (send 200 ok_true, JsMap.empty))
      /\ (forall e,
             Index.handleWebhook
               (Scenario.post (VObj [(str "edited_message", VObj [])])) e JsMap.empty
             = Some (send 200 ok_true, JsMap.empty))
      /\ (forall e,
             Combined.handleWebhook
               (Scenario.post (VObj [(str "edited_message", VObj [])])) e JsMap.empty
             = Some (send 200 ok_true, JsMap.empty))).
Proof.
  split.
  - apply (proj1 malformed_webhook_body_is_a_no_op
             (Scenario.post (VStr (str "hello"))) VUndefined).
    + reflexivity.
    + reflexivity.
    + left. reflexivity.
  - apply (proj1 malformed_webhook_body_is_a_no_op
             (Scenario.post (VObj [(str "edited_message", VObj [])])) VUndefined).
    + reflexivity.
    + reflexivity.
    + left. reflexivity.
Defined.

(** C10 (as amended).  Of a redeeming call for [code], on a map with one
    entry per code:
    - every record stored under another code, not expired at the clock read
      of the call's sweep (if it sweeps), is there unchanged after the call;
    - nothing is added and no record is changed;
    - a record that is gone after the call was stored under [code], or had
      expired and was swept (the handler of [api/verify.js] does not sweep:
      it removes the entry of [code] and no other);
    - when the answer is 404, a record that is gone had expired: the sweep
      found it so, or it was the record of [code] and the deadline test found
      it so; the handler of [api/verify.js] then leaves the map as it was. *)
Theorem redeem_frame
    (c : call) (code : jsstring) (st : store) (r : response) (st' : store) :
  JsMap.wf st ->
  submitted c = Some code ->
  run c st = Some (r, st') ->
  (forall k d,
      k <> code -> JsMap.get k st = Some d ->
      (forall now, sweep_time c = Some now -> now <= expiresAt d) ->
      JsMap.get k st' = Some d)
  /\ (forall k d, JsMap.get k st' = Some d -> JsMap.get k st = Some d)
  /\ (forall k d,
      JsMap.get k st = Some d -> JsMap.get k st' = None ->
      k = code \/ exists now, sweep_time c = Some now /\ expiresAt d < now)
  /\ (status r = 404 ->
      forall k d,
        JsMap.get k st = Some d -> JsMap.get k st' = None ->
        (exists now, sweep_time c = Some now /\ expiresAt d < now)
        \/ (k = code /\ exists now, check_time c = Some now /\ expiresAt d < now))
  /\ (sweep_time c = None -> status r = 404 -> st' = st).
Proof.
  intros Hwf Hsub Hrun.
  pose proof (run_effect _ _ _ _ Hrun) as Heff.
  pose proof (submitted_not_issued c code st Hsub) as Hni.
  assert (A : forall k d,
             k <> code -> JsMap.get k st = Some d ->
             JsMap.get k st' = Some d
             \/ (JsMap.get k st' = None
                 /\ exists now, sweep_time c = Some now /\ expiresAt d < now)).
  { intros k d Hk Hg. destruct Heff as [base [Hb Hs]].
    assert (E : JsMap.get k st' = JsMap.get k base).
    { destruct Hs as [->|[[code' [Hc ->]]|[code' [nd [Hi _]]]]]; auto.
      - apply get_delete_other. congruence.
      - congruence. }
    rewrite E. destruct Hb as [->|[now [Ht ->]]]; [now left|].
    rewrite (get_clean _ _ _ Hwf), Hg.
    destruct (now >? expiresAt d) eqn:Ex; [right|now left].
    split; [reflexivity|]. exists now. split; [assumption|].
    apply Z.gtb_lt in Ex. lia. }
  split; [|split; [|split; [|split]]].
  - intros k d Hk Hg Hun. destruct (A k d Hk Hg) as [H|[_ [now [Ht Hlt]]]]; auto.
    specialize (Hun now Ht). lia.
  - intros k d Hg. destruct (effect_subset c st st' k d Heff Hwf Hg); congruence.
  - intros k d Hg Hn. destruct (eqb_spec k code) as [|Hk]; [now left|right].
    destruct (A k d Hk Hg) as [H|[_ H]]; [congruence|exact H].
  - intros H404 k d Hg Hn. destruct (eqb_spec k code) as [->|Hk].
    + destruct c as [req e|req e|req e|req e|req e|req e]; simpl in *;
        try discriminate.
      * unfold Verify.handler in Hrun.
        destruct (Verify.preamble req); [discriminate|].
        injection Hsub as ->. unfold Verify.redeem in Hrun.
        rewrite Hg in Hrun. cbv zeta in Hrun.
        repeat break_match_hyp Hrun; injection Hrun as <- <-; discriminate.
      * unfold Index.handleVerify in Hrun.
        destruct (Index.verify_preamble req); [discriminate|].
        injection Hsub as ->. unfold Index.redeem in Hrun. cbv zeta in Hrun.
        rewrite (get_clean _ _ _ Hwf), Hg in Hrun.
        destruct (Index.v_now_sweep e >? expiresAt d) eqn:Es.
        { left. eexists. split; [reflexivity|]. apply Z.gtb_lt in Es. lia. }
        destruct (Index.v_now_check e >? expiresAt d) eqn:Ec.
        { right. split; [reflexivity|]. eexists. split; [reflexivity|].
          apply Z.gtb_lt in Ec. lia. }
        repeat break_match_hyp Hrun; injection Hrun as <- <-; discriminate.
      * unfold Combined.handleVerify in Hrun.
        destruct (Combined.verify_preamble req); [discriminate|].
        injection Hsub as ->. unfold Combined.redeem in Hrun. cbv zeta in Hrun.
        rewrite (get_clean _ _ _ Hwf), Hg in Hrun.
        destruct (Combined.v_now_sweep e >? expiresAt d) eqn:Es.
        { left. eexists. split; [reflexivity|]. apply Z.gtb_lt in Es. lia. }
        repeat break_match_hyp Hrun; injection Hrun as <- <-; discriminate.
    + left. destruct (A k d Hk Hg) as [H|[_ H]]; [congruence|exact H].
  - intros Hns H404.
    destruct c as [req e|req e|req e|req e|req e|req e]; simpl in *;
      try discriminate.
    unfold Verify.handler in Hrun.
    destruct (Verify.preamble req); [discriminate|].
    unfold Verify.redeem in Hrun. cbv zeta in Hrun.
    repeat break_match_hyp Hrun; injection Hrun as <- <-; auto; discriminate.
Qed.

(** C10, as stated, fails on [api/index.js]: the successful redeem of
    "100000" at 500000 also removes "482913", which expired at 300000. *)
Lemma index_redeem_removes_expired_codes_too :
  Index.handleVerify (Scenario.post (Scenario.code_body "100000"))
    (Index.mkVerifyEnv 500000 500000 true) Scenario.two_codes
  = (send 200
       (VObj [(str "success", VBool true);
              (str "config", Index.config (Scenario.record_42 400000))]),
     JsMap.empty)
  /\ JsMap.get (str "482913") Scenario.two_codes = Some (Scenario.record_42 0).
Proof. split; reflexivity. Qed.

(** "482913" is redeemed at 10 s while "100000" is stored, through each
    file: "100000" stays as it was. *)
Lemma redeem_frame_witness :
  JsMap.get (str "100000")
    [(str "100000", Scenario.record_42 400000)]
  = Some (Scenario.record_42 400000).
Proof.
  apply (proj1 (redeem_frame
                  (CallIndexVerify (Scenario.post (Scenario.code_body "482913"))
                     (Index.mkVerifyEnv 10000 10000 true))
                  (str "482913") Scenario.two_codes
                  (send 200
                     (VObj [(str "success", VBool true);
                            (str "config", Index.config (Scenario.record_42 0))]))
                  [(str "100000", Scenario.record_42 400000)]
                  ltac:(repeat constructor; simpl; intuition discriminate)
                  eq_refl eq_refl)
           (str "100000") (Scenario.record_42 400000)).
  - vm_compute. discriminate.
  - reflexivity.
  - intros now [= <-]. vm_compute. discriminate.
Defined.

(* ================================================================== *)
(** * The scenarios of the specification, run on [api/webhook.js] and
      [api/verify.js] *)

(** Code "482913" is issued at t = 0 for owner 42 in chat 42. *)
Example scenario_issue :
  Webhook.handler (Scenario.post (Scenario.update_from 42 "/connect"))
    (Webhook.mkEnv 0 0 0 [Scenario.draw_482913] true) JsMap.empty
  = Some (send 200 ok_true, Scenario.one_code).
Proof. reflexivity. Qed.

(** [redeem("482913")] at t = 10 s succeeds with [userId] 42; a second
    redeem right away is answered 404. *)
Example scenario_redeem_twice :
  let first :=
    Verify.handler (Scenario.post (Scenario.code_body "482913"))
      (Verify.mkEnv 10000 10000 VUndefined) Scenario.one_code in
  let second :=
    Verify.handler (Scenario.post (Scenario.code_body "482913"))
      (Verify.mkEnv 10001 10001 VUndefined) (snd first) in
  status (fst first) = 200
  /\ (exists config,
         option_map (fun b => Js.get_opt b (str "config")) (json (fst first))
         = Some config
         /\ Js.get_opt config (str "userId") = VNum 42)
  /\ status (fst second) = 404.
Proof. repeat split. eexists. split; reflexivity. Qed.

(** [redeem] at t = 301 s is answered 410, and at t = 302 s 404: the first
    call deleted the record. *)
Example scenario_redeem_late :
  let first :=
    Verify.handler (Scenario.post (Scenario.code_body "482913"))
      (Verify.mkEnv 301000 301000 VUndefined) Scenario.one_code in
  let second :=
    Verify.handler (Scenario.post (Scenario.code_body "482913"))
      (Verify.mkEnv 302000 302000 VUndefined) (snd first) in
  status (fst first) = 410 /\ status (fst second) = 404.
Proof. split; reflexivity. Qed.

(** [redeem("12a456")] is answered 400 and the map stays as it was. *)
Example scenario_bad_format :
  Verify.handler (Scenario.post (Scenario.code_body "12a456"))
    (Verify.mkEnv 10000 10000 VUndefined) Scenario.two_codes
  = (send 400 (failure "Invalid code format"), Scenario.two_codes).
Proof. reflexivity. Qed.

(* ================================================================== *)
(** * Further properties of the code *)

Module ExtraFacts.
Import JsStringFacts JsMapFacts SweepFacts CodeFacts CallFacts.

(** Case analysis on an innermost [match] of the goal. *)
Ltac break_inner_match :=
  match goal with
  | |- context [match ?x with _ => _ end] =>
      lazymatch x with
      | context [match _ with _ => _ end] => fail
      | _ => destruct x eqn:?
      end
  end.

Lemma gtb_max (t1 t2 x : Z) :
  negb (t1 >? x) && negb (t2 >? x) = negb (Z.max t1 t2 >? x).
Proof.
  rewrite !Z.gtb_ltb.
  destruct (Z.ltb_spec x t1), (Z.ltb_spec x t2), (Z.ltb_spec x (Z.max t1 t2));
    simpl; auto; lia.
Qed.

Lemma pick_code_none (draws : list Q) (st : store) :
  pick_code draws st = None <->
  Forall (fun r => JsMap.has (generateCode r) st = true) draws.
Proof.
  induction draws as [|r later IH]; simpl.
  - split; auto.
  - destruct (JsMap.has (generateCode r) st) eqn:E.
    + rewrite IH. split; intros H; [now constructor|now inversion H].
    + split; [discriminate|]. intros H. inversion H. congruence.
Qed.


(** *** Trimming *)

Lemma digit_not_space (c : N) :
  JsString.is_digit c = true -> JsString.is_space c = false.
Proof.
  intros H. apply is_digit_iff in H.
  assert (E : (c = 48 \/ c = 49 \/ c = 50 \/ c = 51 \/ c = 52 \/ c = 53
               \/ c = 54 \/ c = 55 \/ c = 56 \/ c = 57)%N) by lia.
  repeat (destruct E as [->|E]; [reflexivity|]). now subst.
Qed.

Lemma trimStart_spaces (p : jsstring) :
  forallb JsString.is_space p = true -> JsString.trimStart p = [].
Proof.
  induction p as [|c p IH]; simpl; auto.
  intros H. apply andb_true_iff in H. destruct H as [Hc Hp].
  rewrite Hc. auto.
Qed.

Lemma trimStart_app_spaces (p s : jsstring) :
  forallb JsString.is_space p = true ->
  JsString.trimStart (p ++ s) = JsString.trimStart s.
Proof.
  induction p as [|c p IH]; simpl; auto.
  intros H. apply andb_true_iff in H. destruct H as [Hc Hp].
  rewrite Hc. auto.
Qed.

Lemma trimStart_id (s : jsstring) :
  Forall (fun c => JsString.is_space c = false) s -> JsString.trimStart s = s.
Proof. intros H. destruct H as [|c s Hc _]; simpl; auto. now rewrite Hc. Qed.

(** Space around a text without space is what [trim] takes off. *)
Lemma trim_padded (pre s post : jsstring) :
  forallb JsString.is_space pre = true ->
  forallb JsString.is_space post = true ->
  Forall (fun c => JsString.is_space c = false) s ->
  JsString.trim (pre ++ s ++ post) = s.
Proof.
  intros Hpre Hpost Hs. unfold JsString.trim, JsString.trimEnd.
  rewrite (trimStart_app_spaces _ _ Hpre).
  assert (E : JsString.trimStart (s ++ post) = s ++ post
              \/ (s = [] /\ JsString.trimStart (s ++ post) = [])).
  { destruct Hs as [|c s Hc Hs]; simpl.
    - right. split; auto. now apply trimStart_spaces.
    - left. now rewrite Hc. }
  destruct E as [->|[-> ->]]; [|reflexivity].
  rewrite rev_app_distr, trimStart_app_spaces.
  - rewrite trimStart_id; [apply rev_involutive|].
    apply Forall_rev. assumption.
  - rewrite forallb_forall in *. intros x Hx. apply Hpost.
    now apply in_rev.
Qed.

Lemma trim_id (s : jsstring) :
  Forall (fun c => JsString.is_space c = false) s -> JsString.trim s = s.
Proof.
  intros H. rewrite <- (trim_padded [] s []) at 2; auto.
  now rewrite app_nil_r.
Qed.

Lemma six_digits_no_space (s : jsstring) :
  six_ascii_digits s -> Forall (fun c => JsString.is_space c = false) s.
Proof.
  intros [_ H]. eapply Forall_impl; [|exact H].
  intros c Hc. apply digit_not_space. now apply is_digit_iff.
Qed.

(** *** Numerals *)

Lemma digits_of_digits (fuel : nat) (n : Z) :
  0 <= n -> Forall (fun c => (48 <= c <= 57)%N) (JsString.digits_of fuel n []).
Proof.
  revert n; induction fuel as [|fuel IH]; intros n Hn; simpl; [constructor|].
  assert (Hd : (48 <= JsString.digit (n mod 10) <= 57)%N).
  { apply digit_range. Z.div_mod_to_equations; lia. }
  destruct (n / 10 =? 0).
  - now repeat constructor.
  - rewrite digits_of_app. apply Forall_app. split.
    + apply IH. Z.div_mod_to_equations; lia.
    + now repeat constructor.
Qed.

Lemma digits_of_length_le (fuel : nat) (n : Z) (k : nat) :
  0 <= n < 10 ^ Z.of_nat k -> (1 <= k)%nat ->
  (List.length (JsString.digits_of fuel n []) <= k)%nat.
Proof.
  revert n k; induction fuel as [|fuel IH]; intros n k Hn Hk; simpl; [lia|].
  destruct (Z.eqb_spec (n / 10) 0) as [E|E]; [simpl; lia|].
  rewrite digits_of_app, length_app. simpl.
  destruct k as [|[|k]]; [lia| |].
  - exfalso. apply E. change (10 ^ Z.of_nat 1) with 10 in Hn.
    Z.div_mod_to_equations; lia.
  - assert (H : (List.length (JsString.digits_of fuel (n / 10) []) <= S k)%nat).
    { apply IH; [|lia].
      rewrite Nat2Z.inj_succ, Z.pow_succ_r in Hn by lia.
      Z.div_mod_to_equations; lia. }
    lia.
Qed.

Lemma six_digits_value (s : jsstring) :
  six_ascii_digits s ->
  0 <= value_of s <= 999999
  /\ (forall rest, s = 48%N :: rest -> value_of s <= 99999).
Proof.
  intros [Hl Hd].
  destruct s as [|a [|b [|c [|d [|e [|f [|g s]]]]]]]; try discriminate.
  repeat match goal with
         | H : Forall _ (_ :: _) |- _ => inversion H; clear H; subst
         end.
  unfold value_of; cbn [fold_left]. split; [lia|].
  intros rest [= -> _]. lia.
Qed.

(** The numerals of six digits are those of the numbers 100000..999999. *)
Lemma numeral_six_iff (n : Z) :
  six_ascii_digits (JsString.of_number n) <-> 100000 <= n <= 999999.
Proof.
  split; [|intros H; now apply six_digit_numeral].
  unfold JsString.of_number. destruct (Z.ltb_spec n 0) as [Hneg|Hpos].
  - intros [_ H]. inversion H; subst. lia.
  - intros H6. pose proof (decimal_value n Hpos) as Hv.
    destruct (six_digits_value _ H6) as [[_ Hhi] _]. rewrite Hv in Hhi.
    split; [|assumption].
    destruct (Z.lt_ge_cases n 100000) as [Hlt|]; [|lia].
    exfalso. destruct H6 as [Hl _].
    assert (Hle : (List.length (JsString.decimal n) <= 5)%nat).
    { apply digits_of_length_le; [|lia]. change (10 ^ Z.of_nat 5) with 100000. lia. }
    lia.
Qed.

(** A numeral has no space in it. *)
Lemma numeral_no_space (n : Z) :
  Forall (fun c => JsString.is_space c = false) (JsString.of_number n).
Proof.
  assert (D : forall m, 0 <= m ->
                Forall (fun c => JsString.is_space c = false) (JsString.decimal m)).
  { intros m Hm. eapply Forall_impl; [|apply digits_of_digits; exact Hm].
    intros c Hc. apply digit_not_space. now apply is_digit_iff. }
  unfold JsString.of_number. destruct (Z.ltb_spec n 0).
  - constructor; [reflexivity|]. apply D. lia.
  - now apply D.
Qed.

(** *** The redeeming handlers up to the format test *)

(** What the three handlers make of a POST whose [code] is truthy and has a
    string form [s]: the trimmed string if it has the shape, 400 if not. *)
Lemma preambles_of_string (req : request) (code : value) (s : jsstring) :
  method req = str "POST" ->
  Js.get (body req) (str "code") = Some code ->
  Js.truthy code = true ->
  Js.to_string code = Some s ->
  let answer :=
    if JsString.test_six_digits (JsString.trim s) then inr (JsString.trim s)
    else inl (send 400 (failure "Invalid code format")) in
  Verify.preamble req = answer
  /\ Index.verify_preamble req = answer
  /\ Combined.verify_preamble req = answer.
Proof.
  intros Hm Hc Ht Hs. cbv zeta.
  unfold Verify.preamble, Index.verify_preamble, Combined.verify_preamble.
  rewrite Hm, Hc, Hs, Ht, (call_toString_truthy _ Ht), Hs. simpl.
  destruct (JsString.test_six_digits (JsString.trim s)); auto.
Qed.

(** *** Stored codes are numerals *)

Lemma issued_picked (c : call) (st : store) (code : jsstring) :
  issued c st = Some code -> exists m, pick_code (draws c) m = Some code.
Proof.
  destruct c as [req e|req e|req e|req e|req e|req e]; simpl; try discriminate.
  - destruct (Webhook.preamble req); [discriminate|].
    destruct (JsString.eqb _ _); [eauto|discriminate].
  - destruct (Index.preamble req); [discriminate|].
    destruct (JsString.eqb _ _); [eauto|discriminate].
  - destruct (Webhook.read_body _); [discriminate|].
    destruct (JsString.eqb _ _); [eauto|discriminate].
Qed.

Lemma issued_drawn (c : call) (st : store) (code : jsstring) :
  issued c st = Some code -> exists r, In r (draws c) /\ code = generateCode r.
Proof.
  intros H. destruct (issued_picked _ _ _ H) as [m Hp].
  apply pick_code_spec in Hp. destruct Hp as [sk [r [later [Hd [Hc _]]]]].
  exists r. split; [|assumption]. rewrite Hd. apply in_or_app. right. now left.
Qed.

(** Every key of a map the process can hold is the numeral of an integer. *)
Lemma reachable_keys_numerals (st : store) :
  reachable st ->
  forall k d, JsMap.get k st = Some d -> exists n, k = JsString.of_number n.
Proof.
  induction 1 as [|st c r st' Hr IH Hrun|st code Hr IH]; intros k d Hg.
  - discriminate.
  - destruct (effect_subset c st st' k d (run_effect _ _ _ _ Hrun)
                (reachable_wf _ Hr) Hg) as [H|H].
    + eauto.
    + destruct (issued_drawn _ _ _ H) as [x [_ ->]]. unfold generateCode. eauto.
  - unfold JsMap.delete in Hg. rewrite (get_filter _ _ _ (reachable_wf _ Hr)) in Hg.
    destruct (JsMap.get k st) as [y|] eqn:E; [|discriminate]. eauto.
Qed.

(** *** What the webhook handlers bind from an update *)

Lemma webhook_update_fields (b : value) (u : Webhook.update) :
  Webhook.read_body b = inr u ->
  Webhook.u_userId u = requester_id b /\ Webhook.u_chatId u = requester_chat b.
Proof.
  unfold Webhook.read_body, requester_id, requester_chat, Js.get_opt.
  intros H. repeat break_match_hyp H; try discriminate.
  injection H as <-.
  match goal with
  | R : Webhook.read_update _ = Some _ |- _ =>
      unfold Webhook.read_update in R;
      repeat break_match_hyp R; try discriminate; injection R as <-
  end.
  simpl. split; reflexivity.
Qed.

Lemma index_update_fields (req : request) (u : Index.update) :
  Index.preamble req = inr u ->
  Index.field (Index.u_from u) "id" = requester_id (body req)
  /\ Index.u_chatId u = requester_chat (body req).
Proof.
  unfold Index.preamble, Index.field, requester_id, requester_chat, Js.get_opt.
  intros H. repeat break_match_hyp H; try discriminate.
  injection H as <-.
  match goal with
  | R : Index.read_update _ = Some _ |- _ =>
      unfold Index.read_update in R;
      repeat break_match_hyp R; try discriminate; injection R as <-
  end.
  simpl. split; reflexivity.
Qed.

(** A generated code, sent back as it is, passes the format test. *)
Lemma issued_code_accepted (c : call) (st : store) (code : jsstring) (vreq : request) :
  issued c st = Some code ->
  Forall random_result (draws c) ->
  method vreq = str "POST" ->
  Js.get (body vreq) (str "code") = Some (VStr code) ->
  Verify.preamble vreq = inr code
  /\ Index.verify_preamble vreq = inr code
  /\ Combined.verify_preamble vreq = inr code.
Proof.
  intros Hi Hall Hm Hc.
  destruct (issued_drawn _ _ _ Hi) as [r [Hin ->]].
  rewrite Forall_forall in Hall.
  destruct (generateCode_format r (Hall r Hin)) as [n [_ [_ [H6 [x [tl [Hx _]]]]]]].
  assert (Ht : Js.truthy (VStr (generateCode r)) = true)
    by (simpl; now rewrite Hx).
  pose proof (preambles_of_string vreq _ _ Hm Hc Ht eq_refl) as P.
  cbv zeta in P. rewrite (trim_id _ (six_digits_no_space _ H6)) in P.
  now rewrite (proj2 (test_six_digits_iff _) H6) in P.
Qed.

End ExtraFacts.

Import ExtraFacts.

(** X1.  Sweeps compose: sweeping at [t1] and then at [t2] leaves what one
    sweep at the later of the two leaves, so a second sweep at the same time
    changes nothing; and the redeeming handlers of [api/index.js] give the
    same answer, and for a request that gets as far as the map leave the same
    map, when the map was already swept at the time of their own sweep. *)
Theorem sweeps_compose (t1 t2 : Z) (st : store) :
  JsMap.wf st ->
  cleanExpiredCodes t2 (cleanExpiredCodes t1 st) = cleanExpiredCodes (Z.max t1 t2) st
  /\ cleanExpiredCodes t1 (cleanExpiredCodes t1 st) = cleanExpiredCodes t1 st
  /\ (forall req e,
         Index.v_now_sweep e = t1 ->
         fst (Index.handleVerify req e (cleanExpiredCodes t1 st))
         = fst (Index.handleVerify req e st)
         /\ (forall code,
                Index.verify_preamble req = inr code ->
                Index.handleVerify req e (cleanExpiredCodes t1 st)
                = Index.handleVerify req e st))
  /\ (forall req e,
         Combined.v_now_sweep e = t1 ->
         fst (Combined.handleVerify req e (cleanExpiredCodes t1 st))
         = fst (Combined.handleVerify req e st)
         /\ (forall code,
                Combined.verify_preamble req = inr code ->
                Combined.handleVerify req e (cleanExpiredCodes t1 st)
                = Combined.handleVerify req e st)).
Proof.
  intros Hwf.
  assert (C : forall a b,
             cleanExpiredCodes b (cleanExpiredCodes a st)
             = cleanExpiredCodes (Z.max a b) st).
  { intros a b.
    rewrite (cleanExpiredCodes_filter b) by now apply wf_clean.
    rewrite !(cleanExpiredCodes_filter _ st) by assumption.
    rewrite filter_twice. apply filter_ext. intros x. apply gtb_max. }
  assert (I : cleanExpiredCodes t1 (cleanExpiredCodes t1 st) = cleanExpiredCodes t1 st).
  { rewrite C. now rewrite Z.max_id. }
  split; [apply C|]. split; [exact I|]. split.
  - intros req e <-. unfold Index.handleVerify.
    destruct (Index.verify_preamble req) as [r0|code].
    + split; [reflexivity|discriminate].
    + unfold Index.redeem. cbv zeta. rewrite I. split; [reflexivity|auto].
  - intros req e <-. unfold Combined.handleVerify.
    destruct (Combined.verify_preamble req) as [r0|code].
    + split; [reflexivity|discriminate].
    + unfold Combined.redeem. cbv zeta. rewrite I. split; [reflexivity|auto].
Qed.

(** Sweeping the two scenario codes at 300001 and then at 700001 empties
    the map, as one sweep at 700001 does. *)
Lemma sweeps_compose_witness :
  cleanExpiredCodes 700001 (cleanExpiredCodes 300001 Scenario.two_codes)
  = cleanExpiredCodes (Z.max 300001 700001) Scenario.two_codes
  /\ cleanExpiredCodes 700001 (cleanExpiredCodes 300001 Scenario.two_codes)
     = JsMap.empty.
Proof.
  split; [|reflexivity].
  apply (sweeps_compose 300001 700001 Scenario.two_codes).
  repeat constructor; simpl; intuition discriminate.
Defined.

(** X2.  Space around a code does not count: a POST whose [code] is a
    string of six ASCII digits with any white space before and after it is
    taken by each redeeming handler for that code. *)
Theorem redeem_ignores_surrounding_space (req : request) (pre s post : jsstring) :
  method req = str "POST" ->
  Js.get (body req) (str "code") = Some (VStr (pre ++ s ++ post)) ->
  forallb JsString.is_space pre = true ->
  forallb JsString.is_space post = true ->
  six_ascii_digits s ->
  Verify.preamble req = inr s
  /\ Index.verify_preamble req = inr s
  /\ Combined.verify_preamble req = inr s.
Proof.
  intros Hm Hc Hpre Hpost H6.
  assert (Ht : Js.truthy (VStr (pre ++ s ++ post)) = true).
  { destruct H6 as [Hl _]. simpl.
    destruct (pre ++ s ++ post) eqn:E; [|reflexivity].
    apply (f_equal (@List.length N)) in E. rewrite !length_app in E.
    simpl in E. lia. }
  pose proof (preambles_of_string req _ _ Hm Hc Ht eq_refl) as P.
  cbv zeta in P.
  rewrite (trim_padded _ _ _ Hpre Hpost (six_digits_no_space _ H6)) in P.
  now rewrite (proj2 (test_six_digits_iff s) H6) in P.
Qed.

(** A tab, the code, a line feed and a no-break space. *)
Lemma redeem_ignores_surrounding_space_witness :
  Verify.preamble
    (Scenario.post (VObj [(str "code", VStr ([9%N] ++ str "482913" ++ [10%N; 160%N]))]))
  = inr (str "482913")
  /\ Index.verify_preamble
       (Scenario.post (VObj [(str "code", VStr ([9%N] ++ str "482913" ++ [10%N; 160%N]))]))
     = inr (str "482913")
  /\ Combined.verify_preamble
       (Scenario.post (VObj [(str "code", VStr ([9%N] ++ str "482913" ++ [10%N; 160%N]))]))
     = inr (str "482913").
Proof.
  apply (redeem_ignores_surrounding_space _ [9%N] (str "482913") [10%N; 160%N]);
    try reflexivity.
  apply test_six_digits_iff. reflexivity.
Defined.

(** X3.  A code sent as a JSON number is read through [toString]: the
    redeeming handlers take the number [n] for the code that is its decimal
    numeral exactly when 100000 <= n <= 999999, and answer 400 for every
    other number (so a code with a leading zero cannot be sent as a
    number). *)
Theorem numeric_code (req : request) (n : Z) :
  method req = str "POST" ->
  Js.get (body req) (str "code") = Some (VNum n) ->
  (100000 <= n <= 999999 ->
   Verify.preamble req = inr (JsString.of_number n)
   /\ Index.verify_preamble req = inr (JsString.of_number n)
   /\ Combined.verify_preamble req = inr (JsString.of_number n))
  /\ (~ 100000 <= n <= 999999 ->
      exists r1 r2 r3,
        Verify.preamble req = inl r1 /\ status r1 = 400
        /\ Index.verify_preamble req = inl r2 /\ status r2 = 400
        /\ Combined.verify_preamble req = inl r3 /\ status r3 = 400).
Proof.
  intros Hm Hc.
  destruct (Z.eq_dec n 0) as [->|Hz].
  { split; [lia|]. intros _.
    unfold Verify.preamble, Index.verify_preamble, Combined.verify_preamble.
    rewrite Hm, Hc. simpl. eexists _, _, _. repeat split. }
  assert (Ht : Js.truthy (VNum n) = true).
  { simpl. apply negb_true_iff. now apply Z.eqb_neq. }
  pose proof (preambles_of_string req _ _ Hm Hc Ht eq_refl) as P.
  cbv zeta in P. rewrite (trim_id _ (numeral_no_space n)) in P.
  split.
  - intros Hn.
    now rewrite (proj2 (test_six_digits_iff _) (proj2 (numeral_six_iff n) Hn)) in P.
  - intros Hn.
    destruct (JsString.test_six_digits (JsString.of_number n)) eqn:E.
    + exfalso. apply Hn. apply numeral_six_iff. now apply test_six_digits_iff.
    + destruct P as [P1 [P2 P3]]. eexists _, _, _. repeat split; eauto.
Qed.

Lemma numeric_code_witness :
  (Verify.preamble (Scenario.post (VObj [(str "code", VNum 482913)]))
   = inr (str "482913")
   /\ Index.verify_preamble (Scenario.post (VObj [(str "code", VNum 482913)]))
      = inr (str "482913")
   /\ Combined.verify_preamble (Scenario.post (VObj [(str "code", VNum 482913)]))
      = inr (str "482913"))
  /\ exists r1 r2 r3,
       Verify.preamble (Scenario.post (VObj [(str "code", VNum 12345)])) = inl r1
       /\ status r1 = 400
       /\ Index.verify_preamble (Scenario.post (VObj [(str "code", VNum 12345)])) = inl r2
       /\ status r2 = 400
       /\ Combined.verify_preamble (Scenario.post (VObj [(str "code", VNum 12345)])) = inl r3
       /\ status r3 = 400.
Proof.
  split.
  - apply (proj1 (numeric_code (Scenario.post (VObj [(str "code", VNum 482913)]))
                    482913 eq_refl eq_refl)).
    lia.
  - apply (proj2 (numeric_code (Scenario.post (VObj [(str "code", VNum 12345)]))
                    12345 eq_refl eq_refl)).
    lia.
Defined.

(** X4.  The format test accepts six digits that begin with 0, but no map
    the process can hold has such a key (a key is the numeral of an
    integer): a redeem of such a code is answered 404 by each handler,
    whatever was issued before. *)
Theorem leading_zero_code_is_never_found (st : store) (rest : jsstring) :
  reachable st ->
  six_ascii_digits (48%N :: rest) ->
  JsString.test_six_digits (48%N :: rest) = true
  /\ JsMap.get (48%N :: rest) st = None
  /\ forall c, submitted c = Some (48%N :: rest) ->
       exists r st', run c st = Some (r, st') /\ status r = 404.
Proof.
  intros Hr H6.
  assert (Hn : JsMap.get (48%N :: rest) st = None).
  { destruct (JsMap.get (48%N :: rest) st) as [d|] eqn:E; [|reflexivity].
    exfalso. destruct (reachable_keys_numerals st Hr _ _ E) as [n Hk].
    rewrite Hk in H6. pose proof (proj1 (numeral_six_iff n) H6) as Hrange.
    destruct (six_digit_numeral n Hrange) as [_ [x [tl [Hx Hlead]]]].
    rewrite <- Hk in Hx. injection Hx as <- _. lia. }
  split; [now apply test_six_digits_iff|]. split; [exact Hn|].
  intros c Hc. destruct (redeem_missing c _ st Hc Hn) as [r [st' [H1 [H2 _]]]].
  eauto.
Qed.

(** "012345" while "482913" is stored. *)
Lemma leading_zero_code_is_never_found_witness :
  JsString.test_six_digits (str "012345") = true
  /\ JsMap.get (str "012345") Scenario.one_code = None
  /\ forall c, submitted c = Some (str "012345") ->
       exists r st', run c Scenario.one_code = Some (r, st') /\ status r = 404.
Proof.
  apply (leading_zero_code_is_never_found Scenario.one_code (str "12345")).
  - apply (reachable_call JsMap.empty
             (CallWebhook (Scenario.post (Scenario.update_from 42 "/connect"))
                (Webhook.mkEnv 0 0 0 [Scenario.draw_482913] true))
             (send 200 ok_true)); [apply reachable_start|reflexivity].
  - apply test_six_digits_iff. reflexivity.
Defined.

(** X5.  A code reads back as the number it was made from: for a result [r]
    of [Math.random()] the digits of [generateCode r] denote the integer
    [Math.floor(100000 + r * 900000)] that binary64 arithmetic gives, so two
    results give the same code exactly when they give the same integer; and
    that integer differs by at most one from the floor of the exact value of
    100000 + r * 900000. *)
Theorem generated_code_denotes_its_number (r1 r2 : Q) :
  random_result r1 -> random_result r2 ->
  generateCode r1 = JsString.of_number (drawn_number r1)
  /\ value_of (generateCode r1) = drawn_number r1
  /\ (generateCode r1 = generateCode r2 <-> drawn_number r1 = drawn_number r2)
  /\ Z.abs (drawn_number r1 - Qfloor (inject_Z 100000 + r1 * inject_Z 900000)) <= 1.
Proof.
  intros R1 R2.
  pose proof (floor_range r1 R1) as H1.
  pose proof (floor_range r2 R2) as H2.
  assert (V : forall n, 100000 <= n <= 999999 ->
                value_of (JsString.of_number n) = n).
  { intros n Hn. unfold JsString.of_number.
    replace (n <? 0) with false by (symmetry; apply Z.ltb_ge; lia).
    apply decimal_value. lia. }
  split; [reflexivity|]. split; [now apply V|]. split.
  - unfold generateCode, drawn_number. split.
    + intros E. apply (f_equal value_of) in E. now rewrite !V in E.
    + now intros ->.
  - destruct R1 as [Hf [A B]]. now apply DoubleFacts.scaled_floor_near.
Qed.

(** The double nearest to 0.3 gives 370000, one more than the floor of the
    exact value. *)
Lemma generated_code_denotes_its_number_witness :
  (generateCode Scenario.draw_370000
   = JsString.of_number (drawn_number Scenario.draw_370000)
   /\ value_of (generateCode Scenario.draw_370000)
      = drawn_number Scenario.draw_370000
   /\ (generateCode Scenario.draw_370000 = generateCode Scenario.draw_482913 <->
       drawn_number Scenario.draw_370000 = drawn_number Scenario.draw_482913)
   /\ Z.abs (drawn_number Scenario.draw_370000
             - Qfloor (inject_Z 100000 + Scenario.draw_370000 * inject_Z 900000))
      <= 1)
  /\ drawn_number Scenario.draw_370000 = 370000
  /\ Qfloor (inject_Z 100000 + Scenario.draw_370000 * inject_Z 900000) = 369999.
Proof.
  split; [|split; vm_compute; reflexivity].
  apply (generated_code_denotes_its_number Scenario.draw_370000
           Scenario.draw_482913).
  - split; [|split; [discriminate|reflexivity]].
    exists 5404319552844595, (-54). repeat split; try lia; reflexivity.
  - split; [|split; [discriminate|reflexivity]].
    exists 7664385973845861, (-54). repeat split; try lia; reflexivity.
Defined.

(** X6.  Round trip through [api/webhook.js] and [api/verify.js]: the code a
    [/connect] call settles on, sent back as it is at a time up to five
    minutes after the clock read of its [expiresAt], is accepted, deleted,
    and answered 200 with the [userId] and [chatId] of the update that asked
    for it and a token made of that [userId] and the clock read of the
    answer. *)
Theorem issue_then_redeem
    (req : request) (e : Webhook.env) (st : store) (r : response) (st' : store)
    (code : jsstring) (vreq : request) (ve : Verify.env) (uid : jsstring) :
  Webhook.handler req e st = Some (r, st') ->
  issued (CallWebhook req e) st = Some code ->
  Forall random_result (Webhook.random e) ->
  method vreq = str "POST" ->
  Js.get (body vreq) (str "code") = Some (VStr code) ->
  Verify.now_check ve <= Webhook.now_expires e + 5 * 60 * 1000 ->
  Js.to_string (requester_id (body req)) = Some uid ->
  exists config,
    Verify.handler vreq ve st'
    = (send 200 (VObj [(str "success", VBool true); (str "config", config)]),
       JsMap.delete code st')
    /\ Js.get_opt config (str "userId") = requester_id (body req)
    /\ Js.get_opt config (str "chatId") = requester_chat (body req)
    /\ Js.get_opt config (str "sessionToken")
       = VStr (str "cw_" ++ uid ++ str "_" ++ JsString.of_number (Verify.now_token ve)).
Proof.
  intros Hrun Hi Hall Hm Hc Hle Hu.
  destruct (issued_code_accepted _ _ _ vreq Hi Hall Hm Hc) as [Hp _].
  destruct (issue_effect (CallWebhook req e) _ _ _ _ Hrun Hi)
    as [now [d [_ [_ [Hf [-> Hd]]]]]].
  simpl in Hd. unfold Webhook.preamble in Hd.
  destruct (negb (JsString.eqb (method req) (str "POST"))); [discriminate|].
  destruct (Webhook.read_body (body req)) as [|u] eqn:Eb; [discriminate|].
  injection Hd as <-.
  destruct (webhook_update_fields _ _ Eb) as [Huid Hchat].
  unfold Verify.handler. rewrite Hp. unfold Verify.redeem.
  rewrite <- (set_fresh _ (Webhook.new_record u e) _ Hf), get_set_same.
  cbv beta iota delta [expiresAt userId Webhook.new_record].
  replace (Verify.now_check ve >? Webhook.now_expires e + CODE_EXPIRY_MS) with false
    by (symmetry; rewrite Z.gtb_ltb; apply Z.ltb_ge; unfold CODE_EXPIRY_MS; lia).
  cbv zeta. rewrite Huid, Hu.
  eexists. split; [reflexivity|].
  cbv beta iota delta [Verify.config userId chatId Webhook.new_record].
  rewrite ?Huid, ?Hchat. repeat split.
Qed.

(** The scenario of the specification, from the update to the answer. *)
Lemma issue_then_redeem_witness :
  exists config,
    Verify.handler (Scenario.post (Scenario.code_body "482913"))
      (Verify.mkEnv 300000 300002 VUndefined) Scenario.one_code
    = (send 200 (VObj [(str "success", VBool true); (str "config", config)]),
       JsMap.delete (str "482913") Scenario.one_code)
    /\ Js.get_opt config (str "userId") = VNum 42
    /\ Js.get_opt config (str "chatId") = VNum 42
    /\ Js.get_opt config (str "sessionToken") = VStr (str "cw_42_300002").
Proof.
  apply (issue_then_redeem
           (Scenario.post (Scenario.update_from 42 "/connect"))
           (Webhook.mkEnv 0 0 0 [Scenario.draw_482913] true) JsMap.empty
           (send 200 ok_true) Scenario.one_code (str "482913")
           (Scenario.post (Scenario.code_body "482913"))
           (Verify.mkEnv 300000 300002 VUndefined) (str "42"));
    try reflexivity.
  constructor; [|constructor].
  split; [|split; [discriminate|reflexivity]].
  exists 7664385973845861, (-54). repeat split; try lia; reflexivity.
Defined.

(** X7.  Round trip through the production [api/index.js]: the code
    [handleWebhook] settles on, sent back as it is while neither the sweep's
    nor the test's clock read has passed its deadline, and with [addUser]
    returning, is accepted, deleted, and answered 200 with the [userId] and
    [chatId] of the update that asked for it. *)
Theorem index_issue_then_redeem
    (req : request) (e : Index.webhook_env) (st : store) (r : response)
    (st' : store) (code : jsstring) (vreq : request) (ve : Index.verify_env)
    (cid : jsstring) :
  JsMap.wf st ->
  Index.handleWebhook req e st = Some (r, st') ->
  issued (CallIndexWebhook req e) st = Some code ->
  Forall random_result (Index.w_random e) ->
  method vreq = str "POST" ->
  Js.get (body vreq) (str "code") = Some (VStr code) ->
  Index.v_now_sweep ve <= Index.w_now_expires e + 5 * 60 * 1000 ->
  Index.v_now_check ve <= Index.w_now_expires e + 5 * 60 * 1000 ->
  Index.v_registered ve = true ->
  Js.to_string (requester_chat (body req)) = Some cid ->
  exists config,
    Index.handleVerify vreq ve st'
    = (send 200 (VObj [(str "success", VBool true); (str "config", config)]),
       JsMap.delete code (cleanExpiredCodes (Index.v_now_sweep ve) st'))
    /\ Js.get_opt config (str "userId") = requester_id (body req)
    /\ Js.get_opt config (str "chatId") = requester_chat (body req)
    /\ Js.get_opt config (str "sessionToken") = VUndefined.
Proof.
  intros Hwf Hrun Hi Hall Hm Hc Hs Hk Hreg Hu.
  destruct (issued_code_accepted _ _ _ vreq Hi Hall Hm Hc) as [_ [Hp _]].
  pose proof (effect_wf _ _ _ (run_effect (CallIndexWebhook req e) _ _ _ Hrun) Hwf)
    as Hwf'.
  destruct (issue_effect (CallIndexWebhook req e) _ _ _ _ Hrun Hi)
    as [now [d [_ [_ [Hf [Hst Hd]]]]]].
  simpl in Hd.
  destruct (Index.preamble req) as [|u] eqn:Eb; [discriminate|].
  injection Hd as <-.
  destruct (index_update_fields _ _ Eb) as [Huid Hchat].
  assert (Hg : JsMap.get code st' = Some (Index.new_record u e)).
  { rewrite Hst, <- (set_fresh _ (Index.new_record u e) _ Hf). apply get_set_same. }
  unfold Index.handleVerify. rewrite Hp. unfold Index.redeem. cbv zeta.
  rewrite (get_clean _ _ _ Hwf'), Hg.
  cbv beta iota delta [expiresAt chatId Index.new_record].
  replace (Index.v_now_sweep ve >? Index.w_now_expires e + CODE_EXPIRY_MS) with false
    by (symmetry; rewrite Z.gtb_ltb; apply Z.ltb_ge; unfold CODE_EXPIRY_MS; lia).
  replace (Index.v_now_check ve >? Index.w_now_expires e + CODE_EXPIRY_MS) with false
    by (symmetry; rewrite Z.gtb_ltb; apply Z.ltb_ge; unfold CODE_EXPIRY_MS; lia).
  rewrite Hreg, Hchat, Hu. simpl negb. cbv iota.
  eexists. split; [reflexivity|].
  cbv beta iota delta [Index.config userId chatId Index.new_record].
  rewrite ?Huid, ?Hchat. repeat split.
Qed.

Lemma index_issue_then_redeem_witness :
  exists config,
    Index.handleVerify (Scenario.post (Scenario.code_body "482913"))
      (Index.mkVerifyEnv 10000 10000 true)
      [(str "482913",
        mkCodeData (VNum 42) (VNum 42) VUndefined (VStr (str "Ann")) None 300000)]
    = (send 200 (VObj [(str "success", VBool true); (str "config", config)]),
       JsMap.delete (str "482913")
         (cleanExpiredCodes 10000
            [(str "482913",
              mkCodeData (VNum 42) (VNum 42) VUndefined (VStr (str "Ann")) None
                300000)]))
    /\ Js.get_opt config (str "userId") = VNum 42
    /\ Js.get_opt config (str "chatId") = VNum 42
    /\ Js.get_opt config (str "sessionToken") = VUndefined.
Proof.
  apply (index_issue_then_redeem
           (Scenario.post (Scenario.update_from 42 "/connect"))
           (Index.mkWebhookEnv 0 0 [Scenario.draw_482913] true) JsMap.empty
           (send 200 ok_true) _ (str "482913")
           (Scenario.post (Scenario.code_body "482913"))
           (Index.mkVerifyEnv 10000 10000 true) (str "42"));
    try reflexivity.
  - constructor.
  - constructor; [|constructor].
    split; [|split; [discriminate|reflexivity]].
    exists 7664385973845861, (-54). repeat split; try lia; reflexivity.
  - vm_compute. discriminate.
  - vm_compute. discriminate.
Defined.

(** X8.  The resampling loop has no bound: a webhook handler answers every
    request but one, a [/connect] for which every result of [Math.random()]
    gives a code the swept map holds; then, and only then, it is still in the
    loop. *)
Theorem webhook_answers_unless_every_draw_collides :
  (forall req e st,
      Webhook.handler req e st = None <->
      exists u,
        Webhook.preamble req = inr u /\ Webhook.u_text u = str "/connect"
        /\ Forall (fun r => JsMap.has (generateCode r)
                              (cleanExpiredCodes (Webhook.now_sweep e) st) = true)
             (Webhook.random e))
  /\ (forall req e st,
      Index.handleWebhook req e st = None <->
      exists u,
        Index.preamble req = inr u /\ Index.u_text u = str "/connect"
        /\ Forall (fun r => JsMap.has (generateCode r)
                              (cleanExpiredCodes (Index.w_now_sweep e) st) = true)
             (Index.w_random e))
  /\ (forall req e st,
      Combined.handleWebhook req e st = None <->
      exists u,
        Webhook.read_body (body req) = inr u /\ Webhook.u_text u = str "/connect"
        /\ Forall (fun r => JsMap.has (generateCode r)
                              (cleanExpiredCodes (Webhook.now_sweep e) st) = true)
             (Webhook.random e)).
Proof.
  split; [|split]; intros req e st.
  - unfold Webhook.handler. destruct (Webhook.preamble req) as [r0|u].
    { split; [discriminate|]. intros [u [H _]]. discriminate. }
    unfold Webhook.dispatch. cbv zeta.
    destruct (eqb_spec (Webhook.u_text u) (str "/start")) as [Es|Es].
    { split.
      - intros H. repeat break_match_hyp H; discriminate.
      - intros [u' [[= <-] [Ec _]]]. rewrite Ec in Es. discriminate. }
    destruct (eqb_spec (Webhook.u_text u) (str "/connect")) as [Ec|Ec].
    + split.
      * intros H. exists u. repeat split; auto. apply pick_code_none.
        destruct (pick_code _ _); [|reflexivity].
        repeat break_match_hyp H; discriminate.
      * intros [u' [[= <-] [_ H]]]. apply pick_code_none in H. now rewrite H.
    + split.
      * intros H. repeat break_match_hyp H; discriminate.
      * intros [u' [[= <-] [Ec' _]]]. contradiction.
  - unfold Index.handleWebhook. destruct (Index.preamble req) as [r0|u].
    { split; [discriminate|]. intros [u [H _]]. discriminate. }
    unfold Index.dispatch. cbv zeta.
    destruct (eqb_spec (Index.u_text u) (str "/start")) as [Es|Es].
    { split.
      - intros H. repeat break_match_hyp H; discriminate.
      - intros [u' [[= <-] [Ec _]]]. rewrite Ec in Es. discriminate. }
    destruct (eqb_spec (Index.u_text u) (str "/connect")) as [Ec|Ec].
    + split.
      * intros H. exists u. repeat split; auto. apply pick_code_none.
        destruct (pick_code _ _); [|reflexivity].
        repeat break_match_hyp H; discriminate.
      * intros [u' [[= <-] [_ H]]]. apply pick_code_none in H. now rewrite H.
    + split.
      * intros H. repeat break_match_hyp H; discriminate.
      * intros [u' [[= <-] [Ec' _]]]. contradiction.
  - unfold Combined.handleWebhook.
    destruct (Webhook.read_body (body req)) as [r0|u].
    { split; [discriminate|]. intros [u [H _]]. discriminate. }
    unfold Combined.dispatch. cbv zeta.
    destruct (eqb_spec (Webhook.u_text u) (str "/start")) as [Es|Es].
    { split.
      - intros H. repeat break_match_hyp H; discriminate.
      - intros [u' [[= <-] [Ec _]]]. rewrite Ec in Es. discriminate. }
    destruct (eqb_spec (Webhook.u_text u) (str "/connect")) as [Ec|Ec].
    + split.
      * intros H. exists u. repeat split; auto. apply pick_code_none.
        destruct (pick_code _ _); [|reflexivity].
        repeat break_match_hyp H; discriminate.
      * intros [u' [[= <-] [_ H]]]. apply pick_code_none in H. now rewrite H.
    + split.
      * intros H. repeat break_match_hyp H; discriminate.
      * intros [u' [[= <-] [Ec' _]]]. contradiction.
Qed.

(** With "482913" and "100000" stored and only these two drawn, the call
    does not return. *)
Lemma webhook_answers_unless_every_draw_collides_witness :
  Webhook.handler (Scenario.post (Scenario.update_from 7 "/connect"))
    (Webhook.mkEnv 10 10 10 [Scenario.draw_482913; Scenario.draw_100000] true)
    Scenario.two_codes
  = None.
Proof.
  apply (proj1 webhook_answers_unless_every_draw_collides).
  eexists. split; [reflexivity|]. split; [reflexivity|].
  repeat constructor.
Defined.

(** X9.  The status codes each redeeming handler can answer, and how the
    [success] field goes with them: [api/verify.js] answers 200, 400, 404,
    405, 410 or 500, the production [api/index.js] never 405 or 410, the
    combined one never 405; [success] is [true] exactly in a 200 answer to
    a request that is not [OPTIONS], and [false] in every answer that is
    not 200. *)
Theorem redeem_statuses :
  (forall req e st,
      let r := fst (Verify.handler req e st) in
      In (status r) [200; 400; 404; 405; 410; 500]
      /\ (success_flag r = Some (VBool true) <->
          status r = 200 /\ method req <> str "OPTIONS")
      /\ (status r <> 200 -> success_flag r = Some (VBool false)))
  /\ (forall req e st,
      let r := fst (Index.handleVerify req e st) in
      In (status r) [200; 400; 404; 500]
      /\ (success_flag r = Some (VBool true) <->
          status r = 200 /\ method req <> str "OPTIONS")
      /\ (status r <> 200 -> success_flag r = Some (VBool false)))
  /\ (forall req e st,
      let r := fst (Combined.handleVerify req e st) in
      In (status r) [200; 400; 404; 410; 500]
      /\ (success_flag r = Some (VBool true) <->
          status r = 200 /\ method req <> str "OPTIONS")
      /\ (status r <> 200 -> success_flag r = Some (VBool false))).
Proof.
  split; [|split]; intros req e st; cbv zeta.
  - unfold Verify.handler, Verify.preamble, Verify.redeem.
    destruct (eqb_spec (method req) (str "OPTIONS")) as [Em|Em].
    { simpl. split; [auto 10|]. split; [|congruence].
      split; [discriminate|]. intros [_ H]. contradiction. }
    repeat break_inner_match; simpl;
      (split; [solve [repeat (first [left; reflexivity | right])]|]);
      (split; [|intros Hs; first [reflexivity | now elim Hs]]);
      (split; [intros H; first [discriminate H | now split]
              |intros [H _]; first [discriminate H | reflexivity]]).
  - unfold Index.handleVerify, Index.verify_preamble, Index.redeem.
    destruct (eqb_spec (method req) (str "OPTIONS")) as [Em|Em].
    { simpl. split; [auto 10|]. split; [|congruence].
      split; [discriminate|]. intros [_ H]. contradiction. }
    repeat break_inner_match; simpl;
      (split; [solve [repeat (first [left; reflexivity | right])]|]);
      (split; [|intros Hs; first [reflexivity | now elim Hs]]);
      (split; [intros H; first [discriminate H | now split]
              |intros [H _]; first [discriminate H | reflexivity]]).
  - unfold Combined.handleVerify, Combined.verify_preamble, Combined.redeem.
    destruct (eqb_spec (method req) (str "OPTIONS")) as [Em|Em].
    { simpl. split; [auto 10|]. split; [|congruence].
      split; [discriminate|]. intros [_ H]. contradiction. }
    repeat break_inner_match; simpl;
      (split; [solve [repeat (first [left; reflexivity | right])]|]);
      (split; [|intros Hs; first [reflexivity | now elim Hs]]);
      (split; [intros H; first [discriminate H | now split]
              |intros [H _]; first [discriminate H | reflexivity]]).
Qed.

(* ================================================================== *)
(** * The endpoints beside the registry, and more on issuing *)

Module ApiFacts.
Import JsStringFacts JsMapFacts SweepFacts CodeFacts CallFacts ExtraFacts.

(** *** [includes] and [join] *)

Lemma startsWith_app (p s : jsstring) : JsString.startsWith (p ++ s) p = true.
Proof.
  induction p as [|x p IH]; simpl; [now destruct s|].
  now rewrite N.eqb_refl.
Qed.

Lemma includes_unfold (s p : jsstring) :
  JsString.includes s p =
  JsString.startsWith s p
  || match s with [] => false | _ :: s' => JsString.includes s' p end.
Proof. now destruct s. Qed.

Lemma includes_app_l (a s p : jsstring) :
  JsString.includes s p = true -> JsString.includes (a ++ s) p = true.
Proof.
  intros H. induction a as [|x a IH]; simpl; [assumption|].
  rewrite IH. apply orb_true_r.
Qed.

Lemma includes_app (a p b : jsstring) : JsString.includes (a ++ p ++ b) p = true.
Proof.
  apply includes_app_l. rewrite includes_unfold, startsWith_app. reflexivity.
Qed.

Lemma join_split (sep : jsstring) (keys : list jsstring) (k : jsstring) :
  In k keys -> exists a b, CombinedApi.join sep keys = a ++ k ++ b.
Proof.
  induction keys as [|x rest IH]; [contradiction|].
  intros [->|H].
  - destruct rest as [|y rest'].
    + exists [], []. simpl. now rewrite app_nil_r.
    + exists [], (sep ++ CombinedApi.join sep (y :: rest')). reflexivity.
  - destruct (IH H) as [a [b E]].
    destruct rest as [|y rest']; [contradiction|].
    change (CombinedApi.join sep (x :: y :: rest'))
      with (x ++ sep ++ CombinedApi.join sep (y :: rest')).
    rewrite E. exists (x ++ sep ++ a), b. now rewrite <- !app_assoc.
Qed.

Lemma debug_text_includes (st : store) (k : jsstring) :
  In k (JsMap.keys st) -> JsString.includes (CombinedApi.debug_text st) k = true.
Proof.
  intros H. destruct (join_split (str ", ") _ _ H) as [a [b E]].
  unfold CombinedApi.debug_text. rewrite E.
  do 6 apply includes_app_l.
  destruct (a ++ k ++ b) as [|c rest] eqn:Ej.
  - destruct a; [|discriminate]. destruct k; [|discriminate]. reflexivity.
  - rewrite <- Ej. apply includes_app.
Qed.

(** *** A map and what is appended to it *)

Lemma get_in_keys {V : Type} (k : jsstring) (v : V) (m : JsMap.t V) :
  JsMap.get k m = Some v -> In k (JsMap.keys m).
Proof.
  intros H. apply get_some_in in H. unfold JsMap.keys.
  change k with (fst (k, v)). now apply in_map.
Qed.

(** *** The routers *)

Lemma index_route_webhook (req : request) :
  Index.route req = Index.ToWebhook -> method req = str "POST".
Proof.
  unfold Index.route.
  repeat match goal with
         | |- context [if JsString.includes ?a ?b then _ else _] =>
             destruct (JsString.includes a b); [discriminate|]
         end.
  destruct (eqb_spec (method req) (str "POST")); [auto|]. simpl.
  destruct (JsString.eqb (method req) (str "OPTIONS")); discriminate.
Qed.

Lemma index_route_verify (req : request) :
  Index.route req = Index.ToVerify ->
  method req = str "POST" \/ method req = str "OPTIONS".
Proof.
  unfold Index.route.
  repeat match goal with
         | |- context [if JsString.includes ?a ?b then _ else _] =>
             destruct (JsString.includes a b); [discriminate|]
         end.
  destruct (eqb_spec (method req) (str "POST")); [auto|]. simpl.
  destruct (eqb_spec (method req) (str "OPTIONS")); [auto|discriminate].
Qed.

Lemma combined_route_webhook (req : request) :
  Combined.route req = Index.ToWebhook -> method req = str "POST".
Proof.
  unfold Combined.route.
  destruct (eqb_spec (method req) (str "POST")); [auto|]. simpl.
  rewrite orb_false_r.
  destruct (JsString.includes (url req) (str "/send")); [discriminate|].
  destruct (JsString.eqb (method req) (str "OPTIONS")); discriminate.
Qed.

Lemma combined_route_verify (req : request) :
  Combined.route req = Index.ToVerify ->
  method req = str "POST" \/ method req = str "OPTIONS".
Proof.
  unfold Combined.route.
  destruct (eqb_spec (method req) (str "POST")); [auto|]. simpl.
  destruct (eqb_spec (method req) (str "OPTIONS")); [auto|].
  rewrite orb_false_r.
  destruct (JsString.includes (url req) (str "/send")); discriminate.
Qed.

End ApiFacts.

Import ApiFacts.

Module UpdateFacts.
Import JsStringFacts JsMapFacts SweepFacts CodeFacts CallFacts ExtraFacts.

Lemma webhook_update_names (b : value) (u : Webhook.update) :
  Webhook.read_body b = inr u ->
  Webhook.u_username u = Js.or (requester_username b) (VStr (str ""))
  /\ Webhook.u_firstName u = Js.or (requester_first_name b) (VStr (str "there"))
  /\ exists raw, update_text b = VStr raw /\ Webhook.u_text u = JsString.trim raw.
Proof.
  unfold Webhook.read_body, requester_username, requester_first_name, update_text,
    Js.get_opt.
  intros H. repeat break_match_hyp H; try discriminate.
  injection H as <-.
  match goal with
  | R : Webhook.read_update _ = Some _ |- _ =>
      unfold Webhook.read_update in R;
      repeat break_match_hyp R; try discriminate; injection R as <-
  end.
  simpl. split; [reflexivity|]. split; [reflexivity|].
  match goal with
  | T : Js.call_trim ?v = Some _ |- _ =>
      destruct v; try discriminate; injection T as <-
  end.
  eexists. split; [|reflexivity]. congruence.
Qed.

Lemma index_update_names (req : request) (u : Index.update) :
  Index.preamble req = inr u ->
  Index.field (Index.u_from u) "username" = requester_username (body req)
  /\ Index.u_firstName u
     = Js.or (requester_first_name (body req)) (VStr (str "there"))
  /\ exists raw,
       update_text (body req) = VStr raw /\ Index.u_text u = JsString.trim raw.
Proof.
  unfold Index.preamble, Index.field, requester_username, requester_first_name,
    update_text, Js.get_opt.
  intros H. repeat break_match_hyp H; try discriminate.
  injection H as <-.
  match goal with
  | R : Index.read_update _ = Some _ |- _ =>
      unfold Index.read_update in R;
      repeat break_match_hyp R; try discriminate; injection R as <-
  end.
  simpl. split; [reflexivity|]. split; [reflexivity|].
  match goal with
  | T : Js.call_trim ?v = Some _ |- _ =>
      destruct v; try discriminate; injection T as <-
  end.
  eexists. split; [|reflexivity]. congruence.
Qed.

Lemma or_or_null (v w : value) :
  Js.truthy w = false -> Js.or (Js.or v w) VNull = Js.or v VNull.
Proof.
  intros Hw. unfold Js.or. destruct (Js.truthy v) eqn:E; [now rewrite E|].
  now rewrite Hw.
Qed.

Lemma or_default (v w : value) :
  Js.truthy w = true ->
  Js.or (Js.or v w) VNull = Js.or v w /\ Js.or v w <> VNull.
Proof.
  intros Hw. unfold Js.or.
  destruct (Js.truthy v) eqn:E.
  - rewrite E. split; [reflexivity|]. intros ->. discriminate.
  - rewrite Hw. split; [reflexivity|]. intros ->. discriminate.
Qed.

Lemma connect_no_space :
  Forall (fun c => JsString.is_space c = false) (str "/connect").
Proof. repeat constructor. Qed.

End UpdateFacts.

Import UpdateFacts.
(** X10.  Pairing does not depend on the user being stored: [supabaseQuery]
    returns [null] without a request when Supabase is not configured, and
    after a request when Supabase answers with an error status, so
    [addUser] returns; [handleVerify] of the production [api/index.js] then
    answers a code that is stored and not expired with 200 and the
    configuration, and deletes the code. *)
Theorem pairing_succeeds_without_supabase
    (JSON_parse : jsstring -> option value) (cfg : Supabase.config)
    (net : Supabase.reply) (req : request) (e : Index.verify_env) (st : store)
    (code : jsstring) (d : codeData) (cid : jsstring) :
  JsMap.wf st ->
  Index.verify_preamble req = inr code ->
  JsMap.get code st = Some d ->
  Index.v_now_sweep e <= expiresAt d ->
  Index.v_now_check e <= expiresAt d ->
  Js.to_string (chatId d) = Some cid ->
  Index.v_registered e
  = Supabase.returned
      (Supabase.addUser JSON_parse cfg net (chatId d) (firstName d) (username d)) ->
  Supabase.unset (Supabase.SUPABASE_URL cfg) = true
  \/ Supabase.unset (Supabase.SUPABASE_ANON_KEY cfg) = true
  \/ (exists text, net = Supabase.Replied false (Some text)) ->
  snd (Supabase.addUser JSON_parse cfg net (chatId d) (firstName d) (username d))
  = Some VNull
  /\ (Supabase.unset (Supabase.SUPABASE_URL cfg)
      || Supabase.unset (Supabase.SUPABASE_ANON_KEY cfg) = true ->
      fst (Supabase.addUser JSON_parse cfg net (chatId d) (firstName d) (username d))
      = [])
  /\ Index.handleVerify req e st
     = (send 200 (VObj [(str "success", VBool true);
                        (str "config", Index.config d)]),
        JsMap.delete code (cleanExpiredCodes (Index.v_now_sweep e) st)).
Proof.
  intros Hwf Hp Hg Hs Hc Hcid Hreg Hcase.
  assert (Hadd : snd (Supabase.addUser JSON_parse cfg net (chatId d) (firstName d)
                        (username d)) = Some VNull
                 /\ (Supabase.unset (Supabase.SUPABASE_URL cfg)
                     || Supabase.unset (Supabase.SUPABASE_ANON_KEY cfg) = true ->
                     fst (Supabase.addUser JSON_parse cfg net (chatId d) (firstName d)
                            (username d)) = [])).
  { unfold Supabase.addUser, Supabase.supabaseQuery.
    destruct (Supabase.unset (Supabase.SUPABASE_URL cfg)
              || Supabase.unset (Supabase.SUPABASE_ANON_KEY cfg)) eqn:Eu;
      [split; reflexivity|].
    apply orb_false_iff in Eu. destruct Eu as [Eu Ek].
    destruct Hcase as [H|[H|[text ->]]]; [congruence|congruence|].
    destruct (Supabase.SUPABASE_URL cfg), (Supabase.SUPABASE_ANON_KEY cfg);
      split; try reflexivity; discriminate. }
  destruct Hadd as [Hret Hnone]. split; [exact Hret|]. split; [exact Hnone|].
  unfold Supabase.returned in Hreg. rewrite Hret in Hreg.
  unfold Index.handleVerify. rewrite Hp. unfold Index.redeem. cbv zeta.
  rewrite (get_clean _ _ _ Hwf), Hg.
  replace (Index.v_now_sweep e >? expiresAt d) with false
    by (symmetry; rewrite Z.gtb_ltb; apply Z.ltb_ge; lia).
  replace (Index.v_now_check e >? expiresAt d) with false
    by (symmetry; rewrite Z.gtb_ltb; apply Z.ltb_ge; lia).
  rewrite Hreg, Hcid. reflexivity.
Qed.

(** No Supabase variables set: the watch is told it is connected. *)
Lemma pairing_succeeds_without_supabase_witness :
  snd (Supabase.addUser (fun _ => None) (Supabase.mkConfig None None)
         Supabase.Rejected (VNum 42) (VStr (str "Ann")) (VStr (str "")))
  = Some VNull
  /\ fst (Supabase.addUser (fun _ => None) (Supabase.mkConfig None None)
            Supabase.Rejected (VNum 42) (VStr (str "Ann")) (VStr (str "")))
     = []
  /\ Index.handleVerify (Scenario.post (Scenario.code_body "482913"))
       (Index.mkVerifyEnv 1000 1000 true) Scenario.one_code
     = (send 200 (VObj [(str "success", VBool true);
                        (str "config", Index.config (Scenario.record_42 0))]),
        JsMap.delete (str "482913") (cleanExpiredCodes 1000 Scenario.one_code)).
Proof.
  assert (H : JsMap.wf Scenario.one_code)
    by (repeat constructor; simpl; intuition discriminate).
  destruct (pairing_succeeds_without_supabase (fun _ => None)
              (Supabase.mkConfig None None) Supabase.Rejected
              (Scenario.post (Scenario.code_body "482913"))
              (Index.mkVerifyEnv 1000 1000 true) Scenario.one_code
              (str "482913") (Scenario.record_42 0) (str "42")
              H eq_refl eq_refl)
    as [H1 [H2 H3]]; try reflexivity.
  - vm_compute. discriminate.
  - vm_compute. discriminate.
  - left. reflexivity.
  - split; [exact H1|]. split; [exact (H2 eq_refl)|exact H3].
Defined.

(** X11.  A registration that fails does not use the code up: when the
    request of [addUser] is rejected, [supabaseQuery] throws, and
    [handleVerify] of the production [api/index.js] answers 500 and leaves
    the code in the map, where a later attempt, made before the deadline and
    with [addUser] returning, finds it and is answered 200. *)
Theorem failed_registration_keeps_the_code
    (req : request) (e : Index.verify_env) (st : store) (code : jsstring)
    (d : codeData) (cid : jsstring) :
  JsMap.wf st ->
  Index.verify_preamble req = inr code ->
  JsMap.get code st = Some d ->
  Index.v_now_sweep e <= expiresAt d ->
  Index.v_now_check e <= expiresAt d ->
  Js.to_string (chatId d) = Some cid ->
  Index.v_registered e = false ->
  (forall JSON_parse cfg,
      Supabase.unset (Supabase.SUPABASE_URL cfg) = false ->
      Supabase.unset (Supabase.SUPABASE_ANON_KEY cfg) = false ->
      Supabase.returned
        (Supabase.addUser JSON_parse cfg Supabase.Rejected
           (chatId d) (firstName d) (username d))
      = false)
  /\ Index.handleVerify req e st
     = (send 500 (failure "Server error"),
        cleanExpiredCodes (Index.v_now_sweep e) st)
  /\ JsMap.get code (snd (Index.handleVerify req e st)) = Some d
  /\ forall e2,
       Index.v_now_sweep e2 <= expiresAt d ->
       Index.v_now_check e2 <= expiresAt d ->
       Index.v_registered e2 = true ->
       fst (Index.handleVerify req e2 (snd (Index.handleVerify req e st)))
       = send 200 (VObj [(str "success", VBool true);
                         (str "config", Index.config d)]).
Proof.
  intros Hwf Hp Hg Hs Hc Hcid Hreg.
  assert (F : forall t, t <= expiresAt d -> (t >? expiresAt d) = false).
  { intros t Ht. rewrite Z.gtb_ltb. apply Z.ltb_ge. lia. }
  assert (H1 : Index.handleVerify req e st
               = (send 500 (failure "Server error"),
                  cleanExpiredCodes (Index.v_now_sweep e) st)).
  { unfold Index.handleVerify. rewrite Hp. unfold Index.redeem. cbv zeta.
    rewrite (get_clean _ _ _ Hwf), Hg, !F, Hreg by assumption. reflexivity. }
  assert (H2 : JsMap.get code (cleanExpiredCodes (Index.v_now_sweep e) st) = Some d).
  { rewrite (get_clean _ _ _ Hwf), Hg, F by assumption. reflexivity. }
  split.
  { intros JSON_parse cfg Hu Hk. unfold Supabase.addUser, Supabase.supabaseQuery.
    rewrite Hu, Hk.
    destruct (Supabase.SUPABASE_URL cfg), (Supabase.SUPABASE_ANON_KEY cfg);
      try discriminate; reflexivity. }
  split; [exact H1|]. rewrite H1. cbv beta iota delta [snd]. split; [exact H2|].
  intros e2 Hs2 Hc2 Hreg2.
  unfold Index.handleVerify. rewrite Hp. unfold Index.redeem. cbv zeta.
  rewrite (get_clean _ _ _ (wf_clean _ _ Hwf)), H2, !F, Hreg2, Hcid by assumption.
  reflexivity.
Qed.

(** The request is rejected at time 1000; the watch tries again at 2000. *)
Lemma failed_registration_keeps_the_code_witness :
  Index.handleVerify (Scenario.post (Scenario.code_body "482913"))
    (Index.mkVerifyEnv 1000 1000 false) Scenario.one_code
  = (send 500 (failure "Server error"), Scenario.one_code)
  /\ fst (Index.handleVerify (Scenario.post (Scenario.code_body "482913"))
            (Index.mkVerifyEnv 2000 2000 true) Scenario.one_code)
     = send 200 (VObj [(str "success", VBool true);
                       (str "config", Index.config (Scenario.record_42 0))]).
Proof.
  assert (H : JsMap.wf Scenario.one_code)
    by (repeat constructor; simpl; intuition discriminate).
  assert (L : 1000 <= expiresAt (Scenario.record_42 0))
    by (vm_compute; discriminate).
  destruct (failed_registration_keeps_the_code
              (Scenario.post (Scenario.code_body "482913"))
              (Index.mkVerifyEnv 1000 1000 false) Scenario.one_code
              (str "482913") (Scenario.record_42 0) (str "42")
              H eq_refl eq_refl L L eq_refl eq_refl)
    as [_ [H1 [_ H3]]].
  split; [exact H1|].
  apply (H3 (Index.mkVerifyEnv 2000 2000 true)); try reflexivity;
    vm_compute; discriminate.
Defined.

(** X12.  [handleResponse] says [success: true] whether or not the message
    was stored: for a request with a [chatId] and a [message] it answers 200
    exactly when [storeMessage] returned, and [storeMessage] returns (with
    [null]) also when Supabase is not configured, in which case no request
    was made, and when Supabase answered with an error status. *)
Theorem response_success_does_not_mean_stored
    (JSON_parse : jsstring -> option value) (req : request)
    (cfg : Supabase.config) (net : Supabase.reply) (chatId message : value)
    (cid : jsstring) :
  method req <> str "OPTIONS" ->
  Js.get (body req) (str "chatId") = Some chatId ->
  Js.get (body req) (str "message") = Some message ->
  Js.truthy chatId = true ->
  Js.truthy message = true ->
  Js.to_string chatId = Some cid ->
  (fst (IndexApi.handleResponse JSON_parse req cfg net)
   = (if Supabase.returned (Supabase.storeMessage JSON_parse cfg net chatId message)
      then send 200 (VObj [(str "success", VBool true)])
      else send 500 (failure "Server error")))
  /\ snd (IndexApi.handleResponse JSON_parse req cfg net)
     = fst (Supabase.storeMessage JSON_parse cfg net chatId message)
  /\ (Supabase.unset (Supabase.SUPABASE_URL cfg)
      || Supabase.unset (Supabase.SUPABASE_ANON_KEY cfg) = true ->
      IndexApi.handleResponse JSON_parse req cfg net
      = (send 200 (VObj [(str "success", VBool true)]), []))
  /\ (forall text,
         net = Supabase.Replied false (Some text) ->
         fst (IndexApi.handleResponse JSON_parse req cfg net)
         = send 200 (VObj [(str "success", VBool true)])).
Proof.
  intros Hm Hc Hmsg Htc Htm Hcid.
  assert (E : IndexApi.handleResponse JSON_parse req cfg net
              = (if Supabase.returned
                      (Supabase.storeMessage JSON_parse cfg net chatId message)
                 then send 200 (VObj [(str "success", VBool true)])
                 else send 500 (failure "Server error"),
                 fst (Supabase.storeMessage JSON_parse cfg net chatId message))).
  { unfold IndexApi.handleResponse, Supabase.returned.
    destruct (eqb_spec (method req) (str "OPTIONS")); [contradiction|].
    rewrite Hc, Hmsg, Htc, Htm. simpl negb. cbv iota. simpl orb. cbv iota zeta.
    destruct (snd (Supabase.storeMessage JSON_parse cfg net chatId message));
      [rewrite Hcid|]; reflexivity. }
  rewrite E. cbv beta iota delta [fst snd].
  split; [reflexivity|]. split; [reflexivity|]. split.
  - intros Hu. unfold Supabase.returned, Supabase.storeMessage,
      Supabase.supabaseQuery. rewrite Hu. reflexivity.
  - intros text ->. unfold Supabase.returned, Supabase.storeMessage,
      Supabase.supabaseQuery.
    destruct (Supabase.unset (Supabase.SUPABASE_URL cfg)
              || Supabase.unset (Supabase.SUPABASE_ANON_KEY cfg));
      [reflexivity|].
    destruct (Supabase.SUPABASE_URL cfg), (Supabase.SUPABASE_ANON_KEY cfg);
      reflexivity.
Qed.

(** A reply of the assistant, with no Supabase variable set. *)
Lemma response_success_does_not_mean_stored_witness :
  IndexApi.handleResponse (fun _ => None)
    (Scenario.post (VObj [(str "chatId", VNum 42);
                          (str "message", VStr (str "hello"))]))
    (Supabase.mkConfig None None) Supabase.Rejected
  = (send 200 (VObj [(str "success", VBool true)]), []).
Proof.
  apply (response_success_does_not_mean_stored (fun _ => None)
           (Scenario.post (VObj [(str "chatId", VNum 42);
                                 (str "message", VStr (str "hello"))]))
           (Supabase.mkConfig None None) Supabase.Rejected
           (VNum 42) (VStr (str "hello")) (str "42"));
    try reflexivity.
  discriminate.
Defined.

(** X13.  [handleSend] of the combined [api/index.js] cannot send: the name
    [edBotToken] it builds the address from is not declared, so a request
    that carries a [chatId] and a [message] is answered 500, no request
    goes to Telegram, and no answer says [success: true].  The production
    [handleSend] answers the same request with what Telegram said: 200 when
    the reply has a true [ok], after one request for the [chatId] given. *)
Theorem combined_send_never_succeeds :
  (forall req,
      snd (CombinedApi.handleSend req) = []
      /\ In (status (fst (CombinedApi.handleSend req))) [200; 400; 500]
      /\ success_flag (fst (CombinedApi.handleSend req)) <> Some (VBool true)
      /\ (status (fst (CombinedApi.handleSend req)) = 200 <->
          method req = str "OPTIONS"))
  /\ (forall req e chatId message m token result,
         method req <> str "OPTIONS" ->
         Js.get (body req) (str "chatId") = Some chatId ->
         Js.get (body req) (str "message") = Some message ->
         Js.truthy chatId = true ->
         Js.truthy message = true ->
         Js.to_string message = Some m ->
         Js.to_string
           (Js.or (IndexApi.ED_BOT_TOKEN e) (IndexApi.CLAWWATCH_BOT_TOKEN e))
         = Some token ->
         IndexApi.telegram e = Some result ->
         Js.get result (str "ok") = Some (VBool true) ->
         CombinedApi.handleSend req = (send 500 (failure "Server error"), [])
         /\ exists header,
              IndexApi.handleSend req e
              = (send 200 (VObj [(str "success", VBool true)]),
                 [IndexApi.mkTelegramCall token chatId (header ++ m)
                    (Some (str "Markdown"))])).
Proof.
  split.
  - intros req. unfold CombinedApi.handleSend.
    destruct (eqb_spec (method req) (str "OPTIONS")) as [Em|Em].
    { simpl. repeat split; auto; discriminate. }
    repeat break_inner_match; simpl;
      (split; [reflexivity|]);
      (split; [solve [repeat (first [left; reflexivity | right])]|]);
      (split; [discriminate|]);
      (split; [discriminate|intros H; contradiction]).
  - intros req e chatId message m token result Hm Hc Hmsg Htc Htm Hs Htok Htel Hok.
    unfold CombinedApi.handleSend, IndexApi.handleSend.
    destruct (eqb_spec (method req) (str "OPTIONS")); [contradiction|].
    rewrite Hc, Hmsg, Htc, Htm. simpl negb. simpl orb. cbv iota zeta.
    rewrite Hs, Htok, Htel, Hok. simpl Js.truthy. cbv iota.
    split; [reflexivity|].
    exists (IndexApi.watch ++ str " *[ClawWatch " ++ IndexApi.timeStr e ++ str "]*"
              ++ [10%N; 10%N]).
    now rewrite <- !app_assoc.
Qed.

(** The same request to both versions, Telegram accepting the message. *)
Lemma combined_send_never_succeeds_witness :
  CombinedApi.handleSend
    (Scenario.post (VObj [(str "chatId", VNum 42); (str "message", VStr (str "hi"))]))
  = (send 500 (failure "Server error"), [])
  /\ exists header,
       IndexApi.handleSend
         (Scenario.post (VObj [(str "chatId", VNum 42);
                               (str "message", VStr (str "hi"))]))
         (IndexApi.mkSendEnv VUndefined (VStr (str "T")) (str "12:00")
            (Some (VObj [(str "ok", VBool true)])))
       = (send 200 (VObj [(str "success", VBool true)]),
          [IndexApi.mkTelegramCall (str "T") (VNum 42) (header ++ str "hi")
             (Some (str "Markdown"))]).
Proof.
  apply (proj2 combined_send_never_succeeds
           (Scenario.post (VObj [(str "chatId", VNum 42);
                                 (str "message", VStr (str "hi"))]))
           (IndexApi.mkSendEnv VUndefined (VStr (str "T")) (str "12:00")
              (Some (VObj [(str "ok", VBool true)])))
           (VNum 42) (VStr (str "hi")) (str "hi") (str "T")
           (VObj [(str "ok", VBool true)]));
    try reflexivity.
  discriminate.
Defined.

(** X14.  A code that could not be delivered is issued all the same: the
    record is stored before the message is sent, so when the request to
    Telegram is rejected the webhook answers 500 and the map holds the code
    with the record of the update, until it is redeemed or expires. *)
Theorem undelivered_code_stays_issued
    (c : call) (st : store) (r : response) (st' : store) (code : jsstring) :
  run c st = Some (r, st') ->
  issued c st = Some code ->
  delivered_in c = false ->
  r = send 500 (error "Internal error")
  /\ exists d, new_record c = Some d /\ JsMap.get code st' = Some d.
Proof.
  intros Hrun Hi Hd.
  destruct (issue_effect c _ _ _ _ Hrun Hi) as [now [d [_ [_ [Hf [Hst Hn]]]]]].
  split.
  - destruct c as [req e|req e|req e|req e|req e|req e]; simpl in *;
      try discriminate.
    + unfold Webhook.handler in Hrun.
      destruct (Webhook.preamble req) as [r0|u]; [discriminate|].
      destruct (JsString.eqb (Webhook.u_text u) (str "/connect")) eqn:Et;
        [|discriminate].
      unfold Webhook.dispatch in Hrun. cbv zeta in Hrun.
      rewrite Et, Hi, Hd in Hrun.
      destruct (JsString.eqb (Webhook.u_text u) (str "/start")) eqn:Es.
      * apply eqb_eq in Es. apply eqb_eq in Et. rewrite Es in Et. discriminate.
      * now injection Hrun as <- _.
    + unfold Index.handleWebhook in Hrun.
      destruct (Index.preamble req) as [r0|u]; [discriminate|].
      destruct (JsString.eqb (Index.u_text u) (str "/connect")) eqn:Et;
        [|discriminate].
      unfold Index.dispatch in Hrun. cbv zeta in Hrun.
      rewrite Et, Hi, Hd in Hrun.
      destruct (JsString.eqb (Index.u_text u) (str "/start")) eqn:Es.
      * apply eqb_eq in Es. apply eqb_eq in Et. rewrite Es in Et. discriminate.
      * now injection Hrun as <- _.
    + unfold Combined.handleWebhook in Hrun.
      destruct (Webhook.read_body (body req)) as [r0|u]; [discriminate|].
      destruct (JsString.eqb (Webhook.u_text u) (str "/connect")) eqn:Et;
        [|discriminate].
      unfold Combined.dispatch in Hrun. cbv zeta in Hrun.
      rewrite Et, Hi, Hd in Hrun.
      destruct (JsString.eqb (Webhook.u_text u) (str "/start")) eqn:Es.
      * apply eqb_eq in Es. apply eqb_eq in Et. rewrite Es in Et. discriminate.
      * destruct (Js.to_string (Webhook.u_userId u)); now injection Hrun as <- _.
  - exists d. split; [assumption|].
    rewrite Hst, <- (set_fresh _ d _ Hf). apply get_set_same.
Qed.

(** The scenario's [/connect], Telegram out of reach. *)
Lemma undelivered_code_stays_issued_witness :
  send 500 (error "Internal error") = send 500 (error "Internal error")
  /\ exists d,
       new_record
         (CallWebhook (Scenario.post (Scenario.update_from 42 "/connect"))
            (Webhook.mkEnv 0 0 0 [Scenario.draw_482913] false))
       = Some d
       /\ JsMap.get (str "482913") Scenario.one_code = Some d.
Proof.
  apply (undelivered_code_stays_issued
           (CallWebhook (Scenario.post (Scenario.update_from 42 "/connect"))
              (Webhook.mkEnv 0 0 0 [Scenario.draw_482913] false))
           JsMap.empty (send 500 (error "Internal error")) Scenario.one_code
           (str "482913"));
    reflexivity.
Defined.

(** X15.  A [/connect] invalidates nothing that is still valid: the call
    that issues a code leaves every entry whose deadline its sweep has not
    passed as it was (also the earlier codes of the user who asks), drops
    the others, and adds one entry, so the map it leaves holds the swept
    entries and the new code, last. *)
Theorem connect_keeps_earlier_codes
    (c : call) (st : store) (r : response) (st' : store) (code : jsstring)
    (now : Z) :
  JsMap.wf st ->
  run c st = Some (r, st') ->
  issued c st = Some code ->
  sweep_time c = Some now ->
  (forall k d, JsMap.get k st = Some d -> now <= expiresAt d ->
               k <> code /\ JsMap.get k st' = Some d)
  /\ (forall k d, JsMap.get k st = Some d -> expiresAt d < now -> k <> code ->
                  JsMap.get k st' = None)
  /\ JsMap.keys st' = JsMap.keys (cleanExpiredCodes now st) ++ [code]
  /\ JsMap.size st' = JsMap.size (cleanExpiredCodes now st) + 1.
Proof.
  intros Hwf Hrun Hi Hs.
  destruct (issue_effect c _ _ _ _ Hrun Hi) as [now' [d0 [Hs' [_ [Hf [Hst _]]]]]].
  rewrite Hs in Hs'. injection Hs' as <-.
  assert (Hset : st' = JsMap.set code d0 (cleanExpiredCodes now st)).
  { now rewrite (set_fresh _ d0 _ Hf). }
  split; [|split; [|split]].
  - intros k d Hg Hle.
    assert (Hk : JsMap.get k (cleanExpiredCodes now st) = Some d).
    { rewrite (get_clean _ _ _ Hwf), Hg.
      replace (now >? expiresAt d) with false
        by (symmetry; rewrite Z.gtb_ltb; apply Z.ltb_ge; lia).
      reflexivity. }
    assert (Hne : k <> code) by (intros ->; congruence).
    split; [exact Hne|].
    rewrite Hset, get_set_other by congruence. exact Hk.
  - intros k d Hg Hlt Hne.
    rewrite Hset, get_set_other by congruence.
    rewrite (get_clean _ _ _ Hwf), Hg.
    replace (now >? expiresAt d) with true
      by (symmetry; apply Z.gtb_lt; lia).
    reflexivity.
  - rewrite Hst. unfold JsMap.keys. now rewrite map_app.
  - rewrite Hst. unfold JsMap.size. rewrite length_app. simpl. lia.
Qed.

(** User 42 holds "482913" and asks again at time 1000: both codes are
    valid afterwards. *)
Lemma connect_keeps_earlier_codes_witness :
  JsMap.get (str "482913")
    [(str "482913", Scenario.record_42 0); (str "100000", Scenario.record_42 1000)]
  = Some (Scenario.record_42 0)
  /\ JsMap.keys
       [(str "482913", Scenario.record_42 0); (str "100000", Scenario.record_42 1000)]
     = JsMap.keys (cleanExpiredCodes 1000 Scenario.one_code) ++ [str "100000"].
Proof.
  assert (H : JsMap.wf Scenario.one_code)
    by (repeat constructor; simpl; intuition discriminate).
  destruct (connect_keeps_earlier_codes
              (CallWebhook (Scenario.post (Scenario.update_from 42 "/connect"))
                 (Webhook.mkEnv 1000 1000 1000 [Scenario.draw_100000] true))
              Scenario.one_code (send 200 ok_true)
              [(str "482913", Scenario.record_42 0);
               (str "100000", Scenario.record_42 1000)]
              (str "100000") 1000 H eq_refl eq_refl eq_refl)
    as [H1 [_ [H3 _]]].
  split; [|exact H3].
  apply (H1 (str "482913") (Scenario.record_42 0) eq_refl).
  vm_compute. discriminate.
Defined.

(** X16.  A code whose time is over can be given out again, one whose time
    is not over cannot: when the first result of [Math.random()] in a
    [/connect] call gives a code the map holds, the call issues that very
    code, with the new record in place of the old, if its sweep has passed
    the deadline of the entry; otherwise it draws again, issues another
    code, and leaves the entry as it was. *)
Theorem expired_code_is_reissued
    (c : call) (st : store) (r : response) (st' : store) (code : jsstring)
    (now : Z) (first : Q) (later : list Q) (old : codeData) :
  JsMap.wf st ->
  run c st = Some (r, st') ->
  issued c st = Some code ->
  sweep_time c = Some now ->
  draws c = first :: later ->
  JsMap.get (generateCode first) st = Some old ->
  (expiresAt old < now ->
   code = generateCode first
   /\ exists d, new_record c = Some d /\ JsMap.get code st' = Some d)
  /\ (now <= expiresAt old ->
      code <> generateCode first
      /\ pick_code later (cleanExpiredCodes now st) = Some code
      /\ JsMap.get (generateCode first) st' = Some old).
Proof.
  intros Hwf Hrun Hi Hs Hd Hg.
  destruct (issue_effect c _ _ _ _ Hrun Hi) as [now' [d0 [Hs' [Hp [Hf [Hst Hn]]]]]].
  rewrite Hs in Hs'. injection Hs' as <-.
  assert (Hset : st' = JsMap.set code d0 (cleanExpiredCodes now st)).
  { now rewrite (set_fresh _ d0 _ Hf). }
  rewrite Hd in Hp. simpl in Hp. unfold JsMap.has in Hp.
  rewrite (get_clean _ _ _ Hwf), Hg in Hp.
  split.
  - intros Hlt.
    replace (now >? expiresAt old) with true in Hp
      by (symmetry; apply Z.gtb_lt; lia).
    injection Hp as <-. split; [reflexivity|].
    exists d0. split; [assumption|]. rewrite Hset. apply get_set_same.
  - intros Hle.
    replace (now >? expiresAt old) with false in Hp
      by (symmetry; rewrite Z.gtb_ltb; apply Z.ltb_ge; lia).
    assert (Hk : JsMap.get (generateCode first) (cleanExpiredCodes now st) = Some old).
    { rewrite (get_clean _ _ _ Hwf), Hg.
      replace (now >? expiresAt old) with false
        by (symmetry; rewrite Z.gtb_ltb; apply Z.ltb_ge; lia).
      reflexivity. }
    assert (Hne : code <> generateCode first) by (intros ->; congruence).
    split; [exact Hne|]. split; [exact Hp|].
    rewrite Hset, get_set_other by assumption. exact Hk.
Qed.

(** "482913", issued at 0, is drawn again: at time 300001 it is issued anew,
    at time 300000 "100000" is issued beside it. *)
Lemma expired_code_is_reissued_witness :
  (str "482913" = generateCode Scenario.draw_482913
   /\ exists d,
        new_record
          (CallWebhook (Scenario.post (Scenario.update_from 42 "/connect"))
             (Webhook.mkEnv 300001 300001 300001
                [Scenario.draw_482913; Scenario.draw_100000] true))
        = Some d
        /\ JsMap.get (str "482913") [(str "482913", Scenario.record_42 300001)]
           = Some d)
  /\ (str "100000" <> generateCode Scenario.draw_482913
      /\ pick_code [Scenario.draw_100000] (cleanExpiredCodes 300000 Scenario.one_code)
         = Some (str "100000")
      /\ JsMap.get (generateCode Scenario.draw_482913)
           [(str "482913", Scenario.record_42 0);
            (str "100000", Scenario.record_42 300000)]
         = Some (Scenario.record_42 0)).
Proof.
  assert (H : JsMap.wf Scenario.one_code)
    by (repeat constructor; simpl; intuition discriminate).
  split.
  - apply (proj1 (expired_code_is_reissued
                    (CallWebhook (Scenario.post (Scenario.update_from 42 "/connect"))
                       (Webhook.mkEnv 300001 300001 300001
                          [Scenario.draw_482913; Scenario.draw_100000] true))
                    Scenario.one_code (send 200 ok_true)
                    [(str "482913", Scenario.record_42 300001)]
                    (str "482913") 300001 Scenario.draw_482913
                    [Scenario.draw_100000] (Scenario.record_42 0)
                    H eq_refl eq_refl eq_refl eq_refl eq_refl)).
    reflexivity.
  - apply (proj2 (expired_code_is_reissued
                    (CallWebhook (Scenario.post (Scenario.update_from 42 "/connect"))
                       (Webhook.mkEnv 300000 300000 300000
                          [Scenario.draw_482913; Scenario.draw_100000] true))
                    Scenario.one_code (send 200 ok_true)
                    [(str "482913", Scenario.record_42 0);
                     (str "100000", Scenario.record_42 300000)]
                    (str "100000") 300000 Scenario.draw_482913
                    [Scenario.draw_100000] (Scenario.record_42 0)
                    H eq_refl eq_refl eq_refl eq_refl eq_refl)).
    vm_compute. discriminate.
Defined.

(** X17.  Only a POST can change the codes: a request with any other method
    that the exported function of a file hands to a webhook or a redeeming
    handler is answered with the map as it was: nothing issued, nothing
    redeemed, nothing swept.  In [api/index.js], where the handlers do not
    test the method themselves, the router sees to it: it hands a webhook
    only a POST, and a redeeming handler only a POST or an OPTIONS. *)
Theorem only_post_changes_codes
    (c : call) (st : store) (r : response) (st' : store) :
  routed c = true ->
  method (request_of c) <> str "POST" ->
  run c st = Some (r, st') ->
  st' = st /\ issued c st = None /\ submitted c = None.
Proof.
  intros Hr Hm Hrun.
  destruct c as [req e|req e|req e|req e|req e|req e]; simpl in *.
  - unfold Webhook.handler in Hrun. unfold Webhook.preamble in *.
    destruct (eqb_spec (method req) (str "POST")); [contradiction|].
    simpl in *. now injection Hrun as _ <-.
  - unfold Verify.handler in Hrun. unfold Verify.preamble in *.
    destruct (JsString.eqb (method req) (str "OPTIONS")).
    { now injection Hrun as _ <-. }
    destruct (eqb_spec (method req) (str "POST")); [contradiction|].
    simpl in *. now injection Hrun as _ <-.
  - destruct (Index.route req) eqn:E; try discriminate.
    apply index_route_webhook in E. contradiction.
  - destruct (Index.route req) eqn:E; try discriminate.
    apply index_route_verify in E. destruct E as [E|E]; [contradiction|].
    unfold Index.handleVerify in Hrun. unfold Index.verify_preamble in *.
    rewrite E in *. simpl in *. now injection Hrun as _ <-.
  - destruct (Combined.route req) eqn:E; try discriminate.
    apply combined_route_webhook in E. contradiction.
  - destruct (Combined.route req) eqn:E; try discriminate.
    apply combined_route_verify in E. destruct E as [E|E]; [contradiction|].
    unfold Combined.handleVerify in Hrun. unfold Combined.verify_preamble in *.
    rewrite E in *. simpl in *. now injection Hrun as _ <-.
Qed.

(** A GET that carries the body of a [/connect] update reaches no handler
    of the production [api/index.js]; an OPTIONS that carries a stored code
    reaches [handleVerify], which does not look the code up. *)
Lemma only_post_changes_codes_witness :
  Index.route
    (mkRequest (str "GET") (str "/api") (Scenario.update_from 42 "/connect"))
  = Index.ToInfo
  /\ snd (Index.handleVerify
            (mkRequest (str "OPTIONS") (str "/api") (Scenario.code_body "482913"))
            (Index.mkVerifyEnv 400000 400000 true) Scenario.one_code)
     = Scenario.one_code
  /\ submitted
       (CallIndexVerify
          (mkRequest (str "OPTIONS") (str "/api") (Scenario.code_body "482913"))
          (Index.mkVerifyEnv 400000 400000 true))
     = None.
Proof.
  split; [reflexivity|].
  destruct (only_post_changes_codes
              (CallIndexVerify
                 (mkRequest (str "OPTIONS") (str "/api") (Scenario.code_body "482913"))
                 (Index.mkVerifyEnv 400000 400000 true))
              Scenario.one_code
              (fst (Index.handleVerify
                      (mkRequest (str "OPTIONS") (str "/api")
                         (Scenario.code_body "482913"))
                      (Index.mkVerifyEnv 400000 400000 true) Scenario.one_code))
              (snd (Index.handleVerify
                      (mkRequest (str "OPTIONS") (str "/api")
                         (Scenario.code_body "482913"))
                      (Index.mkVerifyEnv 400000 400000 true) Scenario.one_code)))
    as [H1 [_ H3]]; [reflexivity|discriminate|reflexivity|].
  split; [exact H1|exact H3].
Defined.

(** X18.  [/debug] gives the pending codes away: in the combined
    [api/index.js] an update with the text [/debug], from any chat, makes
    [handleWebhook] send to that chat a text that contains every code the
    map holds after the sweep, so every code of any user whose deadline the
    sweep has not passed; the call changes the map by the sweep only. *)
Theorem debug_lists_every_pending_code
    (req : request) (e : Webhook.env) (st : store) (u : Webhook.update) :
  Webhook.read_body (body req) = inr u ->
  Webhook.u_text u = str "/debug" ->
  CombinedApi.debug_call req e st
  = Some (Webhook.u_chatId u,
          CombinedApi.debug_text (cleanExpiredCodes (Webhook.now_sweep e) st))
  /\ (forall code d,
         JsMap.wf st ->
         JsMap.get code st = Some d ->
         Webhook.now_sweep e <= expiresAt d ->
         JsString.includes
           (CombinedApi.debug_text (cleanExpiredCodes (Webhook.now_sweep e) st))
           code
         = true)
  /\ Combined.handleWebhook req e st
     = Some (if Webhook.delivered e then send 200 ok_true
             else send 500 (error "Internal error"),
             cleanExpiredCodes (Webhook.now_sweep e) st).
Proof.
  intros Hb Ht. split; [|split].
  - unfold CombinedApi.debug_call. rewrite Hb, Ht. reflexivity.
  - intros code d Hwf Hg Hle. apply debug_text_includes.
    apply (get_in_keys code d).
    rewrite (get_clean _ _ _ Hwf), Hg.
    replace (Webhook.now_sweep e >? expiresAt d) with false
      by (symmetry; rewrite Z.gtb_ltb; apply Z.ltb_ge; lia).
    reflexivity.
  - unfold Combined.handleWebhook. rewrite Hb.
    unfold Combined.dispatch. cbv zeta. rewrite Ht. simpl.
    now destruct (Webhook.delivered e).
Qed.

(** User 7 asks for the debug text while the code of user 42 is pending. *)
Lemma debug_lists_every_pending_code_witness :
  CombinedApi.debug_call (Scenario.post (Scenario.update_from 7 "/debug"))
    (Webhook.mkEnv 1000 1000 1000 [] true) Scenario.one_code
  = Some (VNum 7,
          str "Debug info:" ++ [10%N] ++ str "Pending codes: 1" ++ [10%N]
            ++ str "Codes: 482913")
  /\ JsString.includes
       (CombinedApi.debug_text (cleanExpiredCodes 1000 Scenario.one_code))
       (str "482913")
     = true.
Proof.
  assert (H : JsMap.wf Scenario.one_code)
    by (repeat constructor; simpl; intuition discriminate).
  destruct (debug_lists_every_pending_code
              (Scenario.post (Scenario.update_from 7 "/debug"))
              (Webhook.mkEnv 1000 1000 1000 [] true) Scenario.one_code
              (Webhook.mkUpdate (VNum 7) (VNum 7) (VStr (str ""))
                 (VStr (str "Ann")) (str "/debug"))
              eq_refl eq_refl)
    as [H1 [H2 _]].
  split; [exact H1|].
  apply (H2 (str "482913") (Scenario.record_42 0) H eq_refl).
  vm_compute. discriminate.
Defined.

(** X19.  The combined [api/index.js] answers as the two single files do.
    For a POST its [handleWebhook] gives the response and leaves the map of
    the handler of [api/webhook.js]; for a POST or an OPTIONS its
    [handleVerify] gives the response and leaves the map of the handler of
    [api/verify.js] run on the swept map, but for the wording of the 410
    answer. *)
Theorem combined_agrees_with_the_single_files
    (req : request) (st : store) :
  (method req = str "POST" ->
   forall e, Combined.handleWebhook req e st = Webhook.handler req e st)
  /\ (method req = str "POST" \/ method req = str "OPTIONS" ->
      forall e,
        let single :=
          Verify.handler req (Combined.token_env e)
            (cleanExpiredCodes (Combined.v_now_sweep e) st) in
        status (fst (Combined.handleVerify req e st)) = status (fst single)
        /\ (status (fst single) <> 410 ->
            fst (Combined.handleVerify req e st) = fst single)
        /\ (status (fst single) = 410 ->
            fst (Combined.handleVerify req e st)
            = send 410 (failure "Code has expired"))
        /\ (forall code,
               Verify.preamble req = inr code ->
               snd (Combined.handleVerify req e st) = snd single)).
Proof.
  split.
  - intros Hm e. unfold Combined.handleWebhook, Webhook.handler, Webhook.preamble.
    rewrite Hm. simpl negb. cbv iota.
    destruct (Webhook.read_body (body req)) as [r|u]; [reflexivity|].
    unfold Combined.dispatch, Webhook.dispatch. cbv zeta.
    repeat break_inner_match; reflexivity.
  - intros Hm e. cbv zeta.
    assert (P : Combined.verify_preamble req = Verify.preamble req).
    { unfold Combined.verify_preamble, Verify.preamble.
      destruct (eqb_spec (method req) (str "OPTIONS")) as [Eo|Eo]; [reflexivity|].
      destruct Hm as [Hm|Hm]; [|contradiction]. rewrite Hm. simpl negb. cbv iota zeta.
      destruct (Js.get (body req) (str "code")) as [code|]; [|reflexivity].
      destruct code as [| |b|n|s|l|props]; try reflexivity.
      all: unfold Js.call_toString; cbn [Js.truthy negb].
      all: repeat break_inner_match; try reflexivity; try discriminate.
      destruct b; simpl in *; congruence. }
    unfold Combined.handleVerify, Verify.handler. rewrite P.
    destruct (Verify.preamble req) as [r|code] eqn:Ep.
    { assert (Hr : status r <> 410).
      { unfold Verify.preamble in Ep.
        repeat break_match_hyp Ep; inversion Ep; discriminate. }
      simpl. repeat split; auto; [contradiction|discriminate]. }
    unfold Combined.redeem, Verify.redeem, Combined.token_env. cbv zeta.
    cbv beta iota delta [Verify.now_check].
    repeat break_inner_match; simpl;
      repeat split; auto; try discriminate; try congruence;
      intros H; now elim H.
Qed.

(** The expired code of the scenario: 410 from both, in different words. *)
Lemma combined_agrees_with_the_single_files_witness :
  Combined.handleWebhook (Scenario.post (Scenario.update_from 42 "/connect"))
    (Webhook.mkEnv 0 0 0 [Scenario.draw_482913] true) JsMap.empty
  = Webhook.handler (Scenario.post (Scenario.update_from 42 "/connect"))
      (Webhook.mkEnv 0 0 0 [Scenario.draw_482913] true) JsMap.empty
  /\ fst (Combined.handleVerify (Scenario.post (Scenario.code_body "482913"))
            (Combined.mkVerifyEnv 300000 300001 300001 VUndefined) Scenario.one_code)
     = send 410 (failure "Code has expired")
  /\ fst (Verify.handler (Scenario.post (Scenario.code_body "482913"))
            (Verify.mkEnv 300001 300001 VUndefined) Scenario.one_code)
     = send 410 (failure "Code has expired. Please request a new one.").
Proof.
  split; [|split; [|reflexivity]].
  - apply (proj1 (combined_agrees_with_the_single_files
                    (Scenario.post (Scenario.update_from 42 "/connect"))
                    JsMap.empty) eq_refl).
  - apply (proj2 (combined_agrees_with_the_single_files
                    (Scenario.post (Scenario.code_body "482913"))
                    Scenario.one_code) (or_introl eq_refl)
             (Combined.mkVerifyEnv 300000 300001 300001 VUndefined)).
    reflexivity.
Defined.

(** X20.  The names in the configuration: what a successful redeem returns
    as [username] is the [username] of the Telegram user who asked for the
    code, or [null] when there is none (also in [api/webhook.js], which
    stores the empty string for it); what it returns as [firstName] is the
    [first_name] of that user or, when there is none, the word "there" the
    webhook put in its place, and so never [null]. *)
Theorem config_names :
  (forall b u e uid ve,
      Webhook.read_body b = inr u ->
      Js.get_opt (Verify.config (Webhook.new_record u e) uid ve) (str "username")
      = Js.or (requester_username b) VNull
      /\ Js.get_opt (Verify.config (Webhook.new_record u e) uid ve) (str "firstName")
         = Js.or (requester_first_name b) (VStr (str "there"))
      /\ Js.get_opt (Verify.config (Webhook.new_record u e) uid ve) (str "firstName")
         <> VNull)
  /\ (forall req u e,
         Index.preamble req = inr u ->
         Js.get_opt (Index.config (Index.new_record u e)) (str "username")
         = Js.or (requester_username (body req)) VNull
         /\ Js.get_opt (Index.config (Index.new_record u e)) (str "firstName")
            = Js.or (requester_first_name (body req)) (VStr (str "there"))
         /\ Js.get_opt (Index.config (Index.new_record u e)) (str "firstName")
            <> VNull).
Proof.
  split.
  - intros b u e uid ve Hb.
    destruct (webhook_update_names _ _ Hb) as [Hn [Hf _]].
    cbv beta iota delta [Verify.config Webhook.new_record username firstName].
    change (Js.get_opt (VObj ?l) (str "username"))
      with (Js.or (Webhook.u_username u) VNull).
    change (Js.get_opt (VObj ?l) (str "firstName"))
      with (Js.or (Webhook.u_firstName u) VNull).
    rewrite Hn, Hf.
    destruct (or_default (requester_first_name b) (VStr (str "there")) eq_refl)
      as [E1 E2].
    rewrite E1. split; [now apply or_or_null|]. split; [reflexivity|exact E2].
  - intros req u e Hb.
    destruct (index_update_names _ _ Hb) as [Hn [Hf _]].
    cbv beta iota delta [Index.config Index.new_record username firstName].
    change (Js.get_opt (VObj ?l) (str "username"))
      with (Js.or (Index.field (Index.u_from u) "username") VNull).
    change (Js.get_opt (VObj ?l) (str "firstName"))
      with (Js.or (Index.u_firstName u) VNull).
    rewrite Hn, Hf.
    destruct (or_default (requester_first_name (body req)) (VStr (str "there"))
                eq_refl) as [E1 E2].
    rewrite E1. split; [reflexivity|]. split; [reflexivity|exact E2].
Qed.

(** A user with a first name and no username; a user with neither. *)
Lemma config_names_witness :
  (Js.get_opt
     (Verify.config
        (Webhook.new_record
           (Webhook.mkUpdate (VNum 42) (VNum 42) (VStr (str ""))
              (VStr (str "Ann")) (str "/connect"))
           (Webhook.mkEnv 0 0 0 [] true))
        (str "42") (Verify.mkEnv 0 0 VUndefined))
     (str "username")
   = VNull
   /\ Js.get_opt
        (Verify.config
           (Webhook.new_record
              (Webhook.mkUpdate (VNum 42) (VNum 42) (VStr (str ""))
                 (VStr (str "Ann")) (str "/connect"))
              (Webhook.mkEnv 0 0 0 [] true))
           (str "42") (Verify.mkEnv 0 0 VUndefined))
        (str "firstName")
      = VStr (str "Ann"))
  /\ Js.get_opt
       (Index.config
          (Index.new_record
             (Index.mkUpdate (VNum 7) (VObj [(str "id", VNum 7)])
                (VStr (str "there")) (str "/connect"))
             (Index.mkWebhookEnv 0 0 [] true)))
       (str "firstName")
     = VStr (str "there").
Proof.
  split.
  - destruct (proj1 config_names (Scenario.update_from 42 "/connect")
                (Webhook.mkUpdate (VNum 42) (VNum 42) (VStr (str ""))
                   (VStr (str "Ann")) (str "/connect"))
                (Webhook.mkEnv 0 0 0 [] true) (str "42")
                (Verify.mkEnv 0 0 VUndefined) eq_refl) as [H1 [H2 _]].
    split; [exact H1|exact H2].
  - destruct (proj2 config_names
                (Scenario.post
                   (VObj [(str "message",
                           VObj [(str "text", VStr (str "/connect"));
                                 (str "chat", VObj [(str "id", VNum 7)]);
                                 (str "from", VObj [(str "id", VNum 7)])])]))
                (Index.mkUpdate (VNum 7) (VObj [(str "id", VNum 7)])
                   (VStr (str "there")) (str "/connect"))
                (Index.mkWebhookEnv 0 0 [] true) eq_refl) as [_ [H2 _]].
    exact H2.
Defined.

(** X21.  Which text asks for a code: a webhook call issues a code only
    when the text of the update, with the white space at its ends taken
    off, is [/connect] to the letter; and when a call has read an update
    whose text is [/connect] with any white space around it, the code it
    issues is the one its loop settles on over the swept map. *)
Theorem connect_is_matched_after_trimming (c : call) (st : store) :
  (forall code,
      issued c st = Some code ->
      exists raw,
        update_text (body (request_of c)) = VStr raw
        /\ JsString.trim raw = str "/connect")
  /\ (forall pre post d now,
         update_text (body (request_of c)) = VStr (pre ++ str "/connect" ++ post) ->
         forallb JsString.is_space pre = true ->
         forallb JsString.is_space post = true ->
         new_record c = Some d ->
         sweep_time c = Some now ->
         issued c st = pick_code (draws c) (cleanExpiredCodes now st)).
Proof.
  split.
  - intros code Hi.
    destruct c as [req e|req e|req e|req e|req e|req e]; simpl in *;
      try discriminate.
    + unfold Webhook.preamble in Hi.
      destruct (negb (JsString.eqb (method req) (str "POST"))); [discriminate|].
      destruct (Webhook.read_body (body req)) as [|u] eqn:Eb; [discriminate|].
      destruct (webhook_update_names _ _ Eb) as [_ [_ [raw [Hr Ht]]]].
      destruct (eqb_spec (Webhook.u_text u) (str "/connect")) as [E|];
        [|discriminate].
      exists raw. split; congruence.
    + destruct (Index.preamble req) as [|u] eqn:Eb; [discriminate|].
      destruct (index_update_names _ _ Eb) as [_ [_ [raw [Hr Ht]]]].
      destruct (eqb_spec (Index.u_text u) (str "/connect")) as [E|];
        [|discriminate].
      exists raw. split; congruence.
    + destruct (Webhook.read_body (body req)) as [|u] eqn:Eb; [discriminate|].
      destruct (webhook_update_names _ _ Eb) as [_ [_ [raw [Hr Ht]]]].
      destruct (eqb_spec (Webhook.u_text u) (str "/connect")) as [E|];
        [|discriminate].
      exists raw. split; congruence.
  - intros pre post d now Hraw Hpre Hpost Hn Hs.
    pose proof (trim_padded pre (str "/connect") post Hpre Hpost connect_no_space)
      as Ht.
    destruct c as [req e|req e|req e|req e|req e|req e]; simpl in *;
      try discriminate.
    + unfold Webhook.preamble in *.
      destruct (negb (JsString.eqb (method req) (str "POST"))); [discriminate|].
      destruct (Webhook.read_body (body req)) as [|u] eqn:Eb; [discriminate|].
      destruct (webhook_update_names _ _ Eb) as [_ [_ [raw [Hr Hu]]]].
      rewrite Hraw in Hr. injection Hr as <-. rewrite Hu, Ht.
      injection Hs as <-. reflexivity.
    + destruct (Index.preamble req) as [|u] eqn:Eb; [discriminate|].
      destruct (index_update_names _ _ Eb) as [_ [_ [raw [Hr Hu]]]].
      rewrite Hraw in Hr. injection Hr as <-. rewrite Hu, Ht.
      injection Hs as <-. reflexivity.
    + destruct (Webhook.read_body (body req)) as [|u] eqn:Eb; [discriminate|].
      destruct (webhook_update_names _ _ Eb) as [_ [_ [raw [Hr Hu]]]].
      rewrite Hraw in Hr. injection Hr as <-. rewrite Hu, Ht.
      injection Hs as <-. reflexivity.
Qed.

(** [/connect] between two spaces issues a code; [/connect@ClawWatchSetup]
    does not. *)
Lemma connect_is_matched_after_trimming_witness :
  issued
    (CallWebhook (Scenario.post (Scenario.update_from 42 " /connect "))
       (Webhook.mkEnv 0 0 0 [Scenario.draw_482913] true))
    JsMap.empty
  = pick_code [Scenario.draw_482913] (cleanExpiredCodes 0 JsMap.empty)
  /\ issued
       (CallWebhook (Scenario.post (Scenario.update_from 42 " /connect "))
          (Webhook.mkEnv 0 0 0 [Scenario.draw_482913] true))
       JsMap.empty
     = Some (str "482913")
  /\ issued
       (CallWebhook
          (Scenario.post (Scenario.update_from 42 "/connect@ClawWatchSetup"))
          (Webhook.mkEnv 0 0 0 [Scenario.draw_482913] true))
       JsMap.empty
     = None.
Proof.
  split; [|split; reflexivity].
  apply (proj2 (connect_is_matched_after_trimming
                  (CallWebhook (Scenario.post (Scenario.update_from 42 " /connect "))
                     (Webhook.mkEnv 0 0 0 [Scenario.draw_482913] true))
                  JsMap.empty)
           (str " ") (str " ")
           (Webhook.new_record
              (Webhook.mkUpdate (VNum 42) (VNum 42) (VStr (str ""))
                 (VStr (str "Ann")) (str "/connect"))
              (Webhook.mkEnv 0 0 0 [Scenario.draw_482913] true))
           0);
    reflexivity.
Defined.
